(** * DashCorp Insights: the normalisation pipeline of [src/dashboard.py]

    A shallow embedding of [converter_para_float], [normalizar_colunas],
    [obter_codigo_pais] and of the module-level statements that chain them,
    followed by the properties of the pipeline.

    Python floats are IEEE-754 binary64 values: they are embedded as Rocq's
    primitive floats, whose operations are the same binary64 operations.
    Python ints are unbounded and embedded as [Z]; the [int64] cells of a
    pandas column are [Z] values with the wrap-around written out.
    Strings are [string]s holding the UTF-8 bytes of the Python string;
    column labels are only ever compared for equality, and the character
    level functions ([re.sub], [float]) are embedded for ASCII text. *)

From Stdlib Require Import ZArith Floats Ascii String List Bool Lia.
From stdpp Require Import base option list strings gmap.

Set Warnings "-inexact-float".

Local Open Scope string_scope.
Local Open Scope Z_scope.

(** ** Exceptions and results *)

(** The exception classes that the embedded code can raise. *)
Inductive excecao : Type :=
| TypeError
| ValueError
| KeyError
| ZeroDivisionError
| OverflowError
| LookupError
| AttributeError.

(** The outcome of a Python call: a returned value or a raised exception. *)
Inductive resultado (A : Type) : Type :=
| Retorna (a : A)
| Levanta (e : excecao).

Arguments Retorna {A} a.
Arguments Levanta {A} e.

Definition liga {A B : Type} (r : resultado A) (k : A -> resultado B) : resultado B :=
  match r with
  | Retorna a => k a
  | Levanta e => Levanta e
  end.

(** [try: corpo except: senao] with a bare [except]: every exception is
    caught and the handler runs instead. *)
Definition tenta {A : Type} (corpo senao : resultado A) : resultado A :=
  match corpo with
  | Retorna a => Retorna a
  | Levanta _ => senao
  end.

(** Runs [f] over a list from left to right and stops at the first
    exception. *)
Fixpoint percorre {A B : Type} (f : A -> resultado B) (xs : list A) : resultado (list B) :=
  match xs with
  | [] => Retorna []
  | x :: r =>
      liga (f x) (fun y => liga (percorre f r) (fun ys => Retorna (y :: ys)))
  end.

(** ** Python objects *)

(** The objects a cell can hold.  [PTimestamp] and [PNaT] are what a
    [datetime64] column hands out cell by cell; [POutro] is any object of
    another class (an [ObjectId], a [Decimal], ...), named by its [repr]. *)
Inductive pyobj : Type :=
| PInt (z : Z)
| PFloat (f : float)
| PBool (b : bool)
| PStr (s : string)
| PNone
| PTimestamp (ns : Z)
| PNaT
| POutro (repr : string).

(** ** Conversions to binary64 *)

Module Bin64.

(** Round-to-nearest-even of the integer [z] ([float(z)] without its
    overflow check; [astype(float64)] of an int64). *)
Definition of_Z (z : Z) : float :=
  SF2Prim (binary_normalize prec emax z 0 false).

(** Round-to-nearest-even of the rational [n / d], for [0 <= n] and
    [0 < d].  The quotient is computed with at least 56 significant bits
    and a sticky bit that records a non-zero remainder, and is then
    rounded once. *)
Definition of_ratio (n d : Z) : float :=
  let k := Z.max 0 (Z.log2 d - Z.log2 n + 56) in
  let q := (n * 2 ^ k) / d in
  let r := (n * 2 ^ k) mod d in
  let sticky := if r =? 0 then 0 else 1 in
  SF2Prim (binary_normalize prec emax (2 * q + sticky) (- k - 1) false).

(** The value of [n * 10^e] for [0 <= n], correctly rounded. *)
Definition of_decimal (n e : Z) : float :=
  if n =? 0 then 0%float
  else if 0 <=? e then of_Z (n * 10 ^ e)
  else of_ratio n (10 ^ (- e)).

(** The integers that a finite float is the quotient of:
    [exact f = Some (n, k)] when [f] is exactly [n / 2^k]. *)
Definition exact (f : float) : option (Z * Z) :=
  match Prim2SF f with
  | S754_zero _ => Some (0, 0)
  | S754_finite s m e =>
      let n := if s then Z.neg m else Z.pos m in
      if 0 <=? e then Some (n * 2 ^ e, 0) else Some (n, - e)
  | _ => None
  end.

(** Python's [z == f] between an int and a float compares the exact
    values. *)
Definition eq_Z (z : Z) (f : float) : bool :=
  match exact f with
  | Some (n, k) => z * 2 ^ k =? n
  | None => false
  end.

End Bin64.

(** ** The builtin [float] *)

Module PyFloat.

Definition digito (c : ascii) : option Z :=
  let n := Z.of_N (N_of_ascii c) in
  if (48 <=? n) && (n <=? 57) then Some (n - 48) else None.

(** [str.isspace] on the ASCII range: tab to carriage return, the four
    separators 0x1c to 0x1f, and the space. *)
Definition espaco (c : ascii) : bool :=
  let n := Z.of_N (N_of_ascii c) in
  ((9 <=? n) && (n <=? 13)) || ((28 <=? n) && (n <=? 31)) || (n =? 32).

Definition minuscula (c : ascii) : ascii :=
  let n := N_of_ascii c in
  if ((65 <=? n) && (n <=? 90))%N then ascii_of_N (n + 32) else c.

Fixpoint minusculas (s : string) : string :=
  match s with
  | EmptyString => EmptyString
  | String c r => String (minuscula c) (minusculas r)
  end.

Fixpoint tira_esquerda (s : string) : string :=
  match s with
  | String c r => if espaco c then tira_esquerda r else s
  | EmptyString => EmptyString
  end.

Fixpoint inverte_em (s acc : string) : string :=
  match s with
  | EmptyString => acc
  | String c r => inverte_em r (String c acc)
  end.

Definition inverte (s : string) : string := inverte_em s EmptyString.

(** [s.strip()] *)
Definition strip (s : string) : string :=
  inverte (tira_esquerda (inverte (tira_esquerda s))).

(** The tail of [digitpart ::= digit (["_"] digit)*], after its first
    digit: the digits read so far as a number, how many they are, and the
    text that is left. *)
Fixpoint digitos (acc cnt : Z) (s : string) : Z * Z * string :=
  match s with
  | EmptyString => (acc, cnt, s)
  | String c r =>
      match digito c with
      | Some d => digitos (10 * acc + d) (cnt + 1) r
      | None =>
          if Ascii.eqb c "_" then
            match r with
            | String c2 r2 =>
                match digito c2 with
                | Some d => digitos (10 * acc + d) (cnt + 1) r2
                | None => (acc, cnt, s)
                end
            | EmptyString => (acc, cnt, s)
            end
          else (acc, cnt, s)
      end
  end.

(** [digitpart], prefixed by the digits [acc] already read. *)
Definition digitpart (acc : Z) (s : string) : option (Z * Z * string) :=
  match s with
  | String c r =>
      match digito c with
      | Some d => Some (digitos (10 * acc + d) 1 r)
      | None => None
      end
  | EmptyString => None
  end.

(** [number ::= [digitpart] "." digitpart | digitpart ["."]]: the digits
    of both parts as one integer, the number of fraction digits, the rest. *)
Definition number (s : string) : option (Z * Z * string) :=
  match digitpart 0 s with
  | Some (i, _, r) =>
      match r with
      | String "." r' =>
          match digitpart i r' with
          | Some (n, k, r'') => Some (n, k, r'')
          | None => Some (i, 0, r')
          end
      | _ => Some (i, 0, r)
      end
  | None =>
      match s with
      | String "." r' => digitpart 0 r'
      | _ => None
      end
  end.

Definition sinal (s : string) : bool * string :=
  match s with
  | String "-" r => (true, r)
  | String "+" r => (false, r)
  | _ => (false, s)
  end.

(** [exponent ::= ("e" | "E") [sign] digitpart]; when the text does not
    start with an exponent nothing is consumed. *)
Definition exponent (s : string) : Z * string :=
  match s with
  | String c r =>
      if Ascii.eqb (minuscula c) "e" then
        let '(neg, r1) := sinal r in
        match digitpart 0 r1 with
        | Some (e, _, r2) => (if neg then - e else e, r2)
        | None => (0, s)
        end
      else (0, s)
  | EmptyString => (0, s)
  end.

Definition com_sinal (neg : bool) (f : float) : float :=
  if neg then (- f)%float else f.

(** [float(s)] for a string [s]: the surrounding whitespace is stripped,
    then the whole text must be [[sign] (floatnumber | infinity | nan)];
    the decimal number is rounded to the nearest binary64. *)
Definition of_str (s : string) : resultado float :=
  let '(neg, r) := sinal (strip s) in
  let w := minusculas r in
  if (String.eqb w "inf" || String.eqb w "infinity")%bool then
    Retorna (com_sinal neg infinity)
  else if String.eqb w "nan" then Retorna (com_sinal neg nan)
  else
    match number r with
    | Some (n, k, r1) =>
        match exponent r1 with
        | (e, EmptyString) => Retorna (com_sinal neg (Bin64.of_decimal n (e - k)))
        | _ => Levanta ValueError
        end
    | None => Levanta ValueError
    end.

(** [float(z)] for an int [z]: the nearest binary64, [OverflowError]
    when that is beyond the largest finite one. *)
Definition of_int (z : Z) : resultado float :=
  let f := Bin64.of_Z z in
  if is_infinity f then Levanta OverflowError else Retorna f.

End PyFloat.

(** ** [converter_para_float] *)

(** The character class [[R$\s.]] of the pattern, on ASCII text. *)
Definition na_classe (c : ascii) : bool :=
  Ascii.eqb c "R" || Ascii.eqb c "$" || PyFloat.espaco c || Ascii.eqb c ".".

(** [re.sub(r'[R$\s.]', '', valor)]: every character of the class is
    deleted, wherever it stands. *)
Fixpoint re_sub (valor : string) : string :=
  match valor with
  | EmptyString => EmptyString
  | String c r => if na_classe c then re_sub r else String c (re_sub r)
  end.

(** [s.replace(',', '.')] *)
Fixpoint replace_virgula (s : string) : string :=
  match s with
  | EmptyString => EmptyString
  | String c r => String (if Ascii.eqb c "," then "."%char else c) (replace_virgula r)
  end.

Definition limpo (valor : string) : string := replace_virgula (re_sub valor).

(** [converter_para_float(valor)].  A [bool] is an [int] for [isinstance],
    and [float(True)] is [1.0]; [np.nan] is the float NaN. *)
Definition converter_para_float (valor : pyobj) : resultado float :=
  match valor with
  | PInt z => PyFloat.of_int z
  | PBool b => Retorna (if b then 1%float else 0%float)
  | PFloat f => Retorna f
  | PStr s => PyFloat.of_str (limpo s)
  | PNone | PTimestamp _ | PNaT | POutro _ => Retorna nan
  end.

(** ** [obter_codigo_pais] *)

(** A record of the [pycountry] database; only [alpha_3] is read. *)
Record pais := { nome : string; alpha_3 : string }.

(** [obter_codigo_pais(nome_pais)], over the fuzzy search of [pycountry],
    which is not part of the repository and is taken as [search_fuzzy].
    The body is wrapped in a bare [except] that returns [None]. *)
Definition obter_codigo_pais (search_fuzzy : pyobj -> resultado (list pais))
    (nome_pais : pyobj) : resultado (option string) :=
  tenta
    (liga (search_fuzzy nome_pais) (fun achados =>
       match achados with
       | p :: _ => Retorna (Some (alpha_3 p))
       | [] => Retorna None
       end))
    (Retorna None).

(** ** pandas columns *)

(** A column ([Series]) with its dtype.  [float64] holds NaN for a missing
    value, [datetime64] holds [None] for NaT and a categorical [None] for
    NaN; an [object] column holds Python objects. *)
Inductive series : Type :=
| SFloat64 (xs : list float)
| SInt64 (xs : list Z)
| SObject (xs : list pyobj)
| SDatetime (xs : list (option Z))
| SCategory (xs : list (option string)).

(** Two's complement wrap-around of int64 arithmetic. *)
Definition wrap64 (z : Z) : Z := (z + 2 ^ 63) mod 2 ^ 64 - 2 ^ 63.

(** The cells of a column as Python objects ([astype(object)]). *)
Definition valores (s : series) : list pyobj :=
  match s with
  | SFloat64 xs => PFloat <$> xs
  | SInt64 xs => PInt <$> xs
  | SObject xs => xs
  | SDatetime xs =>
      (fun t => match t with Some ns => PTimestamp ns | None => PNaT end) <$> xs
  | SCategory xs =>
      (fun c => match c with Some l => PStr l | None => PFloat nan end) <$> xs
  end.

Definition vazia (s : series) : bool :=
  match valores s with [] => true | _ => false end.

(** The ints, floats, bools, strings and [None]: the objects whose
    arithmetic is embedded below. *)
Definition basico (o : pyobj) : bool :=
  match o with
  | PInt _ | PFloat _ | PBool _ | PStr _ | PNone => true
  | PTimestamp _ | PNaT | POutro _ => false
  end.

(** A [float64] or [int64] column as [float64] values. *)
Definition numerica (s : series) : option (list float) :=
  match s with
  | SFloat64 xs => Some xs
  | SInt64 xs => Some (Bin64.of_Z <$> xs)
  | _ => None
  end.

(** The cells of a numeric column, or of an object column of basic
    objects. *)
Definition objetos (s : series) : option (list pyobj) :=
  match s with
  | SFloat64 _ | SInt64 _ => Some (valores s)
  | SObject xs => if forallb basico xs then Some xs else None
  | _ => None
  end.

(** [pd.isna] on a basic object. *)
Definition isna (o : pyobj) : bool :=
  match o with
  | PNone => true
  | PFloat f => is_nan f
  | _ => false
  end.

(** ** Python arithmetic on objects *)

Inductive numero : Type :=
| NInt (z : Z)
| NFloat (f : float).

Definition como_numero (o : pyobj) : option numero :=
  match o with
  | PInt z => Some (NInt z)
  | PBool b => Some (NInt (if b then 1 else 0))
  | PFloat f => Some (NFloat f)
  | _ => None
  end.

Definition como_float (n : numero) : resultado float :=
  match n with
  | NInt z => PyFloat.of_int z
  | NFloat f => Retorna f
  end.

(** [a / b] on two ints: the correctly rounded quotient. *)
Definition int_truediv (a b : Z) : resultado float :=
  if b =? 0 then Levanta ZeroDivisionError
  else
    let q := Bin64.of_ratio (Z.abs a) (Z.abs b) in
    if is_infinity q then Levanta OverflowError
    else Retorna (PyFloat.com_sinal (xorb (a <? 0) (b <? 0)) q).

(** [a / b] *)
Definition py_truediv (a b : pyobj) : resultado pyobj :=
  match como_numero a, como_numero b with
  | Some (NInt x), Some (NInt y) => liga (int_truediv x y) (fun q => Retorna (PFloat q))
  | Some x, Some y =>
      liga (como_float x) (fun fx =>
      liga (como_float y) (fun fy =>
        if (fy =? 0)%float then Levanta ZeroDivisionError
        else Retorna (PFloat (fx / fy)%float)))
  | _, _ => Levanta TypeError
  end.

(** [a - b] *)
Definition py_sub (a b : pyobj) : resultado pyobj :=
  match como_numero a, como_numero b with
  | Some (NInt x), Some (NInt y) => Retorna (PInt (x - y))
  | Some x, Some y =>
      liga (como_float x) (fun fx =>
      liga (como_float y) (fun fy => Retorna (PFloat (fx - fy)%float)))
  | _, _ => Levanta TypeError
  end.

(** [b < z] between a float and an int, which Python decides on the exact
    values. *)
Definition float_lt_int (b : float) (z : Z) : bool :=
  match Prim2SF b with
  | S754_nan => false
  | S754_infinity s => s
  | S754_zero _ => 0 <? z
  | S754_finite s m e =>
      let n := if s then Z.neg m else Z.pos m in
      if 0 <=? e then n * 2 ^ e <? z else n <? z * 2 ^ (- e)
  end.

(** [b < o] for a float [b] *)
Definition float_lt (b : float) (o : pyobj) : resultado bool :=
  match como_numero o with
  | Some (NInt z) => Retorna (float_lt_int b z)
  | Some (NFloat f) => Retorna (b <? f)%float
  | None => Levanta TypeError
  end.

(** Arithmetic of two object arrays: the operator runs on every pair of
    cells; when that raises [TypeError] it runs again on the pairs without
    a missing cell and the others become NaN. *)
Definition object_op (op : pyobj -> pyobj -> resultado pyobj)
    (xs ys : list pyobj) : resultado (list pyobj) :=
  match percorre (fun p => op p.1 p.2) (zip xs ys) with
  | Levanta TypeError =>
      percorre
        (fun p => if isna p.1 || isna p.2 then Retorna (PFloat nan) else op p.1 p.2)
        (zip xs ys)
  | r => r
  end.

(** ** The environment *)

(** What the code takes from outside the repository and the embedding
    leaves open: the date functions of pandas, the clock, the country
    database, and what pandas does with [datetime64] and categorical
    columns and with objects that are not basic. *)
Record ambiente : Type := {
  to_datetime : series -> resultado series;
  dt_year : series -> resultado series;
  ano_atual : Z;
  search_fuzzy : pyobj -> resultado (list pais);
  truediv_ext : series -> series -> resultado series;
  rsub_ext : Z -> series -> resultado series;
  cut_ext : series -> resultado series
}.

(** ** pandas operations *)

(** [a / b] on two columns of one table.  Numeric columns are divided as
    [float64]: a zero divisor gives an infinity or NaN, not an exception. *)
Definition truediv (amb : ambiente) (a b : series) : resultado series :=
  match numerica a, numerica b with
  | Some xs, Some ys => Retorna (SFloat64 (zip_with PrimFloat.div xs ys))
  | _, _ =>
      match objetos a, objetos b with
      | Some xs, Some ys => liga (object_op py_truediv xs ys) (fun zs => Retorna (SObject zs))
      | _, _ => truediv_ext amb a b
      end
  end.

(** [n - b] for a Python int [n] and a column [b]. *)
Definition rsub (amb : ambiente) (n : Z) (b : series) : resultado series :=
  match b with
  | SInt64 ys => Retorna (SInt64 ((fun y => wrap64 (n - y)) <$> ys))
  | SFloat64 ys => Retorna (SFloat64 ((fun y => Bin64.of_Z n - y)%float <$> ys))
  | _ =>
      match objetos b with
      | Some ys =>
          liga (object_op py_sub ((fun _ => PInt n) <$> ys) ys)
               (fun zs => Retorna (SObject zs))
      | None => rsub_ext amb n b
      end
  end.

Definition bins : list float :=
  [0%float; 10e6%float; 100e6%float; 500e6%float; 1e9%float; infinity].

Definition labels : list string :=
  ["Micro"; "Pequena"; "Média"; "Grande"; "Corporação"].

(** The label of the cell that [searchsorted(side='left')] places at
    [ids]: none at [0] and at [len(bins)]. *)
Definition rotulo (ids : nat) : option string :=
  if (ids =? 0)%nat || (ids =? length bins)%nat then None
  else labels !! (ids - 1)%nat.

(** [bins.searchsorted(x, side='left')] on the increasing [bins]: the
    number of edges strictly below [x]; NaN sorts after every edge. *)
Definition searchsorted (x : float) : nat :=
  if is_nan x then length bins
  else length (List.filter (fun b => (b <? x)%float) bins).

(** One cell of [pd.cut(x, bins=bins, labels=labels)], with the defaults
    [right=True] and [include_lowest=False]. *)
Definition cut_valor (x : float) : option string :=
  if is_nan x then None else rotulo (searchsorted x).

(** The same on a basic object, compared by Python's [<]. *)
Definition cut_objeto (o : pyobj) : resultado (option string) :=
  liga (percorre (fun b => float_lt b o) bins) (fun ltb =>
    Retorna (if isna o then None
             else rotulo (length (List.filter id ltb)))).

(** [pd.cut(s, bins=bins, labels=labels)] *)
Definition cut (amb : ambiente) (s : series) : resultado series :=
  match numerica s with
  | Some xs => Retorna (SCategory (cut_valor <$> xs))
  | None =>
      match objetos s with
      | Some os => liga (percorre cut_objeto os) (fun cs => Retorna (SCategory cs))
      | None => cut_ext amb s
      end
  end.

(** [s.apply(f)] for an [f] that returns floats: an empty column is
    returned as it is, any other becomes a [float64] column. *)
Definition apply_float (f : pyobj -> resultado float) (s : series) : resultado series :=
  if vazia s then Retorna s
  else liga (percorre f (valores s)) (fun ys => Retorna (SFloat64 ys)).

(** [s.apply(f)] for an [f] that returns a string or [None]. *)
Definition apply_str (f : pyobj -> resultado (option string)) (s : series) : resultado series :=
  if vazia s then Retorna s
  else
    liga (percorre f (valores s)) (fun ys =>
      Retorna (SObject ((fun y => match y with Some t => PStr t | None => PNone end) <$> ys))).

(** ** Tables *)

(** A [DataFrame]: its columns in order, each under its label.  Labels may
    repeat. *)
Definition dataframe : Type := list (string * series).

Definition columns (df : dataframe) : list string := df.*1.

(** [label in df.columns] *)
Definition tem_coluna (label : string) (df : dataframe) : bool :=
  bool_decide (label ∈ columns df).

(** [df.rename(columns=m)] on the labels: a label that is a key of [m] is
    replaced by its value, any other label stays. *)
Definition rename (m : gmap string string) (df : dataframe) : dataframe :=
  (fun c => (default c.1 (m !! c.1), c.2)) <$> df.

(** [df[label]], the column under [label] (the first one, when the label
    repeats); [KeyError] when there is none. *)
Fixpoint getitem (label : string) (df : dataframe) : resultado series :=
  match df with
  | [] => Levanta KeyError
  | (l, s) :: r => if String.eqb l label then Retorna s else getitem label r
  end.

(** [df[label] = s]: replaces the column under [label] or appends a new
    last column. *)
Definition setitem (label : string) (s : series) (df : dataframe) : dataframe :=
  if tem_coluna label df
  then (fun c => if String.eqb c.1 label then (c.1, s) else c) <$> df
  else (df ++ [(label, s)])%list.

Definition mapeamento : gmap string string :=
  list_to_map
    [ ("Nome da Empresa", "nome_empresa");
      ("Setor", "setor");
      ("Receita Anual", "receita_anual");
      ("Nº de Funcionários", "numero_funcionarios");
      ("Nº Funcionários", "numero_funcionarios");
      ("País", "pais");
      ("Data de Fundação", "data_fundacao");
      ("Ano de Fundação", "ano_fundacao");
      ("Ano Fundação", "ano_fundacao");
      ("ID", "id") ].

(** [{col: mapeamento[col] for col in df.columns if col in mapeamento}] *)
Definition colunas_para_renomear (df : dataframe) : gmap string string :=
  list_to_map (omap (fun col => (fun v => (col, v)) <$> mapeamento !! col) (columns df)).

(** ** The store of tables *)

(** The [DataFrame] objects that exist, each at its own address.  A
    variable holds an address; an address that holds no table stands for
    an argument that is not a [DataFrame], and reading its [columns] raises
    [AttributeError]. *)
Definition memoria : Type := list dataframe.

(** A statement: it runs on a store and leaves a result and a store; the
    writes made before an exception stay. *)
Definition M (A : Type) : Type := memoria -> resultado A * memoria.

#[global] Instance M_ret : MRet M := fun A a m => (Retorna a, m).

#[global] Instance M_bind : MBind M := fun A B k c m =>
  match c m with
  | (Retorna a, m') => k a m'
  | (Levanta e, m') => (Levanta e, m')
  end.

Definition eleva {A : Type} (r : resultado A) : M A := fun m => (r, m).

(** The table at [df]. *)
Definition le (df : nat) : M dataframe := fun m =>
  match m !! df with
  | Some t => (Retorna t, m)
  | None => (Levanta AttributeError, m)
  end.

(** An update of the table at [df], in place. *)
Definition escreve (df : nat) (f : dataframe -> dataframe) : M unit := fun m =>
  match m !! df with
  | Some t => (Retorna tt, <[df := f t]> m)
  | None => (Levanta AttributeError, m)
  end.

(** A new table, at an address of its own. *)
Definition aloca (t : dataframe) : M nat := fun m =>
  (Retorna (length m), (m ++ [t])%list).

(** [try: corpo except: senao] on statements. *)
Definition tenta_m {A : Type} (corpo senao : M A) : M A := fun m =>
  match corpo m with
  | (Retorna a, m') => (Retorna a, m')
  | (Levanta _, m') => senao m'
  end.

(** ** [normalizar_colunas] *)

(** The renaming step: [df.rename] returns a new table, and the variable
    [df] is rebound to it only when some label is a key of [mapeamento]. *)
Definition renomear (df : nat) : M nat :=
  t ← le df;
  if bool_decide (colunas_para_renomear t = ∅) then mret df
  else aloca (rename (colunas_para_renomear t) t).

(** The year of foundation, from the date of foundation.  The message that
    the handler prints is not embedded. *)
Definition extrair_ano (amb : ambiente) (df : nat) : M unit :=
  t ← le df;
  if negb (tem_coluna "ano_fundacao" t) && tem_coluna "data_fundacao" t then
    tenta_m
      (s ← eleva (getitem "data_fundacao" t);
       d ← eleva (to_datetime amb s);
       escreve df (setitem "data_fundacao" d);;
       t' ← le df;
       s' ← eleva (getitem "data_fundacao" t');
       y ← eleva (dt_year amb s');
       escreve df (setitem "ano_fundacao" y))
      (mret tt)
  else mret tt.

Definition receita_por_funcionario (amb : ambiente) (df : nat) : M unit :=
  t ← le df;
  if tem_coluna "receita_anual" t && tem_coluna "numero_funcionarios" t then
    a ← eleva (getitem "receita_anual" t);
    b ← eleva (getitem "numero_funcionarios" t);
    q ← eleva (truediv amb a b);
    escreve df (setitem "receita_por_funcionario" q)
  else mret tt.

Definition porte (amb : ambiente) (df : nat) : M unit :=
  t ← le df;
  if tem_coluna "receita_anual" t then
    s ← eleva (getitem "receita_anual" t);
    c ← eleva (cut amb s);
    escreve df (setitem "porte" c)
  else mret tt.

Definition idade_empresa (amb : ambiente) (df : nat) : M unit :=
  t ← le df;
  if tem_coluna "ano_fundacao" t then
    s ← eleva (getitem "ano_fundacao" t);
    i ← eleva (rsub amb (ano_atual amb) s);
    escreve df (setitem "idade_empresa" i)
  else mret tt.

(** [normalizar_colunas(df)]: the argument and the result are addresses
    of tables. *)
Definition normalizar_colunas (amb : ambiente) (df : nat) : M nat :=
  df' ← renomear df;
  extrair_ano amb df';;
  receita_por_funcionario amb df';;
  porte amb df';;
  idade_empresa amb df';;
  mret df'.

(** ** The statements of the module *)

(** The statements that follow [df = carregar_dados()] at the top of the
    module: normalisation, then the conversion of the revenue column, then
    the country codes. *)
Definition pipeline (amb : ambiente) (df : nat) : M nat :=
  df' ← normalizar_colunas amb df;
  t ← le df';
  (if tem_coluna "receita_anual" t then
     s ← eleva (getitem "receita_anual" t);
     r ← eleva (apply_float converter_para_float s);
     escreve df' (setitem "receita_anual" r)
   else mret tt);;
  t' ← le df';
  (if tem_coluna "pais" t' then
     s ← eleva (getitem "pais" t');
     r ← eleva (apply_str (obter_codigo_pais (search_fuzzy amb)) s);
     escreve df' (setitem "codigo_pais" r)
   else mret tt);;
  mret df'.

(** ** Vocabulary of the statements *)

(** The label that the renaming gives to a column labelled [l]. *)
Definition canonico (l : string) : string := default l (mapeamento !! l).

(** The canonical field names, the values of [mapeamento]. *)
Definition canonicos : list string :=
  ["nome_empresa"; "setor"; "receita_anual"; "numero_funcionarios"; "pais";
   "data_fundacao"; "ano_fundacao"; "id"].


(** The characters of a string. *)
Fixpoint caracteres (s : string) : list ascii :=
  match s with
  | EmptyString => []
  | String c r => c :: caracteres r
  end.

(** A missing [float64] cell. *)
Definition ausente (x : float) : bool := is_nan x.

(** A statement leaves the table at [a] as it is. *)
Definition preserva {A : Type} (a : nat) (c : M A) : Prop :=
  forall m : memoria, (c m).2 !! a = m !! a.

(** An environment for the examples: the year is 2025, the country
    database knows Brazil and the United States by their names, and
    nothing else outside the embedding succeeds. *)
Definition ambiente_exemplo : ambiente := {|
  to_datetime := fun _ => Levanta ValueError;
  dt_year := fun _ => Levanta AttributeError;
  ano_atual := 2025;
  search_fuzzy := fun o =>
    match o with
    | PStr "Brasil" => Retorna [ {| nome := "Brazil"; alpha_3 := "BRA" |} ]
    | PStr "United States" =>
        Retorna [ {| nome := "United States"; alpha_3 := "USA" |};
                  {| nome := "United States Minor Outlying Islands"; alpha_3 := "UMI" |} ]
    | PStr _ => Levanta LookupError
    | _ => Levanta AttributeError
    end;
  truediv_ext := fun _ _ => Levanta TypeError;
  rsub_ext := fun _ _ => Levanta TypeError;
  cut_ext := fun _ => Levanta TypeError
|}.

(** A table as [carregar_dados] reads it from the CSV file that
    [exportar_dados_csv] writes: raw labels, revenue as formatted text. *)
Definition tabela_csv : dataframe :=
  [ ("Nome da Empresa", SObject [PStr "Acme"]);
    ("Receita Anual", SObject [PStr "R$ 1.234,56"]);
    ("Nº de Funcionários", SInt64 [10]) ].

(** The same table with the revenue already a number. *)
Definition tabela_csv_convertida : dataframe :=
  [ ("Nome da Empresa", SObject [PStr "Acme"]);
    ("Receita Anual", SFloat64 [1234.56%float]);
    ("Nº de Funcionários", SInt64 [10]) ].

(** A table as [carregar_dados] builds it from the documents of the
    database: the labels are already the canonical ones. *)
Definition tabela_mongo : dataframe :=
  [ ("nome_empresa", SObject [PStr "Acme"; PStr "Bolt"]);
    ("receita_anual", SFloat64 [1000000%float; 1000000%float]);
    ("numero_funcionarios", SInt64 [10; 0]) ].

(** A number: an int, a bool or a float. *)
Definition numerico (valor : pyobj) : bool :=
  match valor with
  | PInt _ | PBool _ | PFloat _ => true
  | _ => false
  end.

(** Python's [valor == f] for a number [valor] and a float [f]. *)
Definition igual_ao_float (valor : pyobj) (f : float) : bool :=
  match valor with
  | PInt z => Bin64.eq_Z z f
  | PBool b => Bin64.eq_Z (if b then 1 else 0) f
  | PFloat g => (g =? f)%float
  | _ => false
  end.

(** ** The statements after the pipeline *)



(** The labels that the pipeline can add to a table. *)
Definition derivadas : list string :=
  ["ano_fundacao"; "receita_por_funcionario"; "porte"; "idade_empresa"; "codigo_pais"].

(** An environment for the examples in which one date parses: the text
    ["2000-01-15"] is the instant 947894400 s after the epoch, of year
    2000. *)
Definition ambiente_datas : ambiente := {|
  to_datetime := fun s =>
    match s with
    | SObject [PStr "2000-01-15"] => Retorna (SDatetime [Some 947894400000000000])
    | SDatetime _ => Retorna s
    | _ => Levanta ValueError
    end;
  dt_year := fun s =>
    match s with
    | SDatetime [Some 947894400000000000] => Retorna (SInt64 [2000])
    | _ => Levanta AttributeError
    end;
  ano_atual := 2025;
  search_fuzzy := fun _ => Levanta LookupError;
  truediv_ext := fun _ _ => Levanta TypeError;
  rsub_ext := fun _ _ => Levanta TypeError;
  cut_ext := fun _ => Levanta TypeError
|}.

(** The cell that [obter_codigo_pais] gives for a name. *)
Definition codigo (busca : pyobj -> resultado (list pais)) (nome_pais : pyobj) : pyobj :=
  match busca nome_pais with
  | Retorna (p :: _) => PStr (alpha_3 p)
  | Retorna [] | Levanta _ => PNone
  end.

(** The two statements of the module after [normalizar_colunas], each on
    its own: the conversion of the revenue and the country codes. *)
Definition converter_receita (df : nat) : M unit :=
  t ← le df;
  if tem_coluna "receita_anual" t then
    s ← eleva (getitem "receita_anual" t);
    r ← eleva (apply_float converter_para_float s);
    escreve df (setitem "receita_anual" r)
  else mret tt.

Definition codigos_de_pais (amb : ambiente) (df : nat) : M unit :=
  t ← le df;
  if tem_coluna "pais" t then
    s ← eleva (getitem "pais" t);
    r ← eleva (apply_str (obter_codigo_pais (search_fuzzy amb)) s);
    escreve df (setitem "codigo_pais" r)
  else mret tt.

(** The labels under which the statements always write. *)
Definition criadas : list string :=
  ["receita_por_funcionario"; "porte"; "idade_empresa"; "codigo_pais"].

(** The writes that the statements make to a table: under a label of
    [criadas]; under ["ano_fundacao"] when the table has no such column;
    under ["data_fundacao"] and ["receita_anual"] when the table has the
    column. *)
Definition pode_escrever (l : string) (t : dataframe) : Prop :=
  l ∈ criadas \/
  (l = "ano_fundacao" /\ tem_coluna l t = false) \/
  (l ∈ ["data_fundacao"; "receita_anual"] /\ tem_coluna l t = true).

(** [escrita t t']: [t'] is [t] after a sequence of such writes. *)
Inductive escrita : dataframe -> dataframe -> Prop :=
| escrita_nada (t : dataframe) : escrita t t
| escrita_coluna (t t' : dataframe) (l : string) (s : series) :
    escrita t t' -> pode_escrever l t' -> escrita t (setitem l s t').

(** A statement makes only such writes to the table at [df]. *)
Definition escreve_em {A : Type} (df : nat) (c : M A) : Prop :=
  forall (m : memoria) (t : dataframe),
    m !! df = Some t -> exists t' : dataframe, (c m).2 !! df = Some t' /\ escrita t t'.

(** A table under its canonical labels. *)
Definition canonica (t : dataframe) : dataframe := (fun c => (canonico c.1, c.2)) <$> t.




(** ** The exporter: [exportar_dados_csv] *)

(** [s.replace(a, b)] for one-character [a] and [b]. *)
Fixpoint replace (a b : ascii) (s : string) : string :=
  match s with
  | EmptyString => EmptyString
  | String c r => String (if Ascii.eqb c a then b else c) (replace a b r)
  end.

(** The character of the decimal digit [d]. *)
Definition algarismo (d : Z) : ascii := ascii_of_N (Z.to_N (48 + d)).

(** The decimal digits of [n >= 0], the least significant first; [fuel]
    bounds their number. *)
Fixpoint algarismos (fuel : nat) (n : Z) : list Z :=
  match fuel with
  | O => [n mod 10]
  | S f => if n <? 10 then [n] else (n mod 10) :: algarismos f (n / 10)
  end.

(** The digits [ds] written in front of [acc], with the [','] of the
    format before every group of three; [k] digits of the current group
    are written already. *)
Fixpoint agrupa (k : nat) (ds : list Z) (acc : string) : string :=
  match ds with
  | [] => acc
  | d :: r =>
      if (k =? 3)%nat then agrupa 1 r (String (algarismo d) (String "," acc))
      else agrupa (S k) r (String (algarismo d) acc)
  end.

(** [m * 2^e] in hundredths, rounded to the nearest integer, ties to
    even: the digits that the format [.2f] prints. *)
Definition centavos (m : positive) (e : Z) : Z :=
  if 0 <=? e then Z.pos m * 2 ^ e * 100
  else
    let d := 2 ^ (- e) in
    let q := (Z.pos m * 100) / d in
    let r := (Z.pos m * 100) mod d in
    if 2 * r <? d then q
    else if d <? 2 * r then q + 1
    else if Z.even q then q else q + 1.

(** [format(x, ',.2f')]: the exact value of [x] rounded to two decimals,
    with a comma between the thousands. *)
Definition format_2f (x : float) : string :=
  match Prim2SF x with
  | S754_nan => "nan"
  | S754_infinity s => if s then "-inf" else "inf"
  | S754_zero s => (if s then "-" else "") ++ "0.00"
  | S754_finite s m e =>
      let n := centavos m e in
      (if s then "-" else "") ++
      agrupa 0 (algarismos (Z.to_nat (Z.log2 (n / 100))) (n / 100))
        (String "." (String (algarismo (n mod 100 / 10)) (String (algarismo (n mod 10)) "")))
  end.

(** The [lambda] of [exportar_dados_csv] on a float:
    [f"R$ {x:,.2f}".replace(',', 'X').replace('.', ',').replace('X', '.')]. *)
Definition receita_formatada (x : float) : string :=
  replace "X" "." (replace "." "," (replace "," "X" ("R$ " ++ format_2f x))).

(** A float rounded to hundredths, ties to even, as a float again. *)
Definition em_centavos (x : float) : float :=
  match Prim2SF x with
  | S754_finite s m e => PyFloat.com_sinal s (Bin64.of_decimal (centavos m e) (-2))
  | _ => x
  end.

(** The digits [ds], the least significant first, written in front of
    [acc]. *)
Fixpoint texto_digitos (ds : list Z) (acc : string) : string :=
  match ds with
  | [] => acc
  | d :: r => texto_digitos r (String (algarismo d) acc)
  end.

(** The number that the digits [ds] write. *)
Fixpoint valor_digitos (ds : list Z) : Z :=
  match ds with
  | [] => 0
  | d :: r => d + 10 * valor_digitos r
  end.

(** What the cleaning of [converter_para_float] leaves of a text that the
    three replacements of the exporter have been through. *)
Definition limpo_exportado (s : string) : string :=
  limpo (replace "X" "." (replace "." "," (replace "," "X" s))).

(** A decimal digit. *)
Definition e_algarismo (d : Z) : Prop := 0 <= d <= 9.

(** The [lambda] on a cell of the revenue column.  An int or a bool is
    formatted as the float it converts to; a string and [None] do not take
    the format; what [format] does with any other object is left open as
    [formato_ext]. *)
Definition formatar (formato_ext : pyobj -> resultado string) (o : pyobj)
    : resultado string :=
  match o with
  | PFloat x => Retorna (receita_formatada x)
  | PInt z => liga (PyFloat.of_int z) (fun x => Retorna (receita_formatada x))
  | PBool b => Retorna (receita_formatada (if b then 1%float else 0%float))
  | PStr _ => Levanta ValueError
  | PNone => Levanta TypeError
  | PTimestamp _ | PNaT | POutro _ => formato_ext o
  end.

(** [colunas_ordenadas], with ['_id'] in front when the table has it. *)
Definition colunas_ordenadas (t : dataframe) : list string :=
  let ordenadas :=
    ["nome_empresa"; "setor"; "receita_anual_formatada"; "numero_funcionarios";
     "pais"; "data_fundacao"; "ano_fundacao"] in
  if tem_coluna "_id" t then "_id" :: ordenadas else ordenadas.

(** [l.remove(x)]: the list without the first [x]. *)
Fixpoint remove_primeiro (x : string) (l : list string) : list string :=
  match l with
  | [] => []
  | y :: r => if String.eqb y x then r else y :: remove_primeiro x r
  end.

(** [colunas_para_exportar]: the ordered labels that the table has, without
    ['receita_anual'] when the formatted revenue is among them. *)
Definition colunas_para_exportar (t : dataframe) : list string :=
  let cs := List.filter (fun col => tem_coluna col t) (colunas_ordenadas t) in
  if bool_decide ("receita_anual" ∈ cs) && bool_decide ("receita_anual_formatada" ∈ cs)
  then remove_primeiro "receita_anual" cs
  else cs.

(** [df[labels]] for a list of labels: the columns under each label, in
    the order of the list; [KeyError] when the table lacks one of them. *)
Definition selecionar (ls : list string) (t : dataframe) : resultado dataframe :=
  liga (percorre
          (fun l => if tem_coluna l t
                    then Retorna (List.filter (fun c => String.eqb c.1 l) t)
                    else Levanta KeyError)
          ls)
       (fun cols => Retorna (concat cols)).

Definition rename_dict : gmap string string :=
  list_to_map
    [ ("nome_empresa", "Nome da Empresa");
      ("setor", "Setor");
      ("receita_anual_formatada", "Receita Anual");
      ("numero_funcionarios", "Nº de Funcionários");
      ("pais", "País");
      ("data_fundacao", "Data de Fundação");
      ("ano_fundacao", "Ano de Fundação");
      ("_id", "ID") ].

(** [exportar_dados_csv], on the table [self.df]: the table as the method
    leaves it, with the formatted revenue, and the table [df_export] that
    it writes to the files.  The writing itself is not embedded. *)
Definition exportar_dados_csv (formato_ext : pyobj -> resultado string) (t : dataframe)
    : resultado (dataframe * dataframe) :=
  liga (getitem "receita_anual" t) (fun s =>
  liga (apply_str (fun o => liga (formatar formato_ext o) (fun x => Retorna (Some x))) s)
       (fun f =>
  let t1 := setitem "receita_anual_formatada" f t in
  liga (selecionar (colunas_para_exportar t1) t1) (fun df_export =>
  Retorna (t1, rename rename_dict df_export)))).

(** The label under which a column is exported. *)
Definition rotulo_exportado (c : string) : string := default c (rename_dict !! c).

(** The canonical label that the dashboard gives to an exported column. *)
Definition rotulo_relido (c : string) : string :=
  if String.eqb c "receita_anual_formatada" then "receita_anual"
  else if String.eqb c "_id" then "id"
  else c.

(** The columns of a table under a label. *)
Definition sob_rotulo (l : string) (t : dataframe) : dataframe :=
  List.filter (fun c => String.eqb c.1 l) t.

(** ** The filters of [update_graficos] *)

(** The two comparisons of the range filters. *)
Inductive sentido : Type :=
| MaiorIgual
| MenorIgual.

Definition compara_floats (op : sentido) (x b : float) : bool :=
  match op with
  | MaiorIgual => (b <=? x)%float
  | MenorIgual => (x <=? b)%float
  end.

Definition compara_ints (op : sentido) (x b : Z) : bool :=
  match op with
  | MaiorIgual => b <=? x
  | MenorIgual => x <=? b
  end.

(** [s >= n] and [s <= n] for a column [s] and a Python number [n].  A
    [float64] column is compared with the float of [n], an [int64] column
    with an int of the [int64] range as integers and with a float as
    floats.  The other cases are left open as [ext]. *)
Definition compara (ext : sentido -> series -> numero -> resultado (list bool))
    (op : sentido) (s : series) (n : numero) : resultado (list bool) :=
  match s, n with
  | SFloat64 xs, NFloat b => Retorna ((fun x => compara_floats op x b) <$> xs)
  | SFloat64 xs, NInt z =>
      if is_infinity (Bin64.of_Z z) then ext op s n
      else Retorna ((fun x => compara_floats op x (Bin64.of_Z z)) <$> xs)
  | SInt64 xs, NInt z =>
      if (- 2 ^ 63 <=? z) && (z <? 2 ^ 63)
      then Retorna ((fun x => compara_ints op x z) <$> xs)
      else ext op s n
  | SInt64 xs, NFloat b =>
      Retorna ((fun x => compara_floats op (Bin64.of_Z x) b) <$> xs)
  | _, _ => ext op s n
  end.

(** [s.isin(values)] for a list of strings.  A categorical cell is in the
    list when its label is, a string cell when it is, any other basic
    object is not; the other columns are left open as [ext]. *)
Definition isin (ext : series -> list string -> resultado (list bool))
    (s : series) (values : list string) : resultado (list bool) :=
  match s with
  | SCategory xs =>
      Retorna ((fun c => match c with
                         | Some l => bool_decide (l ∈ values)
                         | None => false
                         end) <$> xs)
  | SObject xs =>
      if forallb basico xs
      then Retorna ((fun o => match o with
                              | PStr l => bool_decide (l ∈ values)
                              | _ => false
                              end) <$> xs)
      else ext s values
  | _ => ext s values
  end.

(** The cells that a boolean mask keeps. *)
Fixpoint mascara {A : Type} (m : list bool) (xs : list A) : list A :=
  match m, xs with
  | b :: m', x :: xs' => if b then x :: mascara m' xs' else mascara m' xs'
  | _, _ => []
  end.

(** [s[mask]] *)
Definition filtra_series (m : list bool) (s : series) : series :=
  match s with
  | SFloat64 xs => SFloat64 (mascara m xs)
  | SInt64 xs => SInt64 (mascara m xs)
  | SObject xs => SObject (mascara m xs)
  | SDatetime xs => SDatetime (mascara m xs)
  | SCategory xs => SCategory (mascara m xs)
  end.

(** [df[mask]]: the rows that the mask keeps, in every column. *)
Definition filtra (m : list bool) (t : dataframe) : dataframe :=
  (fun c => (c.1, filtra_series m c.2)) <$> t.

(** [n * 1e6] for a Python number [n]. *)
Definition vezes_1e6 (n : numero) : resultado numero :=
  liga (como_float n) (fun f => Retorna (NFloat (f * 1e6)%float)).

(** [dff[(dff[label] >= lo) & (dff[label] <= hi)]], with the bounds
    computed by [limite]. *)
Definition entre (ext : sentido -> series -> numero -> resultado (list bool))
    (limite : numero -> resultado numero)
    (label : string) (faixa : numero * numero) (dff : dataframe) : resultado dataframe :=
  liga (getitem label dff) (fun s1 =>
  liga (limite faixa.1) (fun lo =>
  liga (compara ext MaiorIgual s1 lo) (fun m1 =>
  liga (getitem label dff) (fun s2 =>
  liga (limite faixa.2) (fun hi =>
  liga (compara ext MenorIgual s2 hi) (fun m2 =>
  Retorna (filtra (zip_with andb m1 m2) dff))))))).

(** [dff[dff[label].isin(values)]] when [values] is a list that is not
    empty; [dff] itself when it is [None] or empty. *)
Definition entre_os (ext : series -> list string -> resultado (list bool))
    (label : string) (values : option (list string)) (dff : dataframe)
    : resultado dataframe :=
  match values with
  | Some (v :: vs) =>
      liga (getitem label dff) (fun s =>
      liga (isin ext s (v :: vs)) (fun m =>
      Retorna (filtra m dff)))
  | _ => Retorna dff
  end.

(** The table [dff] of [update_graficos] after its five filters, for the
    table [df] of the module and the values of the controls. *)
Definition update_graficos_dff
    (ext : sentido -> series -> numero -> resultado (list bool))
    (isin_ext : series -> list string -> resultado (list bool))
    (df : dataframe)
    (setores_selecionados : option (list string))
    (faixa_receita faixa_funcionarios faixa_ano : numero * numero)
    (porte_selecionado : option (list string)) : resultado dataframe :=
  liga (entre_os isin_ext "setor" setores_selecionados df) (fun dff =>
  liga (entre ext vezes_1e6 "receita_anual" faixa_receita dff) (fun dff =>
  liga (entre ext (fun n => Retorna n) "numero_funcionarios" faixa_funcionarios dff)
       (fun dff =>
  liga (entre ext (fun n => Retorna n) "ano_fundacao" faixa_ano dff) (fun dff =>
  entre_os isin_ext "porte" porte_selecionado dff)))).

(** The mask that keeps what [m2] keeps of what [m1] keeps. *)
Fixpoint compoe (m1 m2 : list bool) : list bool :=
  match m1 with
  | [] => []
  | true :: r1 =>
      match m2 with
      | b :: r2 => b :: compoe r1 r2
      | [] => []
      end
  | false :: r1 => false :: compoe r1 m2
  end.

(** The table of the examples after the pipeline: two companies, the
    second with no revenue on record. *)
Definition tabela_painel : dataframe :=
  [ ("setor", SObject [PStr "Energia"; PStr "Energia"]);
    ("receita_anual", SFloat64 [2500000%float; nan]);
    ("numero_funcionarios", SInt64 [10; 20]);
    ("ano_fundacao", SInt64 [2000; 2010]);
    ("porte", SCategory [Some "Micro"; None]) ].

(** The float that a [float64] column is compared with, for a Python
    number. *)
Definition limite_float (n : numero) : option float :=
  match n with
  | NFloat b => Some b
  | NInt z => if is_infinity (Bin64.of_Z z) then None else Some (Bin64.of_Z z)
  end.

(** A float between two floats; NaN is between none. *)
Definition dentro (lo hi x : float) : Prop :=
  (lo <=? x)%float = true /\ (x <=? hi)%float = true.

(** A [float64] column, an [int64] column, a column of objects and a
    categorical column whose cells all satisfy [P]. *)
Definition floats_em (P : float -> Prop) (s : series) : Prop :=
  exists xs, s = SFloat64 xs /\ Forall P xs.

Definition ints_em (P : Z -> Prop) (s : series) : Prop :=
  exists xs, s = SInt64 xs /\ Forall P xs.



(** The table has a column under [l] that satisfies [Q]. *)
Definition coluna (l : string) (Q : series -> Prop) (t : dataframe) : Prop :=
  exists s, getitem l t = Retorna s /\ Q s.

(** A property of columns that filtering rows keeps. *)
Definition hereditaria (Q : series -> Prop) : Prop :=
  forall (m : list bool) (s : series), Q s -> Q (filtra_series m s).

(** The number of rows of the longest column. *)
Definition altura (t : dataframe) : nat :=
  foldr (fun c n => Nat.max (length (valores c.2)) n) 0%nat t.

(** * Properties *)

(** ** The order of binary64 values *)

Ltac casos_cmp :=
  repeat match goal with
  | |- context [Z.compare ?a ?b] =>
      destruct (Z.compare_spec a b); try lia; subst
  | |- context [Pos.compare_cont Eq ?a ?b] =>
      change (Pos.compare_cont Eq a b) with (Pos.compare a b)
  | |- context [Pos.compare ?a ?b] =>
      destruct (Pos.compare_spec a b); try lia; subst
  end.

Ltac fecha :=
  cbv beta iota delta [CompOpp]; intros; try discriminate;
  try match goal with |- ?a = ?a => reflexivity end.

(** Comparisons of sign, exponent and mantissa, by cases. *)
Ltac ordem :=
  unfold SFltb, SFleb, SFeqb, SFcompare;
  repeat match goal with
  | x : spec_float |- _ => destruct x as [[] | [] | | [] ? ?]
  end; cbv beta iota delta [CompOpp]; try solve [fecha]; casos_cmp;
  cbv beta iota delta [CompOpp]; fecha.

Lemma SFltb_trans (a b c : spec_float) :
  SFltb a b = true -> SFltb b c = true -> SFltb a c = true.
Proof. ordem. Qed.

Lemma SFleb_nao_ltb (a x : spec_float) : SFleb x a = true -> SFltb a x = false.
Proof. ordem. Qed.

Lemma SFltb_assimetrica (a x : spec_float) : SFltb x a = true -> SFltb a x = false.
Proof. ordem. Qed.

Lemma SFltb_presente_r (a x : spec_float) : SFltb a x = true -> SFeqb x x = true.
Proof. ordem. Qed.

Lemma SFltb_presente_l (a x : spec_float) : SFltb x a = true -> SFeqb x x = true.
Proof. ordem. Qed.

Lemma SFltb_infinito (x : spec_float) : SFltb (S754_infinity false) x = false.
Proof. ordem. Qed.

Lemma ltb_trans (a b c : float) :
  (a <? b)%float = true -> (b <? c)%float = true -> (a <? c)%float = true.
Proof. rewrite !ltb_spec. apply SFltb_trans. Qed.

Lemma leb_nao_ltb (a x : float) : (x <=? a)%float = true -> (a <? x)%float = false.
Proof. rewrite ltb_spec, leb_spec. apply SFleb_nao_ltb. Qed.

Lemma ltb_assimetrica (a x : float) : (x <? a)%float = true -> (a <? x)%float = false.
Proof. rewrite !ltb_spec. apply SFltb_assimetrica. Qed.

Lemma ltb_presente_r (a x : float) : (a <? x)%float = true -> is_nan x = false.
Proof.
  unfold is_nan. rewrite ltb_spec, FloatAxioms.eqb_spec.
  intros H. rewrite (SFltb_presente_r _ _ H). reflexivity.
Qed.

Lemma ltb_presente_l (a x : float) : (x <? a)%float = true -> is_nan x = false.
Proof.
  unfold is_nan. rewrite ltb_spec, FloatAxioms.eqb_spec.
  intros H. rewrite (SFltb_presente_l _ _ H). reflexivity.
Qed.

Lemma ltb_infinito (x : float) : (infinity <? x)%float = false.
Proof. rewrite ltb_spec. apply SFltb_infinito. Qed.

(** An edge that is not below [x] has no larger edge below [x]. *)
Lemma nao_acima (a b x : float) :
  (a <? b)%float = true -> (a <? x)%float = false -> (b <? x)%float = false.
Proof.
  intros Hab Ha. destruct (b <? x)%float eqn:Hb; [ | reflexivity].
  rewrite (ltb_trans a b x Hab Hb) in Ha. discriminate.
Qed.

(** ** The size tier *)

(** [searchsorted] counts the edges below [x]. *)
Lemma searchsorted_conta (x : float) :
  is_nan x = false ->
  searchsorted x =
    (Nat.b2n (0 <? x)%float + Nat.b2n (10e6 <? x)%float + Nat.b2n (100e6 <? x)%float
     + Nat.b2n (500e6 <? x)%float + Nat.b2n (1e9 <? x)%float
     + Nat.b2n (infinity <? x)%float)%nat.
Proof.
  intros Hn. unfold searchsorted, bins. rewrite Hn. cbn [List.filter].
  generalize (0 <? x)%float, (10e6 <? x)%float, (100e6 <? x)%float,
    (500e6 <? x)%float, (1e9 <? x)%float, (infinity <? x)%float.
  intros [] [] [] [] [] []; reflexivity.
Qed.

(** The label of a present [x], from the six comparisons with the edges. *)
Lemma cut_valor_conta (x : float) (b0 b1 b2 b3 b4 : bool) :
  is_nan x = false ->
  (0 <? x)%float = b0 -> (10e6 <? x)%float = b1 -> (100e6 <? x)%float = b2 ->
  (500e6 <? x)%float = b3 -> (1e9 <? x)%float = b4 ->
  cut_valor x =
    rotulo (Nat.b2n b0 + Nat.b2n b1 + Nat.b2n b2 + Nat.b2n b3 + Nat.b2n b4).
Proof.
  intros Hn <- <- <- <- <-. unfold cut_valor.
  rewrite Hn, (searchsorted_conta x Hn), ltb_infinito.
  cbn [Nat.b2n]. rewrite Nat.add_0_r. reflexivity.
Qed.

Lemma cut_micro (x : float) :
  (0 <? x)%float = true -> (x <=? 10e6)%float = true ->
  cut_valor x = Some "Micro".
Proof.
  intros H0 H1.
  pose proof (leb_nao_ltb _ _ H1) as B1.
  pose proof (nao_acima 10e6 100e6 x eq_refl B1) as B2.
  pose proof (nao_acima 100e6 500e6 x eq_refl B2) as B3.
  pose proof (nao_acima 500e6 1e9 x eq_refl B3) as B4.
  rewrite (cut_valor_conta x _ _ _ _ _ (ltb_presente_r _ _ H0) H0 B1 B2 B3 B4).
  reflexivity.
Qed.

Lemma cut_pequena (x : float) :
  (10e6 <? x)%float = true -> (x <=? 100e6)%float = true ->
  cut_valor x = Some "Pequena".
Proof.
  intros H1 H2.
  pose proof (ltb_trans 0 10e6 x eq_refl H1) as H0.
  pose proof (leb_nao_ltb _ _ H2) as B2.
  pose proof (nao_acima 100e6 500e6 x eq_refl B2) as B3.
  pose proof (nao_acima 500e6 1e9 x eq_refl B3) as B4.
  rewrite (cut_valor_conta x _ _ _ _ _ (ltb_presente_r _ _ H0) H0 H1 B2 B3 B4).
  reflexivity.
Qed.

Lemma cut_media (x : float) :
  (100e6 <? x)%float = true -> (x <=? 500e6)%float = true ->
  cut_valor x = Some "Média".
Proof.
  intros H2 H3.
  pose proof (ltb_trans 10e6 100e6 x eq_refl H2) as H1.
  pose proof (ltb_trans 0 10e6 x eq_refl H1) as H0.
  pose proof (leb_nao_ltb _ _ H3) as B3.
  pose proof (nao_acima 500e6 1e9 x eq_refl B3) as B4.
  rewrite (cut_valor_conta x _ _ _ _ _ (ltb_presente_r _ _ H0) H0 H1 H2 B3 B4).
  reflexivity.
Qed.

Lemma cut_grande (x : float) :
  (500e6 <? x)%float = true -> (x <=? 1e9)%float = true ->
  cut_valor x = Some "Grande".
Proof.
  intros H3 H4.
  pose proof (ltb_trans 100e6 500e6 x eq_refl H3) as H2.
  pose proof (ltb_trans 10e6 100e6 x eq_refl H2) as H1.
  pose proof (ltb_trans 0 10e6 x eq_refl H1) as H0.
  pose proof (leb_nao_ltb _ _ H4) as B4.
  rewrite (cut_valor_conta x _ _ _ _ _ (ltb_presente_r _ _ H0) H0 H1 H2 H3 B4).
  reflexivity.
Qed.

Lemma cut_corporacao (x : float) :
  (1e9 <? x)%float = true -> cut_valor x = Some "Corporação".
Proof.
  intros H4.
  pose proof (ltb_trans 500e6 1e9 x eq_refl H4) as H3.
  pose proof (ltb_trans 100e6 500e6 x eq_refl H3) as H2.
  pose proof (ltb_trans 10e6 100e6 x eq_refl H2) as H1.
  pose proof (ltb_trans 0 10e6 x eq_refl H1) as H0.
  rewrite (cut_valor_conta x _ _ _ _ _ (ltb_presente_r _ _ H0) H0 H1 H2 H3 H4).
  reflexivity.
Qed.

Lemma cut_negativa (x : float) :
  (x <? 0)%float = true -> cut_valor x = None.
Proof.
  intros H.
  pose proof (ltb_assimetrica _ _ H) as B0.
  pose proof (nao_acima 0 10e6 x eq_refl B0) as B1.
  pose proof (nao_acima 10e6 100e6 x eq_refl B1) as B2.
  pose proof (nao_acima 100e6 500e6 x eq_refl B2) as B3.
  pose proof (nao_acima 500e6 1e9 x eq_refl B3) as B4.
  rewrite (cut_valor_conta x _ _ _ _ _ (ltb_presente_l _ _ H) B0 B1 B2 B3 B4).
  reflexivity.
Qed.

Lemma cut_ausente (x : float) : ausente x = true -> cut_valor x = None.
Proof. unfold cut_valor, ausente. intros ->. reflexivity. Qed.

(** The lowest edge is outside the first interval. *)
Lemma cut_zero : cut_valor 0 = None.
Proof. reflexivity. Qed.

(** C1, as the code has it.  [pd.cut] is called with its defaults, under
    which every interval is open on the left and closed on the right: a
    revenue in (0, 10M] is Micro, in (10M, 100M] Pequena, in (100M, 500M]
    Média, in (500M, 1B] Grande, and above 1B (infinity included)
    Corporação.  So 9_999_999 and 10_000_000 are both Micro, 999_999_999
    and 1_000_000_000 both Grande.  A negative or missing revenue has no
    label, and a [float64] column is labelled cell by cell. *)
Theorem C1_porte_intervalos_fechados_a_direita (x : float) :
  ((0 <? x)%float = true -> (x <=? 10e6)%float = true ->
     cut_valor x = Some "Micro") /\
  ((10e6 <? x)%float = true -> (x <=? 100e6)%float = true ->
     cut_valor x = Some "Pequena") /\
  ((100e6 <? x)%float = true -> (x <=? 500e6)%float = true ->
     cut_valor x = Some "Média") /\
  ((500e6 <? x)%float = true -> (x <=? 1e9)%float = true ->
     cut_valor x = Some "Grande") /\
  ((1e9 <? x)%float = true -> cut_valor x = Some "Corporação") /\
  ((x <? 0)%float = true -> cut_valor x = None) /\
  (ausente x = true -> cut_valor x = None) /\
  cut_valor 9999999 = Some "Micro" /\
  cut_valor 10000000 = Some "Micro" /\
  cut_valor 999999999 = Some "Grande" /\
  cut_valor 1000000000 = Some "Grande" /\
  (forall (amb : ambiente) (xs : list float),
     cut amb (SFloat64 xs) = Retorna (SCategory (cut_valor <$> xs))).
Proof.
  split; [apply cut_micro | ].
  split; [apply cut_pequena | ].
  split; [apply cut_media | ].
  split; [apply cut_grande | ].
  split; [apply cut_corporacao | ].
  split; [apply cut_negativa | ].
  split; [apply cut_ausente | ].
  repeat split; reflexivity.
Qed.

(** The theorem at a revenue of 50 million, on the second interval. *)
Lemma C1_porte_witness :
  (10e6 <? 50e6)%float = true /\ (50e6 <=? 100e6)%float = true /\
  cut_valor 50e6 = Some "Pequena".
Proof.
  split; [reflexivity | split; [reflexivity | ]].
  apply (proj1 (proj2 (C1_porte_intervalos_fechados_a_direita 50e6))); reflexivity.
Defined.

(** A revenue of exactly 10_000_000 lies in [10M, 100M) and is labelled
    Micro, not Pequena; one of exactly 1_000_000_000 lies in [1B, inf) and
    is labelled Grande, not Corporação. *)
Lemma C1_porte_counterexample :
  (10e6 <=? 10000000)%float = true /\ (10000000 <? 100e6)%float = true /\
  cut_valor 10000000 = Some "Micro" /\
  cut_valor 10000000 <> Some "Pequena" /\
  (1e9 <=? 1000000000)%float = true /\
  cut_valor 1000000000 = Some "Grande" /\
  cut_valor 1000000000 <> Some "Corporação".
Proof. repeat split; try reflexivity; discriminate. Qed.

(** ** Ints that are binary64 values *)

Lemma digits2_iter_xO (p k : positive) :
  digits2_pos (Pos.iter xO p k) = (digits2_pos p + k)%positive.
Proof.
  induction k as [ | k IH] using Pos.peano_ind.
  - cbn. rewrite Pos.add_1_r. reflexivity.
  - rewrite Pos.iter_succ. cbn [digits2_pos]. rewrite IH, Pos.add_succ_r. reflexivity.
Qed.

Lemma iter_xO_potencia (p k : positive) :
  Z.pos (Pos.iter xO p k) = Z.pos p * 2 ^ Z.pos k.
Proof.
  induction k as [ | k IH] using Pos.peano_ind.
  - cbn. lia.
  - rewrite Pos.iter_succ, Pos2Z.inj_succ, Z.pow_succ_r by lia.
    rewrite Pos2Z.inj_xO, IH. lia.
Qed.

Lemma digits2_minimo (p : positive) :
  2 ^ (Z.pos (digits2_pos p) - 1) <= Z.pos p.
Proof.
  induction p as [p IH | p IH | ]; cbn [digits2_pos].
  - rewrite Pos2Z.inj_succ.
    replace (Z.succ (Z.pos (digits2_pos p)) - 1) with (Z.succ (Z.pos (digits2_pos p) - 1)) by lia.
    rewrite Z.pow_succ_r by lia. lia.
  - rewrite Pos2Z.inj_succ.
    replace (Z.succ (Z.pos (digits2_pos p)) - 1) with (Z.succ (Z.pos (digits2_pos p) - 1)) by lia.
    rewrite Z.pow_succ_r by lia. lia.
  - cbn. lia.
Qed.

Lemma digits2_limite (p : positive) :
  Z.pos p < 2 ^ 53 -> Z.pos (digits2_pos p) <= 53.
Proof.
  intros H. destruct (Z_le_gt_dec (Z.pos (digits2_pos p)) 53) as [ | Hgt]; [assumption | ].
  pose proof (digits2_minimo p) as Hmin.
  assert (2 ^ 53 <= 2 ^ (Z.pos (digits2_pos p) - 1)) by (apply Z.pow_le_mono_r; lia).
  lia.
Qed.

(** A mantissa of 53 bits is not rounded. *)
Lemma binary_round_aux_exato (s : bool) (m : positive) (e : Z) :
  Z.pos (digits2_pos m) = 53 -> -1074 <= e <= 971 ->
  binary_round_aux prec emax s (Z.pos m) e loc_Exact = S754_finite s m e.
Proof.
  intros Hd He.
  unfold binary_round_aux, shr_fexp, fexp, emin, Zdigits2, shr_record_of_loc.
  rewrite Hd. change prec with 53. change emax with 1024.
  replace (Z.max (53 + e - 53) (3 - 1024 - 53) - e) with 0 by lia.
  cbn [shr shr_m loc_of_shr_record round_nearest_even].
  rewrite Hd.
  replace (Z.max (53 + e - 53) (3 - 1024 - 53) - e) with 0 by lia.
  cbn [shr shr_m].
  replace (e <=? 1024 - 53) with true by (symmetry; apply Z.leb_le; lia).
  reflexivity.
Qed.

(** The binary64 value of a positive int below 2^53: the int itself,
    normalised to 53 bits. *)
Lemma binary_round_inteiro (s : bool) (p : positive) :
  Z.pos p < 2 ^ 53 ->
  exists (m : positive) (k : Z),
    binary_round prec emax s p 0 = S754_finite s m (- k) /\
    0 <= k <= 52 /\ Z.pos m = Z.pos p * 2 ^ k /\ Z.pos (digits2_pos m) = 53.
Proof.
  intros Hp. pose proof (digits2_limite p Hp) as Hd.
  unfold binary_round, shl_align, fexp, emin.
  change prec with 53. change emax with 1024.
  replace (Z.max (Z.pos (digits2_pos p) + 0 - 53) (3 - 1024 - 53) - 0)
    with (Z.pos (digits2_pos p) - 53) by lia.
  destruct (Z.pos (digits2_pos p) - 53) as [ | q | q] eqn:Hq; [ | lia | ].
  - exists p, 0. replace (Z.max (Z.pos (digits2_pos p) + 0 - 53) (3 - 1024 - 53)) with 0 by lia.
    change (- 0) with 0.
    rewrite <- (binary_round_aux_exato s p 0) by lia.
    split; [ | split; [lia | split; lia]].
    change prec with 53. change emax with 1024. reflexivity.
  - exists (Pos.iter xO p q), (Z.pos q).
    assert (Hdig : Z.pos (digits2_pos (Pos.iter xO p q)) = 53).
    { rewrite digits2_iter_xO, Pos2Z.inj_add. lia. }
    replace (Z.max (Z.pos (digits2_pos p) + 0 - 53) (3 - 1024 - 53)) with (- Z.pos q) by lia.
    rewrite <- (binary_round_aux_exato s (Pos.iter xO p q) (- Z.pos q)) by lia.
    split; [change prec with 53; change emax with 1024; reflexivity | ].
    split; [lia | ]. split; [apply iter_xO_potencia | exact Hdig].
Qed.

Lemma finito_valido (s : bool) (m : positive) (k : Z) :
  0 <= k <= 52 -> Z.pos (digits2_pos m) = 53 ->
  valid_binary (S754_finite s m (- k)) = true.
Proof.
  intros Hk Hd.
  unfold valid_binary, SpecFloat.valid_binary, bounded, canonical_mantissa, fexp, emin.
  rewrite Hd. change prec with 53. change emax with 1024.
  apply andb_true_intro. split; [apply Z.eqb_eq | apply Z.leb_le]; lia.
Qed.

Lemma finito_nao_infinito (f : float) (s : bool) (m : positive) (e : Z) :
  Prim2SF f = S754_finite s m e -> is_infinity f = false.
Proof.
  intros H. unfold is_infinity. rewrite FloatAxioms.eqb_spec, abs_spec, H. reflexivity.
Qed.

(** An int of magnitude below 2^53 converts to the float of the same
    value. *)
Lemma of_int_exato (z : Z) :
  - 2 ^ 53 < z < 2 ^ 53 ->
  exists f : float, PyFloat.of_int z = Retorna f /\ Bin64.eq_Z z f = true.
Proof.
  intros Hz. unfold PyFloat.of_int, Bin64.of_Z.
  destruct z as [ | p | p].
  - exists 0%float. split; reflexivity.
  - destruct (binary_round_inteiro false p) as (m & k & E & Hk & Hm & Hd); [lia | ].
    cbn [binary_normalize]. rewrite E.
    pose proof (Prim2SF_SF2Prim _ (finito_valido false m k Hk Hd)) as HP.
    rewrite (finito_nao_infinito _ _ _ _ HP).
    eexists. split; [reflexivity | ].
    unfold Bin64.eq_Z, Bin64.exact. rewrite HP.
    destruct (0 <=? - k) eqn:Hs.
    + apply Z.leb_le in Hs. assert (k = 0) as -> by lia.
      apply Z.eqb_eq. cbn in Hm |- *. lia.
    + apply Z.eqb_eq. rewrite Z.opp_involutive. lia.
  - destruct (binary_round_inteiro true p) as (m & k & E & Hk & Hm & Hd); [lia | ].
    cbn [binary_normalize]. rewrite E.
    pose proof (Prim2SF_SF2Prim _ (finito_valido true m k Hk Hd)) as HP.
    rewrite (finito_nao_infinito _ _ _ _ HP).
    eexists. split; [reflexivity | ].
    unfold Bin64.eq_Z, Bin64.exact. rewrite HP.
    destruct (0 <=? - k) eqn:Hs.
    + apply Z.leb_le in Hs. assert (k = 0) as -> by lia.
      apply Z.eqb_eq. cbn in Hm |- *. lia.
    + apply Z.eqb_eq. rewrite Z.opp_involutive. lia.
Qed.

(** ** [converter_para_float] *)







(** C2, at the failing input: [float("abc")] raises [ValueError] and no
    handler stands between it and the caller, so converting a revenue
    column stops at the first cell that does not parse.  The values that are
    neither numbers nor strings do become NaN. *)
Theorem C2_texto_que_nao_e_numero_levanta :
  limpo "abc" = "abc" /\
  converter_para_float (PStr "abc") = Levanta ValueError /\
  apply_float converter_para_float
    (SObject [PStr "R$ 10,00"; PStr "abc"; PStr "R$ 30,00"]) = Levanta ValueError /\
  converter_para_float PNone = Retorna nan /\
  converter_para_float PNaT = Retorna nan /\
  (forall ns : Z, converter_para_float (PTimestamp ns) = Retorna nan) /\
  (forall repr : string, converter_para_float (POutro repr) = Retorna nan).
Proof.
  split; [reflexivity | ].
  split; [vm_compute; reflexivity | ].
  split; [vm_compute; reflexivity | ].
  repeat split; reflexivity.
Qed.

(** C5, as the code has it.  A float is returned as it is, so converting
    the result of a conversion changes nothing; an int or a bool becomes
    the nearest binary64 value, which is the same number for every int of
    magnitude up to 2^53 (5 becomes 5.0, [True] becomes 1.0); and
    ["R$ 1.234,56"] becomes exactly 1234.56. *)
Theorem C5_conversao_idempotente :
  (forall f : float, converter_para_float (PFloat f) = Retorna f) /\
  (forall (valor : pyobj) (r : float),
     converter_para_float valor = Retorna r ->
     converter_para_float (PFloat r) = Retorna r) /\
  (forall z : Z, - 2 ^ 53 <= z <= 2 ^ 53 ->
     exists r : float,
       converter_para_float (PInt z) = Retorna r /\
       igual_ao_float (PInt z) r = true) /\
  (forall b : bool,
     exists r : float,
       converter_para_float (PBool b) = Retorna r /\
       igual_ao_float (PBool b) r = true) /\
  converter_para_float (PInt 5) = Retorna 5%float /\
  converter_para_float (PInt 1000000) = Retorna 1000000%float /\
  converter_para_float (PBool true) = Retorna 1%float /\
  limpo "R$ 1.234,56" = "1234.56" /\
  converter_para_float (PStr "R$ 1.234,56") = Retorna 1234.56%float.
Proof.
  split; [reflexivity | ].
  split; [reflexivity | ].
  split.
  { intros z Hz.
    assert (Hc : z = - 2 ^ 53 \/ z = 2 ^ 53 \/ - 2 ^ 53 < z < 2 ^ 53) by lia.
    destruct Hc as [-> | [-> | Hc]].
    - exists (-9007199254740992)%float. split; vm_compute; reflexivity.
    - exists 9007199254740992%float. split; vm_compute; reflexivity.
    - exact (of_int_exato z Hc). }
  split.
  { intros [ | ]; eexists; split; vm_compute; reflexivity. }
  repeat split; vm_compute; reflexivity.
Qed.

(** The theorem at the int 5: its conversion is 5.0, and 5.0 converts to
    itself. *)
Lemma C5_conversao_witness :
  converter_para_float (PInt 5) = Retorna 5%float /\
  converter_para_float (PFloat 5) = Retorna 5%float.
Proof.
  split; [reflexivity | ].
  apply (proj1 (proj2 C5_conversao_idempotente) (PInt 5) 5%float). reflexivity.
Defined.

(** The int 2^53 + 1 is a number and its conversion is the float 2^53,
    which is not equal to it; the int 10^400 has no conversion at all. *)
Lemma C5_conversao_counterexample :
  numerico (PInt (2 ^ 53 + 1)) = true /\
  converter_para_float (PInt (2 ^ 53 + 1)) = Retorna 9007199254740992%float /\
  igual_ao_float (PInt (2 ^ 53 + 1)) 9007199254740992%float = false /\
  numerico (PInt (10 ^ 400)) = true /\
  converter_para_float (PInt (10 ^ 400)) = Levanta OverflowError.
Proof. repeat split; vm_compute; reflexivity. Qed.

(** ** Revenue per employee *)



Lemma getitem_tem_coluna (label : string) (t : dataframe) (s : series) :
  getitem label t = Retorna s -> tem_coluna label t = true.
Proof.
  unfold tem_coluna, columns. intros H. apply bool_decide_eq_true.
  induction t as [ | [l c] r IH]; [discriminate H | ].
  cbn [getitem] in H. rewrite fmap_cons. cbn [fst].
  destruct (String.eqb l label) eqn:E.
  - apply String.eqb_eq in E. subst. apply list_elem_of_here.
  - apply list_elem_of_further, IH, H.
Qed.





(** ** The order of the statements *)

(** C4, at the failing input.  The derived columns are computed inside
    [normalizar_colunas], which the module runs before it converts the
    revenue column.  On the table read from the exported CSV file the
    division meets the revenue as text and raises [TypeError]; nothing is
    converted and nothing is derived.  Had the conversion come first, the
    same table would have its revenue per employee and its tier. *)
Theorem C4_derivadas_calculadas_antes_da_conversao :
  (normalizar_colunas ambiente_exemplo 0 [tabela_csv]).1 = Levanta TypeError /\
  (pipeline ambiente_exemplo 0 [tabela_csv]).1 = Levanta TypeError /\
  (pipeline ambiente_exemplo 0 [tabela_csv]).2 !! 1%nat =
    Some [ ("nome_empresa", SObject [PStr "Acme"]);
           ("receita_anual", SObject [PStr "R$ 1.234,56"]);
           ("numero_funcionarios", SInt64 [10]) ] /\
  apply_float converter_para_float (SObject [PStr "R$ 1.234,56"]) =
    Retorna (SFloat64 [1234.56%float]) /\
  (normalizar_colunas ambiente_exemplo 0 [tabela_csv_convertida]).1 = Retorna 1%nat /\
  (normalizar_colunas ambiente_exemplo 0 [tabela_csv_convertida]).2 !! 1%nat =
    Some [ ("nome_empresa", SObject [PStr "Acme"]);
           ("receita_anual", SFloat64 [1234.56%float]);
           ("numero_funcionarios", SInt64 [10]);
           ("receita_por_funcionario", SFloat64 [(1234.56 / 10)%float]);
           ("porte", SCategory [Some "Micro"]) ].
Proof. repeat split; vm_compute; reflexivity. Qed.

(** An exception of [normalizar_colunas] is the exception of the module:
    the conversion of the revenue is not reached. *)
Lemma pipeline_para_na_normalizacao (amb : ambiente) (df : nat) (m : memoria) (e : excecao) :
  (normalizar_colunas amb df m).1 = Levanta e ->
  pipeline amb df m = (Levanta e, (normalizar_colunas amb df m).2).
Proof.
  unfold pipeline, mbind at 1, M_bind at 1.
  destruct (normalizar_colunas amb df m) as [[r | e'] m']; cbn [fst snd].
  - discriminate.
  - intros [= ->]. reflexivity.
Qed.

(** ** Country codes *)

(** C8.  [obter_codigo_pais] never raises: it returns the [alpha_3] of
    the first record that the fuzzy search gives, and [None] when the
    search gives nothing or raises, whatever it raises.  With a database
    that does not know ["Atlantis"], the code of ["Atlantis"] is [None]. *)
Theorem C8_obter_codigo_pais_nunca_levanta
    (busca : pyobj -> resultado (list pais)) (nome_pais : pyobj) :
  obter_codigo_pais busca nome_pais =
    Retorna (match busca nome_pais with
             | Retorna (p :: _) => Some (alpha_3 p)
             | Retorna [] | Levanta _ => None
             end) /\
  search_fuzzy ambiente_exemplo (PStr "Atlantis") = Levanta LookupError /\
  obter_codigo_pais (search_fuzzy ambiente_exemplo) (PStr "Atlantis") = Retorna None /\
  obter_codigo_pais (search_fuzzy ambiente_exemplo) (PStr "United States") =
    Retorna (Some "USA") /\
  obter_codigo_pais (search_fuzzy ambiente_exemplo) (PFloat nan) = Retorna None.
Proof.
  split.
  - unfold obter_codigo_pais, tenta, liga.
    destruct (busca nome_pais) as [[ | p ps] | e]; reflexivity.
  - repeat split; reflexivity.
Qed.

(** ** Renaming *)

Lemma colunas_para_renomear_lookup (t : dataframe) (l : string) :
  colunas_para_renomear t !! l =
    if bool_decide (l ∈ columns t) then mapeamento !! l else None.
Proof.
  unfold colunas_para_renomear. generalize (columns t) as cols.
  induction cols as [ | c r IH].
  - cbn. rewrite lookup_empty. reflexivity.
  - cbn [omap list_omap]. destruct (mapeamento !! c) as [v | ] eqn:Hc; cbn [fmap option_fmap option_map].
    + cbn [list_to_map foldr]. unfold uncurry. cbn [fst snd].
      destruct (decide (c = l)) as [-> | Hne].
      * rewrite lookup_insert_eq, bool_decide_eq_true_2 by apply list_elem_of_here. auto.
      * rewrite lookup_insert_ne by exact Hne. rewrite IH.
        destruct (bool_decide (l ∈ r)) eqn:Hr.
        -- rewrite bool_decide_eq_true_2; [reflexivity | ].
           apply list_elem_of_further. eapply bool_decide_eq_true_1, Hr.
        -- rewrite bool_decide_eq_false_2; [reflexivity | ].
           intros [? | ?]%elem_of_cons; [congruence | ].
           apply bool_decide_eq_false_1 in Hr. contradiction.
    + rewrite IH. destruct (decide (c = l)) as [-> | Hne].
      * rewrite (bool_decide_eq_true_2 (l ∈ l :: r)) by apply list_elem_of_here.
        rewrite Hc. destruct (bool_decide (l ∈ r)); reflexivity.
      * destruct (bool_decide (l ∈ r)) eqn:Hr.
        -- rewrite bool_decide_eq_true_2; [reflexivity | ].
           apply list_elem_of_further. eapply bool_decide_eq_true_1, Hr.
        -- rewrite bool_decide_eq_false_2; [reflexivity | ].
           intros [? | ?]%elem_of_cons; [congruence | ].
           apply bool_decide_eq_false_1 in Hr. contradiction.
Qed.

(** The renaming gives every column its canonical label and keeps its
    cells. *)
Lemma rename_canonico (t : dataframe) :
  rename (colunas_para_renomear t) t = (fun c => (canonico c.1, c.2)) <$> t.
Proof.
  unfold rename. apply list_fmap_ext. intros i [l s] Hi. cbn [fst snd].
  unfold canonico. rewrite colunas_para_renomear_lookup.
  rewrite bool_decide_eq_true_2; [reflexivity | ].
  unfold columns. apply list_elem_of_fmap. exists (l, s). split; [reflexivity | ].
  eapply list_elem_of_lookup_2, Hi.
Qed.

Lemma colunas_canonicas (t : dataframe) :
  columns ((fun c => (canonico c.1, c.2)) <$> t) = canonico <$> columns t.
Proof. unfold columns. rewrite <- !list_fmap_compose. reflexivity. Qed.

Lemma celulas_mantidas (t : dataframe) :
  ((fun c => (canonico c.1, c.2)) <$> t).*2 = t.*2.
Proof. rewrite <- list_fmap_compose. reflexivity. Qed.

Lemma mapeamento_canonicos (l c : string) :
  mapeamento !! l = Some c -> c ∈ canonicos.
Proof.
  unfold mapeamento. intros H. apply elem_of_list_to_map_2 in H.
  rewrite !elem_of_cons, elem_of_nil in H. unfold canonicos.
  repeat (destruct H as [E | H];
          [apply (f_equal snd) in E; cbn [snd] in E; subst c;
           repeat first [apply list_elem_of_here | apply list_elem_of_further] | ]).
  contradiction.
Qed.

Lemma canonicos_fixos (c : string) : c ∈ canonicos -> mapeamento !! c = None.
Proof.
  unfold canonicos. intros H. rewrite !elem_of_cons, elem_of_nil in H.
  repeat (destruct H as [-> | H]; [vm_compute; reflexivity | ]).
  contradiction.
Qed.

Lemma canonico_idempotente (l : string) : canonico (canonico l) = canonico l.
Proof.
  unfold canonico. destruct (mapeamento !! l) as [c | ] eqn:Hl; simpl.
  - rewrite (canonicos_fixos c (mapeamento_canonicos l c Hl)). reflexivity.
  - rewrite Hl. reflexivity.
Qed.

(** No label to rename: every label is its own canonical label. *)
Lemma nada_a_renomear (t : dataframe) :
  colunas_para_renomear t = ∅ <-> (forall l, l ∈ columns t -> mapeamento !! l = None).
Proof.
  split.
  - intros H l Hl. pose proof (colunas_para_renomear_lookup t l) as E.
    rewrite H, lookup_empty, bool_decide_eq_true_2 in E by exact Hl. auto.
  - intros H. apply map_eq. intros l. rewrite colunas_para_renomear_lookup, lookup_empty.
    destruct (bool_decide (l ∈ columns t)) eqn:Hl; [ | reflexivity].
    apply H. eapply bool_decide_eq_true_1, Hl.
Qed.

Lemma renomear_resultado (m : memoria) (df : nat) (t : dataframe) :
  m !! df = Some t ->
  renomear df m =
    if bool_decide (colunas_para_renomear t = ∅) then (Retorna df, m)
    else (Retorna (length m), (m ++ [(fun c => (canonico c.1, c.2)) <$> t])%list).
Proof.
  intros Hm. unfold renomear, mbind, M_bind, le. rewrite Hm.
  destruct (bool_decide (colunas_para_renomear t = ∅)); [reflexivity | ].
  unfold aloca. rewrite rename_canonico. reflexivity.
Qed.

Lemma sem_renomear_nada_muda (t : dataframe) :
  colunas_para_renomear t = ∅ -> (fun c => (canonico c.1, c.2)) <$> t = t.
Proof.
  intros H. rewrite <- (list_fmap_id t) at 2. apply list_fmap_ext.
  intros i [l s] Hi. cbn [fst snd id]. unfold canonico.
  rewrite (proj1 (nada_a_renomear t) H l); [reflexivity | ].
  unfold columns. apply list_elem_of_fmap. exists (l, s). split; [reflexivity | ].
  eapply list_elem_of_lookup_2, Hi.
Qed.

Lemma canonico_sem_sinonimo (l : string) : mapeamento !! canonico l = None.
Proof.
  unfold canonico. destruct (mapeamento !! l) as [c | ] eqn:Hl; simpl.
  - apply canonicos_fixos, (mapeamento_canonicos l c Hl).
  - exact Hl.
Qed.

Lemma renomeada_nada_a_renomear (t : dataframe) :
  colunas_para_renomear ((fun c => (canonico c.1, c.2)) <$> t) = ∅.
Proof.
  apply nada_a_renomear. intros l. rewrite colunas_canonicas.
  intros (l0 & -> & _)%list_elem_of_fmap. apply canonico_sem_sinonimo.
Qed.

Lemma lookup_alocada (m : memoria) (t : dataframe) :
  (m ++ [t])%list !! length m = Some t.
Proof. apply list_lookup_middle. reflexivity. Qed.

(** C6.  The renaming never fails.  Its result is the table in which
    every column stands where it stood, with the cells it had, under the
    canonical label of its label: the one value that [mapeamento] gives to
    a recognised synonym, and the label itself when it is not recognised.
    When no label is recognised the table is returned as it is. *)
Theorem C6_renomear_sinonimos (m : memoria) (df : nat) (t : dataframe) :
  m !! df = Some t ->
  exists (df' : nat) (m' : memoria) (t' : dataframe),
    renomear df m = (Retorna df', m') /\
    m' !! df' = Some t' /\
    t' = (fun c => (canonico c.1, c.2)) <$> t /\
    columns t' = canonico <$> columns t /\
    t'.*2 = t.*2 /\
    (forall l c : string,
       mapeamento !! l = Some c -> canonico l = c /\ c ∈ canonicos) /\
    (forall l : string, mapeamento !! l = None -> canonico l = l) /\
    ((forall l : string, l ∈ columns t -> mapeamento !! l = None) ->
       renomear df m = (Retorna df, m) /\ t' = t).
Proof.
  intros Hm. rewrite (renomear_resultado m df t Hm).
  set (t' := (fun c => (canonico c.1, c.2)) <$> t).
  assert (Hcan : forall l c : string,
             mapeamento !! l = Some c -> canonico l = c /\ c ∈ canonicos).
  { intros l c H. split; [unfold canonico; rewrite H; reflexivity | ].
    exact (mapeamento_canonicos l c H). }
  assert (Hnao : forall l : string, mapeamento !! l = None -> canonico l = l).
  { intros l H. unfold canonico. rewrite H. reflexivity. }
  destruct (bool_decide (colunas_para_renomear t = ∅)) eqn:Hv.
  - apply bool_decide_eq_true_1 in Hv.
    exists df, m, t'.
    split; [reflexivity | ].
    split; [rewrite Hm; f_equal; symmetry; apply sem_renomear_nada_muda, Hv | ].
    split; [reflexivity | ]. split; [apply colunas_canonicas | ].
    split; [apply celulas_mantidas | ]. split; [exact Hcan | ].
    split; [exact Hnao | ].
    intros _. split; [reflexivity | apply sem_renomear_nada_muda, Hv].
  - apply bool_decide_eq_false_1 in Hv.
    exists (length m), (m ++ [t'])%list, t'.
    split; [reflexivity | ]. split; [apply lookup_alocada | ].
    split; [reflexivity | ]. split; [apply colunas_canonicas | ].
    split; [apply celulas_mantidas | ]. split; [exact Hcan | ].
    split; [exact Hnao | ].
    intros H. apply nada_a_renomear in H. contradiction.
Qed.

(** The theorem on the table read from the CSV file. *)
Lemma C6_renomear_witness :
  exists (df' : nat) (m' : memoria) (t' : dataframe),
    renomear 0 [tabela_csv] = (Retorna df', m') /\
    m' !! df' = Some t' /\
    columns t' = ["nome_empresa"; "receita_anual"; "numero_funcionarios"].
Proof.
  destruct (C6_renomear_sinonimos [tabela_csv] 0 tabela_csv eq_refl)
    as (df' & m' & t' & H1 & H2 & H3 & H4 & _).
  exists df', m', t'. split; [exact H1 | ]. split; [exact H2 | ].
  rewrite H4. reflexivity.
Defined.

(** C7.  Renaming what the renaming returned changes nothing: the second
    run returns the same table object with the same labels, because every
    canonical label is its own canonical label. *)
Theorem C7_renomear_idempotente
    (m m1 : memoria) (df df1 : nat) (t : dataframe) :
  m !! df = Some t ->
  renomear df m = (Retorna df1, m1) ->
  renomear df1 m1 = (Retorna df1, m1) /\
  (exists t1 : dataframe,
     m1 !! df1 = Some t1 /\
     columns t1 = canonico <$> columns t /\
     rename (colunas_para_renomear t1) t1 = t1 /\
     canonico <$> columns t1 = columns t1) /\
  (forall l : string, canonico (canonico l) = canonico l).
Proof.
  intros Hm. rewrite (renomear_resultado m df t Hm).
  set (t' := (fun c => (canonico c.1, c.2)) <$> t).
  assert (Hfix : canonico <$> (canonico <$> columns t) = canonico <$> columns t).
  { rewrite <- list_fmap_compose. apply list_fmap_ext. intros i l _.
    apply canonico_idempotente. }
  destruct (bool_decide (colunas_para_renomear t = ∅)) eqn:Hv.
  - intros [= <- <-]. apply bool_decide_eq_true_1 in Hv.
    split; [rewrite (renomear_resultado m df t Hm), bool_decide_eq_true_2 by exact Hv;
            reflexivity | ].
    split; [ | exact canonico_idempotente].
    exists t. split; [exact Hm | ].
    assert (Hc : columns t = canonico <$> columns t).
    { rewrite <- (sem_renomear_nada_muda t Hv) at 1. apply colunas_canonicas. }
    split; [exact Hc | ].
    split; [rewrite rename_canonico; apply sem_renomear_nada_muda, Hv | ].
    rewrite Hc at 2. rewrite Hc at 1. exact Hfix.
  - intros [= <- <-].
    pose proof (renomeada_nada_a_renomear t) as Hv'. fold t' in Hv'.
    split.
    { etransitivity; [exact (renomear_resultado _ _ t' (lookup_alocada m t')) | ].
      rewrite bool_decide_eq_true_2 by exact Hv'. reflexivity. }
    split; [ | exact canonico_idempotente].
    exists t'. split; [apply lookup_alocada | ].
    split; [apply colunas_canonicas | ].
    split; [rewrite rename_canonico; apply sem_renomear_nada_muda, Hv' | ].
    unfold t'. rewrite colunas_canonicas. exact Hfix.
Qed.

(** The theorem on the table read from the CSV file: the first run makes
    the renamed table at address 1, the second run returns address 1. *)
Lemma C7_renomear_witness :
  renomear 1 (renomear 0 [tabela_csv]).2 = (Retorna 1%nat, (renomear 0 [tabela_csv]).2).
Proof.
  apply (C7_renomear_idempotente [tabela_csv] (renomear 0 [tabela_csv]).2 0 1 tabela_csv);
    [reflexivity | vm_compute; reflexivity].
Defined.

(** ** What the statements write *)

Section Quadro.

Context {A B : Type} (a : nat).

Lemma preserva_ret (x : A) : preserva a (mret x : M A).
Proof. intros m. reflexivity. Qed.

Lemma preserva_eleva (r : resultado A) : preserva a (eleva r).
Proof. intros m. reflexivity. Qed.

Lemma preserva_le (df : nat) : preserva a (le df).
Proof. intros m. unfold le. destruct (m !! df); reflexivity. Qed.

Lemma preserva_escreve (df : nat) (f : dataframe -> dataframe) :
  a <> df -> preserva a (escreve df f).
Proof.
  intros Hne m. unfold escreve. destruct (m !! df) as [t | ]; [ | reflexivity].
  cbn [snd]. apply list_lookup_insert_ne. auto.
Qed.

Lemma preserva_bind (c : M A) (k : A -> M B) :
  preserva a c -> (forall x, preserva a (k x)) -> preserva a (c ≫= k).
Proof.
  intros Hc Hk m. unfold mbind, M_bind. specialize (Hc m).
  destruct (c m) as [[x | e] m1]; cbn [snd] in *.
  - rewrite (Hk x m1). exact Hc.
  - exact Hc.
Qed.

Lemma preserva_tenta_m (corpo senao : M A) :
  preserva a corpo -> preserva a senao -> preserva a (tenta_m corpo senao).
Proof.
  intros Hc Hs m. unfold tenta_m. specialize (Hc m).
  destruct (corpo m) as [[x | e] m1]; cbn [snd] in *.
  - exact Hc.
  - rewrite (Hs m1). exact Hc.
Qed.

End Quadro.

(** A statement made of reads and of writes to other tables leaves the
    table at [a] as it is. *)
Ltac quadro :=
  repeat first
    [ apply preserva_ret
    | apply preserva_eleva
    | apply preserva_le
    | apply preserva_escreve; assumption
    | apply preserva_tenta_m
    | apply preserva_bind; [ | intros ? ]
    | match goal with
      | |- preserva _ (if ?b then _ else _) => destruct b
      end ].

Lemma preserva_extrair_ano (amb : ambiente) (a df : nat) :
  a <> df -> preserva a (extrair_ano amb df).
Proof. intros H. unfold extrair_ano. quadro. Qed.

Lemma preserva_receita_por_funcionario (amb : ambiente) (a df : nat) :
  a <> df -> preserva a (receita_por_funcionario amb df).
Proof. intros H. unfold receita_por_funcionario. quadro. Qed.

Lemma preserva_porte (amb : ambiente) (a df : nat) :
  a <> df -> preserva a (porte amb df).
Proof. intros H. unfold porte. quadro. Qed.

Lemma preserva_idade_empresa (amb : ambiente) (a df : nat) :
  a <> df -> preserva a (idade_empresa amb df).
Proof. intros H. unfold idade_empresa. quadro. Qed.

(** What a sequence returns is what its last statement returns. *)
Lemma bind_retorna {A B : Type} (c : M A) (k : A -> M B) (m : memoria) (y : B) :
  (mbind k c m).1 = Retorna y ->
  exists (x : A) (m1 : memoria), c m = (Retorna x, m1) /\ (k x m1).1 = Retorna y.
Proof.
  unfold mbind, M_bind. destruct (c m) as [[x | e] m1]; cbn [fst].
  - intros H. exists x, m1. split; [reflexivity | exact H].
  - discriminate.
Qed.

(** [normalizar_colunas] and the module return the table that the renaming
    step returned. *)
Lemma normalizar_colunas_retorna (amb : ambiente) (df r : nat) (m : memoria) :
  (normalizar_colunas amb df m).1 = Retorna r -> (renomear df m).1 = Retorna r.
Proof.
  unfold normalizar_colunas. intros H.
  apply bind_retorna in H as (df' & m1 & E1 & H).
  apply bind_retorna in H as (? & m2 & _ & H).
  apply bind_retorna in H as (? & m3 & _ & H).
  apply bind_retorna in H as (? & m4 & _ & H).
  apply bind_retorna in H as (? & m5 & _ & H).
  rewrite E1. exact H.
Qed.

Lemma pipeline_retorna (amb : ambiente) (df r : nat) (m : memoria) :
  (pipeline amb df m).1 = Retorna r -> (renomear df m).1 = Retorna r.
Proof.
  unfold pipeline. intros H.
  apply bind_retorna in H as (df' & m1 & E1 & H).
  apply bind_retorna in H as (? & m2 & _ & H).
  apply bind_retorna in H as (? & m3 & _ & H).
  apply bind_retorna in H as (? & m4 & _ & H).
  apply bind_retorna in H as (? & m5 & _ & H).
  apply normalizar_colunas_retorna with (amb := amb).
  rewrite E1. exact H.
Qed.

(** The statements after the renaming write to the table they are given
    and to no other. *)
Lemma preserva_apos_renomear (amb : ambiente) (a df' : nat) :
  a <> df' ->
  preserva a
    (extrair_ano amb df';; receita_por_funcionario amb df';; porte amb df';;
     idade_empresa amb df';; mret df').
Proof.
  intros H.
  apply preserva_bind; [apply preserva_extrair_ano, H | intros _].
  apply preserva_bind; [apply preserva_receita_por_funcionario, H | intros _].
  apply preserva_bind; [apply preserva_porte, H | intros _].
  apply preserva_bind; [apply preserva_idade_empresa, H | intros _].
  apply preserva_ret.
Qed.

Lemma preserva_conversoes (amb : ambiente) (a df' : nat) :
  a <> df' ->
  preserva a
    (t ← le df';
     (if tem_coluna "receita_anual" t then
        s ← eleva (getitem "receita_anual" t);
        r ← eleva (apply_float converter_para_float s);
        escreve df' (setitem "receita_anual" r)
      else mret tt);;
     t' ← le df';
     (if tem_coluna "pais" t' then
        s ← eleva (getitem "pais" t');
        r ← eleva (apply_str (obter_codigo_pais (search_fuzzy amb)) s);
        escreve df' (setitem "codigo_pais" r)
      else mret tt);;
     mret df').
Proof. intros H. quadro. Qed.

(** With a label to rename, the whole run works on the new table. *)
Lemma normalizar_colunas_preserva (amb : ambiente) (m : memoria) (df : nat) (t : dataframe) :
  m !! df = Some t ->
  colunas_para_renomear t <> ∅ ->
  (normalizar_colunas amb df m).2 !! df = Some t /\
  (pipeline amb df m).2 !! df = Some t.
Proof.
  intros Hm Hv.
  assert (Hne : df <> length m).
  { apply lookup_lt_Some in Hm. lia. }
  assert (Hr : renomear df m =
               (Retorna (length m), (m ++ [(fun c => (canonico c.1, c.2)) <$> t])%list)).
  { rewrite (renomear_resultado m df t Hm), bool_decide_eq_false_2 by exact Hv.
    reflexivity. }
  assert (Hn : (normalizar_colunas amb df m).2 !! df = Some t).
  { unfold normalizar_colunas, mbind at 1, M_bind at 1. rewrite Hr.
    rewrite (preserva_apos_renomear amb df (length m) Hne).
    transitivity (m !! df); [ | exact Hm].
    apply lookup_app_l. eapply lookup_lt_Some, Hm. }
  split; [exact Hn | ].
  unfold pipeline, mbind at 1, M_bind at 1.
  destruct (normalizar_colunas amb df m) as [[r | e] m1] eqn:En; cbn [snd] in *.
  - assert (r = length m) as ->.
    { pose proof (normalizar_colunas_retorna amb df r m) as H.
      rewrite En, Hr in H. specialize (H eq_refl). injection H as H. auto. }
    rewrite (preserva_conversoes amb df (length m) Hne). exact Hn.
  - exact Hn.
Qed.

(** C9, as the code has it.  When some label is a recognised synonym the
    run works on the table that [rename] returns: the caller's table is
    left as it was, whether the run returns or raises, and the table
    returned is another object.  When no label is recognised nothing is
    copied: the table returned is the caller's own. *)
Theorem C9_tabela_do_chamador
    (amb : ambiente) (m : memoria) (df : nat) (t : dataframe) :
  m !! df = Some t ->
  ((exists l : string, l ∈ columns t /\ is_Some (mapeamento !! l)) ->
     (normalizar_colunas amb df m).2 !! df = Some t /\
     (pipeline amb df m).2 !! df = Some t /\
     (forall r : nat, (pipeline amb df m).1 = Retorna r -> r <> df)) /\
  ((forall l : string, l ∈ columns t -> mapeamento !! l = None) ->
     forall r : nat, (pipeline amb df m).1 = Retorna r -> r = df).
Proof.
  intros Hm. split.
  - intros (l & Hl & [c Hc]).
    assert (Hv : colunas_para_renomear t <> ∅).
    { intros H. rewrite (proj1 (nada_a_renomear t) H l Hl) in Hc. discriminate. }
    destruct (normalizar_colunas_preserva amb m df t Hm Hv) as [H1 H2].
    split; [exact H1 | ]. split; [exact H2 | ].
    intros r Hr. apply pipeline_retorna in Hr.
    rewrite (renomear_resultado m df t Hm), bool_decide_eq_false_2 in Hr by exact Hv.
    injection Hr as <-. apply lookup_lt_Some in Hm. lia.
  - intros Hn r Hr. apply pipeline_retorna in Hr.
    rewrite (renomear_resultado m df t Hm), bool_decide_eq_true_2 in Hr
      by (apply nada_a_renomear, Hn).
    injection Hr as <-. reflexivity.
Qed.

(** The theorem on the table read from the CSV file, whose labels are
    synonyms: the run raises and the table is as it was. *)
Lemma C9_tabela_do_chamador_witness :
  (pipeline ambiente_exemplo 0 [tabela_csv]).2 !! 0%nat = Some tabela_csv.
Proof.
  apply (C9_tabela_do_chamador ambiente_exemplo [tabela_csv] 0 tabela_csv eq_refl).
  exists "Receita Anual". split.
  - unfold tabela_csv, columns. cbn.
    apply list_elem_of_further, list_elem_of_here.
  - exists "receita_anual". vm_compute. reflexivity.
Defined.

(** On the table built from the documents of the database no label is
    renamed, and the run returns the caller's table with two columns
    more: the caller's table has changed. *)
Lemma C9_tabela_do_chamador_counterexample :
  (pipeline ambiente_exemplo 0 [tabela_mongo]).1 = Retorna 0%nat /\
  (pipeline ambiente_exemplo 0 [tabela_mongo]).2 !! 0%nat <> Some tabela_mongo /\
  columns <$> (pipeline ambiente_exemplo 0 [tabela_mongo]).2 !! 0%nat =
    Some ["nome_empresa"; "receita_anual"; "numero_funcionarios";
          "receita_por_funcionario"; "porte"] /\
  columns tabela_mongo = ["nome_empresa"; "receita_anual"; "numero_funcionarios"].
Proof.
  split; [vm_compute; reflexivity | ].
  split; [ | split; vm_compute; reflexivity].
  intros H. apply (f_equal (fmap (length (A := string * series)))) in H.
  vm_compute in H. discriminate H.
Qed.

(** * Further properties *)

(** ** Reading and writing columns *)

Lemma tem_coluna_cons (label l : string) (s : series) (t : dataframe) :
  tem_coluna label ((l, s) :: t) = String.eqb l label || tem_coluna label t.
Proof.
  unfold tem_coluna, columns. rewrite fmap_cons. cbn [fst].
  destruct (String.eqb l label) eqn:E; cbn [orb].
  - apply String.eqb_eq in E. subst. apply bool_decide_eq_true_2, list_elem_of_here.
  - apply String.eqb_neq in E.
    destruct (bool_decide (label ∈ t.*1)) eqn:Ht.
    + apply bool_decide_eq_true_2, list_elem_of_further. eapply bool_decide_eq_true_1, Ht.
    + apply bool_decide_eq_false_2. intros [? | ?]%elem_of_cons; [congruence | ].
      apply bool_decide_eq_false_1 in Ht. contradiction.
Qed.

Lemma tem_coluna_app (label : string) (t u : dataframe) :
  tem_coluna label (t ++ u)%list = tem_coluna label t || tem_coluna label u.
Proof.
  induction t as [ | [l s] r IH]; [reflexivity | ].
  rewrite <- app_comm_cons, !tem_coluna_cons, IH, orb_assoc. reflexivity.
Qed.



Lemma getitem_troca (label : string) (s : series) (t : dataframe) :
  tem_coluna label t = true ->
  getitem label ((fun c => if String.eqb c.1 label then (c.1, s) else c) <$> t) = Retorna s.
Proof.
  induction t as [ | [l c] r IH]; [discriminate | ].
  rewrite tem_coluna_cons, fmap_cons. cbn [fst getitem].
  destruct (String.eqb l label) eqn:E; cbn [getitem orb]; rewrite E; [reflexivity | exact IH].
Qed.

Lemma getitem_app_ausente (label : string) (t u : dataframe) :
  tem_coluna label t = false -> getitem label (t ++ u)%list = getitem label u.
Proof.
  induction t as [ | [l c] r IH]; [reflexivity | ].
  rewrite tem_coluna_cons. intros [E Hr]%orb_false_elim.
  rewrite <- app_comm_cons. cbn [getitem]. rewrite E. apply IH, Hr.
Qed.

(** What [df[label] = s] writes is what [df[label]] reads. *)
Lemma getitem_setitem (label : string) (s : series) (t : dataframe) :
  getitem label (setitem label s t) = Retorna s.
Proof.
  unfold setitem. destruct (tem_coluna label t) eqn:H.
  - apply getitem_troca, H.
  - rewrite (getitem_app_ausente _ _ _ H). cbn [getitem].
    rewrite String.eqb_refl. reflexivity.
Qed.

(** A write under one label leaves the column under another label. *)
Lemma getitem_setitem_outro (label l : string) (s : series) (t : dataframe) :
  label <> l -> getitem label (setitem l s t) = getitem label t.
Proof.
  intros Hne. unfold setitem. destruct (tem_coluna l t) eqn:H.
  - clear H. induction t as [ | [l0 c] r IH]; [reflexivity | ].
    rewrite fmap_cons. cbn [fst getitem].
    destruct (String.eqb l0 l) eqn:E0; cbn [getitem fst].
    + apply String.eqb_eq in E0. subst l0.
      replace (String.eqb l label) with false
        by (symmetry; apply String.eqb_neq; congruence).
      exact IH.
    + destruct (String.eqb l0 label); [reflexivity | exact IH].
  - induction t as [ | [l0 c] r IH]; cbn [app getitem].
    + replace (String.eqb l label) with false
        by (symmetry; apply String.eqb_neq; congruence).
      reflexivity.
    + rewrite tem_coluna_cons in H. apply orb_false_elim in H as [_ Hr].
      destruct (String.eqb l0 label); [reflexivity | exact (IH Hr)].
Qed.

(** A write keeps the labels in place and appends at most its own. *)
Lemma columns_setitem (l : string) (s : series) (t : dataframe) :
  columns (setitem l s t) =
    if tem_coluna l t then columns t else (columns t ++ [l])%list.
Proof.
  unfold setitem, columns. destruct (tem_coluna l t).
  - rewrite <- list_fmap_compose. apply list_fmap_ext. intros i [l0 c] _.
    cbn. destruct (String.eqb l0 l); reflexivity.
  - rewrite fmap_app. reflexivity.
Qed.

Lemma tem_coluna_setitem (label l : string) (s : series) (t : dataframe) :
  tem_coluna label (setitem l s t) = tem_coluna label t || String.eqb l label.
Proof.
  unfold tem_coluna at 1. rewrite columns_setitem.
  destruct (tem_coluna l t) eqn:H.
  - fold (tem_coluna label t).
    destruct (String.eqb l label) eqn:E; [ | rewrite orb_false_r; reflexivity].
    apply String.eqb_eq in E. subst. rewrite H. reflexivity.
  - unfold tem_coluna.
    destruct (bool_decide (label ∈ columns t)) eqn:Ht; cbn [orb].
    + apply bool_decide_eq_true_2, elem_of_app. left.
      eapply bool_decide_eq_true_1, Ht.
    + apply bool_decide_eq_false_1 in Ht.
      destruct (String.eqb l label) eqn:E.
      * apply String.eqb_eq in E. subst.
        apply bool_decide_eq_true_2, elem_of_app. right. apply list_elem_of_here.
      * apply String.eqb_neq in E. apply bool_decide_eq_false_2.
        intros [H1 | H2]%elem_of_app; [contradiction | ].
        apply list_elem_of_singleton in H2. congruence.
Qed.

(** ** The conversion and the country code on columns *)

Lemma percorre_converter_floats (xs : list float) :
  percorre converter_para_float (PFloat <$> xs) = Retorna xs.
Proof.
  induction xs as [ | x xs IH]; [reflexivity | ].
  cbn. cbn in IH. rewrite IH. reflexivity.
Qed.

Lemma percorre_length {A B : Type} (f : A -> resultado B) (xs : list A) (ys : list B) :
  percorre f xs = Retorna ys -> length ys = length xs.
Proof.
  revert ys. induction xs as [ | x xs IH]; intros ys; cbn.
  - intros [= <-]. reflexivity.
  - destruct (f x) as [y | e]; cbn; [ | discriminate].
    destruct (percorre f xs) as [zs | e]; cbn; [ | discriminate].
    intros [= <-]. cbn. f_equal. apply IH. reflexivity.
Qed.

Lemma percorre_total {A B : Type} (f : A -> resultado B) (g : A -> B) (xs : list A) :
  (forall x, f x = Retorna (g x)) -> percorre f xs = Retorna (g <$> xs).
Proof.
  intros H. induction xs as [ | x xs IH]; [reflexivity | ].
  cbn. rewrite H. cbn. cbn in IH. rewrite IH. reflexivity.
Qed.

Lemma apply_float_convertida (xs : list float) :
  apply_float converter_para_float (SFloat64 xs) = Retorna (SFloat64 xs).
Proof.
  unfold apply_float. destruct (vazia (SFloat64 xs)); [reflexivity | ].
  cbn [valores]. rewrite percorre_converter_floats. reflexivity.
Qed.

(** X1.  The conversion of a column is idempotent: when
    [s.apply(converter_para_float)] returns a column, converting that column
    again returns it unchanged.  A column that converts is also as long as
    it was. *)
Theorem X1_conversao_da_coluna_idempotente (s r : series) :
  apply_float converter_para_float s = Retorna r ->
  apply_float converter_para_float r = Retorna r /\
  length (valores r) = length (valores s).
Proof.
  unfold apply_float at 1. destruct (vazia s) eqn:Hv.
  - intros [= <-]. unfold apply_float. rewrite Hv. auto.
  - destruct (percorre converter_para_float (valores s)) as [ys | e] eqn:Hp; cbn;
      [ | discriminate].
    intros [= <-]. split; [apply apply_float_convertida | ].
    cbn [valores]. rewrite length_fmap. eapply percorre_length, Hp.
Qed.

(** The theorem on a column of formatted text and numbers. *)
Lemma X1_conversao_da_coluna_witness :
  apply_float converter_para_float (SFloat64 [1234.56%float; 10%float]) =
    Retorna (SFloat64 [1234.56%float; 10%float]).
Proof.
  apply (X1_conversao_da_coluna_idempotente (SObject [PStr "R$ 1.234,56"; PInt 10])).
  vm_compute. reflexivity.
Defined.

Lemma apply_str_codigos (busca : pyobj -> resultado (list pais)) (s : series) :
  exists r : series,
    apply_str (obter_codigo_pais busca) s = Retorna r /\
    length (valores r) = length (valores s) /\
    (vazia s = false -> r = SObject (codigo busca <$> valores s)).
Proof.
  unfold apply_str. destruct (vazia s) eqn:Hv.
  - exists s. repeat split. discriminate.
  - rewrite (percorre_total _
      (fun o => match busca o with
                | Retorna (p :: _) => Some (alpha_3 p)
                | _ => None
                end)).
    + cbn [liga]. eexists. split; [reflexivity | ].
      rewrite <- list_fmap_compose. cbn [valores]. rewrite length_fmap.
      split; [reflexivity | ]. intros _. f_equal. apply list_fmap_ext.
      intros i o _. unfold codigo. cbn. destruct (busca o) as [[ | p ps] | e]; reflexivity.
    + intros o. unfold obter_codigo_pais, tenta, liga.
      destruct (busca o) as [[ | p ps] | e]; reflexivity.
Qed.

(** X2.  The country-code step never raises: whatever the fuzzy search
    does on each cell, [s.apply(obter_codigo_pais)] returns a column with
    one cell for each cell of [s], the code found for it or [None]. *)
Theorem X2_codigos_de_pais_nunca_levantam
    (busca : pyobj -> resultado (list pais)) (s : series) :
  exists r : series,
    apply_str (obter_codigo_pais busca) s = Retorna r /\
    length (valores r) = length (valores s) /\
    (vazia s = false -> r = SObject (codigo busca <$> valores s)).
Proof. exact (apply_str_codigos busca s). Qed.

(** ** The exceptions of [converter_para_float] *)

Lemma of_str_levanta (s : string) (e : excecao) :
  PyFloat.of_str s = Levanta e -> e = ValueError.
Proof.
  unfold PyFloat.of_str.
  repeat match goal with
         | |- context [match ?x with _ => _ end] => destruct x
         | |- context [if ?x then _ else _] => destruct x
         end; congruence.
Qed.

Lemma of_int_levanta (z : Z) (e : excecao) :
  PyFloat.of_int z = Levanta e -> e = OverflowError.
Proof.
  unfold PyFloat.of_int. destruct (is_infinity (Bin64.of_Z z)); congruence.
Qed.

(** X6.  [converter_para_float] raises on text and on ints only: a
    [ValueError] on a string that does not read as a number once cleaned,
    an [OverflowError] on an int beyond the range of the floats.  On every
    other value it returns. *)
Theorem X6_excecoes_da_conversao (valor : pyobj) (e : excecao) :
  converter_para_float valor = Levanta e ->
  (exists s : string, valor = PStr s /\ e = ValueError /\
                      PyFloat.of_str (limpo s) = Levanta ValueError) \/
  (exists z : Z, valor = PInt z /\ e = OverflowError /\
                 is_infinity (Bin64.of_Z z) = true).
Proof.
  destruct valor as [z | f | b | s | | ns | | o]; cbn [converter_para_float];
    try discriminate.
  - intros H. right. exists z. unfold PyFloat.of_int in H.
    destruct (is_infinity (Bin64.of_Z z)) eqn:Hi; [ | discriminate].
    injection H as <-. auto.
  - intros H. left. exists s. pose proof (of_str_levanta _ e H) as ->. auto.
Qed.

(** The theorem on a string that is not a number. *)
Lemma X6_excecoes_da_conversao_witness :
  (exists s : string, PStr "abc" = PStr s /\ ValueError = ValueError /\
                      PyFloat.of_str (limpo s) = Levanta ValueError) \/
  (exists z : Z, PStr "abc" = PInt z /\ ValueError = OverflowError /\
                 is_infinity (Bin64.of_Z z) = true).
Proof.
  apply (X6_excecoes_da_conversao (PStr "abc") ValueError). vm_compute. reflexivity.
Defined.

(** ** Cleaning *)

Lemma re_sub_app (s1 s2 : string) : re_sub (s1 ++ s2) = re_sub s1 ++ re_sub s2.
Proof.
  induction s1 as [ | c s1 IH]; [reflexivity | ].
  change (String c s1 ++ s2) with (String c (s1 ++ s2)). cbn [re_sub].
  destruct (na_classe c); [exact IH | ].
  change (String c (re_sub s1) ++ re_sub s2) with (String c (re_sub s1 ++ re_sub s2)).
  rewrite IH. reflexivity.
Qed.

Lemma re_sub_idempotente (s : string) : re_sub (re_sub s) = re_sub s.
Proof.
  induction s as [ | c s IH]; [reflexivity | ].
  cbn. destruct (na_classe c) eqn:Hc; [exact IH | ].
  cbn. rewrite Hc, IH. reflexivity.
Qed.

(** X7.  The conversion of text does not see the characters of the class
    [[R$\s.]]: with such a character put anywhere in a string, or with the
    string cleaned beforehand, the result, a float or an exception, is the
    same. *)
Theorem X7_conversao_cega_para_a_classe (s1 s2 : string) (c : ascii) :
  na_classe c = true ->
  converter_para_float (PStr (s1 ++ String c s2)) = converter_para_float (PStr (s1 ++ s2)) /\
  converter_para_float (PStr (re_sub (s1 ++ s2))) = converter_para_float (PStr (s1 ++ s2)).
Proof.
  intros Hc. cbn [converter_para_float]. unfold limpo. split.
  - rewrite !re_sub_app. cbn [re_sub]. rewrite Hc. reflexivity.
  - rewrite re_sub_idempotente. reflexivity.
Qed.

(** The theorem with a thousands separator put into ["1234,5"]. *)
Lemma X7_conversao_cega_witness :
  converter_para_float (PStr "1.234,5") = converter_para_float (PStr "1234,5").
Proof.
  apply (X7_conversao_cega_para_a_classe "1" "234,5" "."). reflexivity.
Defined.

(** ** What each statement does to its table *)

Lemma lookup_escrita (m : memoria) (df : nat) (t u : dataframe) :
  m !! df = Some t -> (<[df := u]> m : memoria) !! df = Some u.
Proof. intros Hm. apply list_lookup_insert_eq. eapply lookup_lt_Some, Hm. Qed.

Lemma extrair_ano_efeito (amb : ambiente) (df : nat) (m : memoria) (t : dataframe) :
  m !! df = Some t ->
  extrair_ano amb df m =
    (Retorna tt,
     if negb (tem_coluna "ano_fundacao" t) && tem_coluna "data_fundacao" t then
       match liga (getitem "data_fundacao" t) (to_datetime amb) with
       | Levanta _ => m
       | Retorna d =>
           match dt_year amb d with
           | Levanta _ => <[df := setitem "data_fundacao" d t]> m
           | Retorna y =>
               <[df := setitem "ano_fundacao" y (setitem "data_fundacao" d t)]> m
           end
       end
     else m).
Proof.
  intros Hm. unfold extrair_ano, mbind at 1, M_bind at 1, le at 1. rewrite Hm.
  destruct (negb (tem_coluna "ano_fundacao" t) && tem_coluna "data_fundacao" t);
    [ | reflexivity].
  unfold tenta_m, mbind at 1, M_bind at 1, eleva at 1.
  destruct (getitem "data_fundacao" t) as [s | e]; cbn [liga]; [ | reflexivity].
  unfold mbind at 1, M_bind at 1, eleva at 1.
  destruct (to_datetime amb s) as [d | e]; [ | reflexivity].
  unfold mbind at 1, M_bind at 1, escreve at 1. rewrite Hm.
  unfold mbind at 1, M_bind at 1, le at 1.
  rewrite (lookup_escrita m df t _ Hm).
  unfold mbind at 1, M_bind at 1, eleva at 1. rewrite getitem_setitem.
  unfold mbind at 1, M_bind at 1, eleva at 1.
  destruct (dt_year amb d) as [y | e]; [ | reflexivity].
  unfold escreve. rewrite (lookup_escrita m df t _ Hm).
  f_equal. apply list_insert_insert_eq.
Qed.

Lemma receita_por_funcionario_efeito (amb : ambiente) (df : nat) (m : memoria) (t : dataframe) :
  m !! df = Some t ->
  receita_por_funcionario amb df m =
    if tem_coluna "receita_anual" t && tem_coluna "numero_funcionarios" t then
      match liga (getitem "receita_anual" t) (fun a =>
            liga (getitem "numero_funcionarios" t) (fun b => truediv amb a b)) with
      | Retorna q => (Retorna tt, <[df := setitem "receita_por_funcionario" q t]> m)
      | Levanta e => (Levanta e, m)
      end
    else (Retorna tt, m).
Proof.
  intros Hm. unfold receita_por_funcionario, mbind at 1, M_bind at 1, le at 1. rewrite Hm.
  destruct (tem_coluna "receita_anual" t && tem_coluna "numero_funcionarios" t);
    [ | reflexivity].
  unfold mbind, M_bind, eleva, escreve.
  destruct (getitem "receita_anual" t) as [a | e]; cbn [liga]; [ | reflexivity].
  destruct (getitem "numero_funcionarios" t) as [b | e]; cbn [liga]; [ | reflexivity].
  destruct (truediv amb a b) as [q | e]; [ | reflexivity].
  rewrite Hm. reflexivity.
Qed.

Lemma porte_efeito (amb : ambiente) (df : nat) (m : memoria) (t : dataframe) :
  m !! df = Some t ->
  porte amb df m =
    if tem_coluna "receita_anual" t then
      match liga (getitem "receita_anual" t) (cut amb) with
      | Retorna c => (Retorna tt, <[df := setitem "porte" c t]> m)
      | Levanta e => (Levanta e, m)
      end
    else (Retorna tt, m).
Proof.
  intros Hm. unfold porte, mbind at 1, M_bind at 1, le at 1. rewrite Hm.
  destruct (tem_coluna "receita_anual" t); [ | reflexivity].
  unfold mbind, M_bind, eleva, escreve.
  destruct (getitem "receita_anual" t) as [a | e]; cbn [liga]; [ | reflexivity].
  destruct (cut amb a) as [q | e]; [ | reflexivity].
  rewrite Hm. reflexivity.
Qed.

Lemma idade_empresa_efeito (amb : ambiente) (df : nat) (m : memoria) (t : dataframe) :
  m !! df = Some t ->
  idade_empresa amb df m =
    if tem_coluna "ano_fundacao" t then
      match liga (getitem "ano_fundacao" t) (rsub amb (ano_atual amb)) with
      | Retorna i => (Retorna tt, <[df := setitem "idade_empresa" i t]> m)
      | Levanta e => (Levanta e, m)
      end
    else (Retorna tt, m).
Proof.
  intros Hm. unfold idade_empresa, mbind at 1, M_bind at 1, le at 1. rewrite Hm.
  destruct (tem_coluna "ano_fundacao" t); [ | reflexivity].
  unfold mbind, M_bind, eleva, escreve.
  destruct (getitem "ano_fundacao" t) as [a | e]; cbn [liga]; [ | reflexivity].
  destruct (rsub amb (ano_atual amb) a) as [q | e]; [ | reflexivity].
  rewrite Hm. reflexivity.
Qed.

Lemma converter_receita_efeito (df : nat) (m : memoria) (t : dataframe) :
  m !! df = Some t ->
  converter_receita df m =
    if tem_coluna "receita_anual" t then
      match liga (getitem "receita_anual" t) (apply_float converter_para_float) with
      | Retorna r => (Retorna tt, <[df := setitem "receita_anual" r t]> m)
      | Levanta e => (Levanta e, m)
      end
    else (Retorna tt, m).
Proof.
  intros Hm. unfold converter_receita, mbind at 1, M_bind at 1, le at 1. rewrite Hm.
  destruct (tem_coluna "receita_anual" t); [ | reflexivity].
  unfold mbind, M_bind, eleva, escreve.
  destruct (getitem "receita_anual" t) as [a | e]; cbn [liga]; [ | reflexivity].
  destruct (apply_float converter_para_float a) as [q | e]; [ | reflexivity].
  rewrite Hm. reflexivity.
Qed.

Lemma codigos_de_pais_efeito (amb : ambiente) (df : nat) (m : memoria) (t : dataframe) :
  m !! df = Some t ->
  codigos_de_pais amb df m =
    if tem_coluna "pais" t then
      match liga (getitem "pais" t) (apply_str (obter_codigo_pais (search_fuzzy amb))) with
      | Retorna r => (Retorna tt, <[df := setitem "codigo_pais" r t]> m)
      | Levanta e => (Levanta e, m)
      end
    else (Retorna tt, m).
Proof.
  intros Hm. unfold codigos_de_pais, mbind at 1, M_bind at 1, le at 1. rewrite Hm.
  destruct (tem_coluna "pais" t); [ | reflexivity].
  unfold mbind, M_bind, eleva, escreve.
  destruct (getitem "pais" t) as [a | e]; cbn [liga]; [ | reflexivity].
  destruct (apply_str (obter_codigo_pais (search_fuzzy amb)) a) as [q | e]; [ | reflexivity].
  rewrite Hm. reflexivity.
Qed.

(** The module runs [normalizar_colunas], then the two conversions. *)
Lemma pipeline_passos (amb : ambiente) (df : nat) (m : memoria) :
  pipeline amb df m =
    (df' ← normalizar_colunas amb df;
     converter_receita df';; codigos_de_pais amb df';; mret df') m.
Proof.
  unfold pipeline, converter_receita, codigos_de_pais, mbind, M_bind.
  destruct (normalizar_colunas amb df m) as [[df' | e] m1]; [ | reflexivity].
  destruct (le df' m1) as [[t | e] m2]; [ | reflexivity].
  destruct (tem_coluna "receita_anual" t).
  - destruct (eleva (getitem "receita_anual" t) m2) as [[s | e] m3]; [ | reflexivity].
    destruct (eleva (apply_float converter_para_float s) m3) as [[r | e] m4]; [ | reflexivity].
    destruct (escreve df' (setitem "receita_anual" r) m4) as [[[] | e] m5]; [ | reflexivity].
    destruct (le df' m5) as [[t' | e] m6]; reflexivity.
  - unfold mret, M_ret. destruct (le df' m2) as [[t' | e] m6]; reflexivity.
Qed.

(** The renaming leaves the table under its canonical labels at the
    address it returns. *)
Lemma renomear_canonica (m : memoria) (df : nat) (t : dataframe) :
  m !! df = Some t ->
  exists (df' : nat) (m1 : memoria),
    renomear df m = (Retorna df', m1) /\ m1 !! df' = Some (canonica t).
Proof.
  intros Hm. rewrite (renomear_resultado m df t Hm).
  destruct (bool_decide (colunas_para_renomear t = ∅)) eqn:Hv.
  - apply bool_decide_eq_true_1 in Hv. exists df, m. split; [reflexivity | ].
    unfold canonica. rewrite (sem_renomear_nada_muda t Hv). exact Hm.
  - eexists _, _. split; [reflexivity | ]. apply lookup_alocada.
Qed.

(** ** The writes of the statements *)

Lemma escrita_trans (t u v : dataframe) : escrita t u -> escrita u v -> escrita t v.
Proof.
  intros H1 H2. induction H2 as [u | u v l s H2 IH Hp]; [exact H1 | ].
  apply escrita_coluna; [apply IH, H1 | exact Hp].
Qed.

Lemma escrita_uma (t : dataframe) (l : string) (s : series) :
  pode_escrever l t -> escrita t (setitem l s t).
Proof. intros H. apply escrita_coluna; [apply escrita_nada | exact H]. Qed.

Lemma pode_escrever_criada (l : string) (t : dataframe) : l ∈ criadas -> pode_escrever l t.
Proof. intros H. left. exact H. Qed.

Lemma escreve_em_ret {A : Type} (df : nat) (x : A) : escreve_em df (mret x : M A).
Proof. intros m t Hm. exists t. split; [exact Hm | apply escrita_nada]. Qed.

Lemma escreve_em_bind {A B : Type} (df : nat) (c : M A) (k : A -> M B) :
  escreve_em df c -> (forall x, escreve_em df (k x)) -> escreve_em df (c ≫= k).
Proof.
  intros Hc Hk m t Hm. destruct (Hc m t Hm) as (t1 & H1 & E1).
  unfold mbind, M_bind. destruct (c m) as [[x | e] m1]; cbn [snd] in *.
  - destruct (Hk x m1 t1 H1) as (t2 & H2 & E2).
    exists t2. split; [exact H2 | exact (escrita_trans _ _ _ E1 E2)].
  - exists t1. split; [exact H1 | exact E1].
Qed.

Lemma escreve_em_extrair_ano (amb : ambiente) (df : nat) :
  escreve_em df (extrair_ano amb df).
Proof.
  intros m t Hm. rewrite (extrair_ano_efeito amb df m t Hm). cbn [snd].
  destruct (tem_coluna "ano_fundacao" t) eqn:Ha; cbn [negb andb];
    [exists t; split; [exact Hm | apply escrita_nada] | ].
  destruct (tem_coluna "data_fundacao" t) eqn:Hd;
    [ | exists t; split; [exact Hm | apply escrita_nada]].
  destruct (liga (getitem "data_fundacao" t) (to_datetime amb)) as [d | e];
    [ | exists t; split; [exact Hm | apply escrita_nada]].
  assert (Hp : pode_escrever "data_fundacao" t).
  { right. right. split; [apply list_elem_of_here | exact Hd]. }
  destruct (dt_year amb d) as [y | e].
  - eexists. split; [apply (lookup_escrita m df t _ Hm) | ].
    apply escrita_coluna; [apply escrita_uma, Hp | ].
    right. left. split; [reflexivity | ]. rewrite tem_coluna_setitem, Ha. reflexivity.
  - eexists. split; [apply (lookup_escrita m df t _ Hm) | apply escrita_uma, Hp].
Qed.

(** A statement that writes one column under a label of [criadas], or
    nothing. *)
Ltac uma_criada Hm :=
  cbn [snd];
  match goal with
  | |- context [if ?b then _ else _] => destruct b
  end;
  [ match goal with
    | |- context [match ?r with Retorna _ => _ | Levanta _ => _ end] => destruct r
    end | ];
  cbn [snd];
  first
    [ eexists; split; [exact Hm | apply escrita_nada]
    | eexists; split;
      [ eapply lookup_escrita, Hm
      | apply escrita_uma, pode_escrever_criada; unfold criadas;
        repeat first [apply list_elem_of_here | apply list_elem_of_further] ] ].

Lemma escreve_em_receita_por_funcionario (amb : ambiente) (df : nat) :
  escreve_em df (receita_por_funcionario amb df).
Proof.
  intros m t Hm. rewrite (receita_por_funcionario_efeito amb df m t Hm). uma_criada Hm.
Qed.

Lemma escreve_em_porte (amb : ambiente) (df : nat) : escreve_em df (porte amb df).
Proof. intros m t Hm. rewrite (porte_efeito amb df m t Hm). uma_criada Hm. Qed.

Lemma escreve_em_idade_empresa (amb : ambiente) (df : nat) :
  escreve_em df (idade_empresa amb df).
Proof. intros m t Hm. rewrite (idade_empresa_efeito amb df m t Hm). uma_criada Hm. Qed.

Lemma escreve_em_codigos_de_pais (amb : ambiente) (df : nat) :
  escreve_em df (codigos_de_pais amb df).
Proof. intros m t Hm. rewrite (codigos_de_pais_efeito amb df m t Hm). uma_criada Hm. Qed.

Lemma escreve_em_converter_receita (df : nat) : escreve_em df (converter_receita df).
Proof.
  intros m t Hm. rewrite (converter_receita_efeito df m t Hm).
  destruct (tem_coluna "receita_anual" t) eqn:Hr;
    [ | exists t; split; [exact Hm | apply escrita_nada]].
  destruct (liga (getitem "receita_anual" t) (apply_float converter_para_float)) as [r | e];
    cbn [snd]; [ | exists t; split; [exact Hm | apply escrita_nada]].
  eexists. split; [apply (lookup_escrita m df t _ Hm) | ].
  apply escrita_uma. right. right.
  split; [apply list_elem_of_further, list_elem_of_here | exact Hr].
Qed.

Lemma criadas_derivadas (l : string) : l ∈ criadas -> l ∈ derivadas.
Proof. intros H. apply list_elem_of_further, H. Qed.

(** The writes keep every column where it stood and add columns of
    [derivadas] at the end. *)
Lemma escrita_columns (t t' : dataframe) :
  escrita t t' ->
  exists ex : list string,
    columns t' = (columns t ++ ex)%list /\ Forall (fun l => l ∈ derivadas) ex.
Proof.
  induction 1 as [t | t t' l s H (ex & IH & Hex) Hp].
  - exists []. split; [symmetry; apply app_nil_r | constructor].
  - rewrite columns_setitem. destruct (tem_coluna l t') eqn:Hl.
    + exists ex. auto.
    + exists (ex ++ [l])%list. split; [rewrite IH, app_assoc; reflexivity | ].
      apply Forall_app. split; [exact Hex | ]. apply Forall_singleton.
      destruct Hp as [Hp | [[-> _] | [_ Hp]]].
      * apply criadas_derivadas, Hp.
      * apply list_elem_of_here.
      * congruence.
Qed.

Lemma escrita_tem (t t' : dataframe) (l : string) :
  escrita t t' -> tem_coluna l t = true -> tem_coluna l t' = true.
Proof.
  induction 1 as [t | t t' l0 s H IH Hp]; [auto | ].
  intros Hl. rewrite tem_coluna_setitem, (IH Hl). reflexivity.
Qed.

(** The writes leave alone every column under another label, and the year
    of foundation that the table came with. *)
Lemma escrita_intocada (t t' : dataframe) (l : string) :
  escrita t t' ->
  l ∉ criadas -> l ∉ ["data_fundacao"; "receita_anual"] ->
  (l = "ano_fundacao" -> tem_coluna l t = true) ->
  getitem l t' = getitem l t.
Proof.
  intros H Hc Hd Ha. induction H as [t | t t' l0 s H IH Hp]; [reflexivity | ].
  rewrite getitem_setitem_outro; [apply IH, Ha | ].
  intros ->. destruct Hp as [Hp | [[-> Hp] | [Hp _]]]; [contradiction | | contradiction].
  rewrite (escrita_tem _ _ _ H (Ha eq_refl)) in Hp. discriminate.
Qed.

Lemma apos_renomear_escreve (amb : ambiente) (df' : nat) :
  escreve_em df'
    (extrair_ano amb df';; receita_por_funcionario amb df';; porte amb df';;
     idade_empresa amb df';; mret df').
Proof.
  apply escreve_em_bind; [apply escreve_em_extrair_ano | intros _].
  apply escreve_em_bind; [apply escreve_em_receita_por_funcionario | intros _].
  apply escreve_em_bind; [apply escreve_em_porte | intros _].
  apply escreve_em_bind; [apply escreve_em_idade_empresa | intros _].
  apply escreve_em_ret.
Qed.

(** Whether it returns or raises, [normalizar_colunas] leaves at the
    address that the renaming returned the canonical table with the writes
    of its statements. *)
Lemma normalizar_colunas_escrita (amb : ambiente) (m : memoria) (df : nat) (t : dataframe) :
  m !! df = Some t ->
  exists (df' : nat) (t' : dataframe),
    (renomear df m).1 = Retorna df' /\
    (normalizar_colunas amb df m).2 !! df' = Some t' /\
    escrita (canonica t) t'.
Proof.
  intros Hm. destruct (renomear_canonica m df t Hm) as (df' & m1 & Hr & H1).
  destruct (apos_renomear_escreve amb df' m1 _ H1) as (t' & H2 & E).
  exists df', t'. split; [rewrite Hr; reflexivity | ]. split; [ | exact E].
  unfold normalizar_colunas, mbind at 1, M_bind at 1. rewrite Hr. exact H2.
Qed.

(** The same for the module. *)
Lemma pipeline_escrita (amb : ambiente) (m : memoria) (df : nat) (t : dataframe) :
  m !! df = Some t ->
  exists (df' : nat) (t' : dataframe),
    (renomear df m).1 = Retorna df' /\
    (pipeline amb df m).2 !! df' = Some t' /\
    escrita (canonica t) t' /\
    (forall r : nat, (pipeline amb df m).1 = Retorna r -> r = df').
Proof.
  intros Hm. destruct (normalizar_colunas_escrita amb m df t Hm) as (df' & tN & Hr & HN & EN).
  assert (Hret : forall r : nat, (pipeline amb df m).1 = Retorna r -> r = df').
  { intros r H. apply pipeline_retorna in H. rewrite Hr in H. injection H. auto. }
  assert (H2 : exists t' : dataframe,
             (pipeline amb df m).2 !! df' = Some t' /\ escrita (canonica t) t').
  { rewrite (pipeline_passos amb df m). unfold mbind at 1, M_bind at 1.
    destruct (normalizar_colunas amb df m) as [[r | e] mN] eqn:En; cbn [snd] in *.
    - assert (r = df') as ->.
      { pose proof (normalizar_colunas_retorna amb df r m) as H. rewrite En, Hr in H.
        specialize (H eq_refl). injection H. auto. }
      assert (Hc : escreve_em df'
                     (converter_receita df';; codigos_de_pais amb df';; mret df')).
      { apply escreve_em_bind; [apply escreve_em_converter_receita | intros _].
        apply escreve_em_bind; [apply escreve_em_codigos_de_pais | intros _].
        apply escreve_em_ret. }
      destruct (Hc mN tN HN) as (t' & H' & E').
      exists t'. split; [exact H' | exact (escrita_trans _ _ _ EN E')].
    - exists tN. auto. }
  destruct H2 as (t' & H' & E'). exists df', t'. auto.
Qed.

Lemma columns_canonica (t : dataframe) : columns (canonica t) = canonico <$> columns t.
Proof. apply colunas_canonicas. Qed.

(** X8.  The labels of the table that the module works on, whether the
    run returns or raises: the labels of the loaded table, each replaced by
    its canonical label and in the order they had, followed by columns
    among [ano_fundacao], [receita_por_funcionario], [porte],
    [idade_empresa] and [codigo_pais].  No column is dropped or moved. *)
Theorem X8_rotulos_do_resultado
    (amb : ambiente) (m : memoria) (df : nat) (t : dataframe) :
  m !! df = Some t ->
  exists (df' : nat) (t' : dataframe) (ex : list string),
    (renomear df m).1 = Retorna df' /\
    (pipeline amb df m).2 !! df' = Some t' /\
    (forall r : nat, (pipeline amb df m).1 = Retorna r -> r = df') /\
    columns t' = ((canonico <$> columns t) ++ ex)%list /\
    Forall (fun l => l ∈ derivadas) ex.
Proof.
  intros Hm. destruct (pipeline_escrita amb m df t Hm) as (df' & t' & Hr & H' & E & Hret).
  destruct (escrita_columns _ _ E) as (ex & Hc & Hex).
  exists df', t', ex. rewrite <- columns_canonica. auto.
Qed.

(** The theorem on the table built from the documents of the database. *)
Lemma X8_rotulos_do_resultado_witness :
  exists (df' : nat) (t' : dataframe) (ex : list string),
    (renomear 0 [tabela_mongo]).1 = Retorna df' /\
    (pipeline ambiente_exemplo 0 [tabela_mongo]).2 !! df' = Some t' /\
    (forall r : nat, (pipeline ambiente_exemplo 0 [tabela_mongo]).1 = Retorna r -> r = df') /\
    columns t' = ((canonico <$> columns tabela_mongo) ++ ex)%list /\
    Forall (fun l => l ∈ derivadas) ex.
Proof.
  apply (X8_rotulos_do_resultado ambiente_exemplo [tabela_mongo] 0 tabela_mongo).
  reflexivity.
Defined.

(** X11.  The columns that the module never rewrites: whether the run
    returns or raises, a column under any label other than the five derived
    ones, [data_fundacao] and [receita_anual] is read from the table as it
    was loaded; so is the year of foundation when the table came with
    one. *)
Theorem X11_colunas_intocadas
    (amb : ambiente) (m : memoria) (df : nat) (t : dataframe) :
  m !! df = Some t ->
  exists (df' : nat) (t' : dataframe),
    (renomear df m).1 = Retorna df' /\
    (pipeline amb df m).2 !! df' = Some t' /\
    (forall l : string,
       l ∉ derivadas -> l ∉ ["data_fundacao"; "receita_anual"] ->
       getitem l t' = getitem l (canonica t)) /\
    (tem_coluna "ano_fundacao" (canonica t) = true ->
     getitem "ano_fundacao" t' = getitem "ano_fundacao" (canonica t)).
Proof.
  intros Hm. destruct (pipeline_escrita amb m df t Hm) as (df' & t' & Hr & H' & E & _).
  exists df', t'. split; [exact Hr | ]. split; [exact H' | ]. split.
  - intros l Hl Hd. apply (escrita_intocada _ _ _ E); [ | exact Hd | ].
    + intros H. apply Hl, criadas_derivadas, H.
    + intros ->. exfalso. apply Hl, list_elem_of_here.
  - intros Ha. apply (escrita_intocada _ _ _ E); [ | | intros _; exact Ha].
    + unfold criadas. rewrite !elem_of_cons, elem_of_nil. intros H.
      repeat destruct H as [H | H]; try discriminate H. exact H.
    + rewrite !elem_of_cons, elem_of_nil. intros H.
      repeat destruct H as [H | H]; try discriminate H. exact H.
Qed.

(** The theorem on the table read from the CSV file, on which the run
    raises. *)
Lemma X11_colunas_intocadas_witness :
  exists (df' : nat) (t' : dataframe),
    (renomear 0 [tabela_csv]).1 = Retorna df' /\
    (pipeline ambiente_exemplo 0 [tabela_csv]).2 !! df' = Some t' /\
    (forall l : string,
       l ∉ derivadas -> l ∉ ["data_fundacao"; "receita_anual"] ->
       getitem l t' = getitem l (canonica tabela_csv)) /\
    (tem_coluna "ano_fundacao" (canonica tabela_csv) = true ->
     getitem "ano_fundacao" t' = getitem "ano_fundacao" (canonica tabela_csv)).
Proof.
  apply (X11_colunas_intocadas ambiente_exemplo [tabela_csv] 0 tabela_csv). reflexivity.
Defined.

(** ** The year of foundation *)

(** X3.  The extraction of the year never raises.  It does nothing when
    the table has a year or has no date, and nothing when the date does not
    parse: the handler absorbs the exception.  When the date parses the
    date column is replaced by the parsed one, and that write stays even if
    taking the year then fails; when the year is taken it becomes the
    column [ano_fundacao]. *)
Theorem X3_extrair_ano_nunca_levanta
    (amb : ambiente) (df : nat) (m : memoria) (t : dataframe) :
  m !! df = Some t ->
  exists m' : memoria,
    extrair_ano amb df m = (Retorna tt, m') /\
    (tem_coluna "ano_fundacao" t = true \/ tem_coluna "data_fundacao" t = false -> m' = m) /\
    (forall (s : series) (e : excecao),
       getitem "data_fundacao" t = Retorna s -> to_datetime amb s = Levanta e -> m' = m) /\
    (forall s d : series,
       tem_coluna "ano_fundacao" t = false ->
       getitem "data_fundacao" t = Retorna s ->
       to_datetime amb s = Retorna d ->
       (forall e : excecao,
          dt_year amb d = Levanta e -> m' = <[df := setitem "data_fundacao" d t]> m) /\
       (forall y : series,
          dt_year amb d = Retorna y ->
          m' = <[df := setitem "ano_fundacao" y (setitem "data_fundacao" d t)]> m)).
Proof.
  intros Hm. rewrite (extrair_ano_efeito amb df m t Hm).
  eexists. split; [reflexivity | ]. split; [ | split].
  - intros [H | H]; rewrite H; [reflexivity | ].
    destruct (negb (tem_coluna "ano_fundacao" t)); reflexivity.
  - intros s e Hs He. rewrite Hs. cbn [liga]. rewrite He.
    destruct (negb (tem_coluna "ano_fundacao" t) && tem_coluna "data_fundacao" t);
      reflexivity.
  - intros s d Ha Hs Hd. rewrite Ha, (getitem_tem_coluna _ _ _ Hs), Hs.
    cbn [negb andb liga]. rewrite Hd. split; intros ? ->; reflexivity.
Qed.

(** The theorem on a table with one date, in an environment in which the
    date parses. *)
Lemma X3_extrair_ano_witness :
  extrair_ano ambiente_datas 0 [[("data_fundacao", SObject [PStr "2000-01-15"])]] =
    (Retorna tt,
     [[("data_fundacao", SDatetime [Some 947894400000000000]);
       ("ano_fundacao", SInt64 [2000])]]).
Proof.
  destruct (X3_extrair_ano_nunca_levanta ambiente_datas 0
              [[("data_fundacao", SObject [PStr "2000-01-15"])]]
              [("data_fundacao", SObject [PStr "2000-01-15"])] eq_refl)
    as (m' & E & _ & _ & H).
  rewrite E. f_equal.
  exact (proj2 (H (SObject [PStr "2000-01-15"]) (SDatetime [Some 947894400000000000])
                  eq_refl eq_refl eq_refl) (SInt64 [2000]) eq_refl).
Defined.

(** X4.  On a table with no revenue, no year and no date of foundation,
    under any of their labels, [normalizar_colunas] does the renaming and
    nothing else: no derived column is added and nothing is raised.  With
    no country column either, the same holds for the module. *)
Theorem X4_sem_colunas_de_origem
    (amb : ambiente) (m : memoria) (df : nat) (t : dataframe) :
  m !! df = Some t ->
  tem_coluna "receita_anual" (canonica t) = false ->
  tem_coluna "ano_fundacao" (canonica t) = false ->
  tem_coluna "data_fundacao" (canonica t) = false ->
  normalizar_colunas amb df m = renomear df m /\
  (tem_coluna "pais" (canonica t) = false -> pipeline amb df m = renomear df m).
Proof.
  intros Hm Hr Ha Hd. destruct (renomear_canonica m df t Hm) as (df' & m1 & E & H1).
  assert (Hn : normalizar_colunas amb df m = renomear df m).
  { unfold normalizar_colunas, mbind at 1, M_bind at 1. rewrite E.
    unfold mbind at 1, M_bind at 1.
    rewrite (extrair_ano_efeito amb df' m1 _ H1), Ha, Hd. cbn [negb andb].
    unfold mbind at 1, M_bind at 1.
    rewrite (receita_por_funcionario_efeito amb df' m1 _ H1), Hr. cbn [andb].
    unfold mbind at 1, M_bind at 1.
    rewrite (porte_efeito amb df' m1 _ H1), Hr.
    unfold mbind at 1, M_bind at 1.
    rewrite (idade_empresa_efeito amb df' m1 _ H1), Ha. reflexivity. }
  split; [exact Hn | ]. intros Hp.
  rewrite (pipeline_passos amb df m). unfold mbind at 1, M_bind at 1. rewrite Hn, E.
  unfold mbind at 1, M_bind at 1.
  rewrite (converter_receita_efeito df' m1 _ H1), Hr.
  unfold mbind at 1, M_bind at 1.
  rewrite (codigos_de_pais_efeito amb df' m1 _ H1), Hp. reflexivity.
Qed.

(** The theorem on a table of names and sectors. *)
Lemma X4_sem_colunas_de_origem_witness :
  normalizar_colunas ambiente_exemplo 0
    [[("Nome da Empresa", SObject [PStr "Acme"]); ("Setor", SObject [PStr "Energia"])]] =
  renomear 0
    [[("Nome da Empresa", SObject [PStr "Acme"]); ("Setor", SObject [PStr "Energia"])]].
Proof.
  apply (X4_sem_colunas_de_origem ambiente_exemplo _ 0
           [("Nome da Empresa", SObject [PStr "Acme"]); ("Setor", SObject [PStr "Energia"])]);
    reflexivity.
Defined.

(** A sequence that returns: its first statement returned. *)
Lemma bind_inv {A B : Type} (c : M A) (k : A -> M B) (m m' : memoria) (y : B) :
  (c ≫= k) m = (Retorna y, m') ->
  exists (x : A) (m1 : memoria), c m = (Retorna x, m1) /\ k x m1 = (Retorna y, m').
Proof.
  unfold mbind, M_bind. destruct (c m) as [[x | e] m1]; [ | discriminate].
  intros H. exists x, m1. auto.
Qed.

Lemma wrap64_pequeno (z : Z) : - 2 ^ 63 <= z < 2 ^ 63 -> wrap64 z = z.
Proof. intros H. unfold wrap64. rewrite Z.mod_small; lia. Qed.

(** X5.  The age of the company.  When the loaded table has a year of
    foundation, under any of its labels, and [normalizar_colunas] returns,
    the table returned keeps that year column, and its column
    [idade_empresa] is what [ano_atual - ano_fundacao] gives: on an [int64]
    column the current year minus the year of each row, exactly when the
    difference is in the [int64] range. *)
Theorem X5_idade_da_empresa
    (amb : ambiente) (m m' : memoria) (df r : nat) (t : dataframe) (s : series) :
  m !! df = Some t ->
  getitem "ano_fundacao" (canonica t) = Retorna s ->
  normalizar_colunas amb df m = (Retorna r, m') ->
  exists (t' : dataframe) (i : series),
    m' !! r = Some t' /\
    getitem "ano_fundacao" t' = Retorna s /\
    rsub amb (ano_atual amb) s = Retorna i /\
    getitem "idade_empresa" t' = Retorna i /\
    (forall ys : list Z,
       s = SInt64 ys -> i = SInt64 ((fun y => wrap64 (ano_atual amb - y)) <$> ys)) /\
    (forall y : Z,
       - 2 ^ 63 <= ano_atual amb - y < 2 ^ 63 ->
       wrap64 (ano_atual amb - y) = ano_atual amb - y).
Proof.
  intros Hm Hs Hn. destruct (renomear_canonica m df t Hm) as (df' & m1 & E & H1).
  unfold normalizar_colunas, mbind at 1, M_bind at 1 in Hn. rewrite E in Hn.
  apply bind_inv in Hn as ([] & m2 & E2 & Hn).
  apply bind_inv in Hn as ([] & m3 & E3 & Hn).
  apply bind_inv in Hn as ([] & m4 & E4 & Hn).
  apply bind_inv in Hn as ([] & m5 & E5 & Hn).
  injection Hn as <- <-.
  destruct (escreve_em_extrair_ano amb df' m1 _ H1) as (t2 & H2 & W2).
  rewrite E2 in H2. cbn [snd] in H2.
  destruct (escreve_em_receita_por_funcionario amb df' m2 _ H2) as (t3 & H3 & W3).
  rewrite E3 in H3. cbn [snd] in H3.
  destruct (escreve_em_porte amb df' m3 _ H3) as (t4 & H4 & W4).
  rewrite E4 in H4. cbn [snd] in H4.
  pose proof (escrita_trans _ _ _ (escrita_trans _ _ _ W2 W3) W4) as W.
  assert (Ha : getitem "ano_fundacao" t4 = Retorna s).
  { rewrite <- Hs. apply (escrita_intocada _ _ _ W).
    - unfold criadas. rewrite !elem_of_cons, elem_of_nil. intros H.
      repeat destruct H as [H | H]; try discriminate H. exact H.
    - rewrite !elem_of_cons, elem_of_nil. intros H.
      repeat destruct H as [H | H]; try discriminate H. exact H.
    - intros _. apply (getitem_tem_coluna _ _ _ Hs). }
  rewrite (idade_empresa_efeito amb df' m4 _ H4), (getitem_tem_coluna _ _ _ Ha), Ha in E5.
  cbn [liga] in E5.
  destruct (rsub amb (ano_atual amb) s) as [i | e] eqn:Hi; [ | discriminate].
  injection E5 as <-.
  exists (setitem "idade_empresa" i t4), i.
  split; [apply (lookup_escrita m4 df' t4 _ H4) | ].
  split; [rewrite getitem_setitem_outro by discriminate; exact Ha | ].
  split; [reflexivity | ]. split; [apply getitem_setitem | ].
  split; [ | intros y; apply wrap64_pequeno].
  intros ys ->. cbn [rsub] in Hi. injection Hi as <-. reflexivity.
Qed.

(** The theorem on a company founded in 2000, in the year 2025. *)
Lemma X5_idade_da_empresa_witness :
  exists t' : dataframe,
    (normalizar_colunas ambiente_exemplo 0 [[("Ano de Fundação", SInt64 [2000])]]).2
      !! 1%nat = Some t' /\
    getitem "idade_empresa" t' = Retorna (SInt64 [25]).
Proof.
  destruct (X5_idade_da_empresa ambiente_exemplo
              [[("Ano de Fundação", SInt64 [2000])]]
              (normalizar_colunas ambiente_exemplo 0 [[("Ano de Fundação", SInt64 [2000])]]).2
              0 1 [("Ano de Fundação", SInt64 [2000])] (SInt64 [2000])
              eq_refl eq_refl eq_refl)
    as (t' & i & H1 & _ & _ & H2 & H3 & _).
  exists t'. split; [exact H1 | ]. rewrite H2, (H3 [2000] eq_refl). reflexivity.
Defined.

(** ** The sectors of the module *)



(** ** Numeric tables *)














(** ** The exported revenue, read again *)

Ltac por_algarismo d H :=
  let Hd := fresh "Hd" in
  assert (Hd : d = 0 \/ d = 1 \/ d = 2 \/ d = 3 \/ d = 4 \/
               d = 5 \/ d = 6 \/ d = 7 \/ d = 8 \/ d = 9)
    by (unfold e_algarismo in H; lia);
  clear H; repeat destruct Hd as [-> | Hd]; [.. | subst d].

Lemma digito_algarismo (d : Z) : e_algarismo d -> PyFloat.digito (algarismo d) = Some d.
Proof. intros H. por_algarismo d H; reflexivity. Qed.

Lemma espaco_algarismo (d : Z) : e_algarismo d -> PyFloat.espaco (algarismo d) = false.
Proof. intros H. por_algarismo d H; reflexivity. Qed.

Lemma limpo_exportado_algarismo (d : Z) (s : string) :
  e_algarismo d ->
  limpo_exportado (String (algarismo d) s) = String (algarismo d) (limpo_exportado s).
Proof. intros H. por_algarismo d H; reflexivity. Qed.

(** The thousands separator: [','] becomes ['X'], then ['.'], which the
    cleaning deletes. *)
Lemma limpo_exportado_milhar (s : string) :
  limpo_exportado (String "," s) = limpo_exportado s.
Proof. reflexivity. Qed.

(** The decimal point: ['.'] becomes [','], which the cleaning turns into
    ['.'] again. *)
Lemma limpo_exportado_ponto (s : string) :
  limpo_exportado (String "." s) = String "." (limpo_exportado s).
Proof. reflexivity. Qed.

Lemma limpo_exportado_prefixo (s : string) :
  limpo_exportado ("R$ " ++ s) = limpo_exportado s.
Proof. reflexivity. Qed.

Lemma limpo_exportado_sinal (neg : bool) (s : string) :
  limpo_exportado ((if neg then "-" else "") ++ s) =
  (if neg then "-" else "") ++ limpo_exportado s.
Proof. destruct neg; reflexivity. Qed.

Lemma limpo_exportado_agrupa (ds : list Z) :
  Forall e_algarismo ds ->
  forall (k : nat) (acc : string),
    limpo_exportado (agrupa k ds acc) = texto_digitos ds (limpo_exportado acc).
Proof.
  induction 1 as [ | d r Hd Hr IH]; intros k acc; [reflexivity | ].
  cbn [agrupa texto_digitos]. destruct (k =? 3)%nat; rewrite IH.
  - rewrite (limpo_exportado_algarismo d _ Hd), limpo_exportado_milhar. reflexivity.
  - rewrite (limpo_exportado_algarismo d _ Hd). reflexivity.
Qed.

(** *** The digits of a number *)

Lemma algarismos_valor (fuel : nat) :
  forall n : Z,
    0 <= n -> Z.log2 n <= Z.of_nat fuel ->
    Forall e_algarismo (algarismos fuel n) /\
    valor_digitos (algarismos fuel n) = n /\
    algarismos fuel n <> [].
Proof.
  induction fuel as [ | f IH]; intros n Hn Hl.
  - assert (n < 2).
    { destruct (Z.eq_dec n 0) as [-> | ]; [lia | ].
      assert (n < 2 ^ Z.succ (Z.log2 n)) by (apply Z.log2_spec; lia).
      assert (Z.log2 n = 0) by (pose proof (Z.log2_nonneg n); lia).
      rewrite H0 in H. exact H. }
    cbn [algarismos]. rewrite Z.mod_small by lia.
    split; [ | split; [cbn [valor_digitos]; lia | discriminate]].
    apply Forall_singleton. unfold e_algarismo. lia.
  - cbn [algarismos]. destruct (n <? 10) eqn:E.
    + apply Z.ltb_lt in E.
      split; [ | split; [cbn [valor_digitos]; lia | discriminate]].
      apply Forall_singleton. unfold e_algarismo. lia.
    + apply Z.ltb_ge in E.
      assert (H0 : 0 <= n / 10) by (apply Z.div_pos; lia).
      assert (H1 : Z.log2 (n / 10) <= Z.of_nat f).
      { assert (Z.log2 (n / 10) <= Z.log2 (n / 2)).
        { apply Z.log2_le_mono. Z.div_mod_to_equations. lia. }
        assert (Z.log2 (n / 2) = Z.log2 n - 1).
        { rewrite <- Z.div2_div, Z.div2_spec, Z.log2_shiftr by lia.
          assert (1 <= Z.log2 n) by (apply Z.log2_le_pow2; lia). lia. }
        lia. }
      destruct (IH (n / 10) H0 H1) as (Hf & Hv & _).
      split; [ | split; [ | discriminate]].
      * apply Forall_cons. split; [ | exact Hf].
        unfold e_algarismo. Z.div_mod_to_equations. lia.
      * cbn [valor_digitos]. rewrite Hv. Z.div_mod_to_equations. lia.
Qed.

(** *** Reading digits *)

Lemma digitos_texto (ds : list Z) :
  Forall e_algarismo ds ->
  forall (a c : Z) (rest : string),
    PyFloat.digitos a c (texto_digitos ds rest) =
    PyFloat.digitos (a * 10 ^ Z.of_nat (length ds) + valor_digitos ds)
                    (c + Z.of_nat (length ds)) rest.
Proof.
  induction 1 as [ | d r Hd Hr IH]; intros a c rest.
  - cbn [texto_digitos valor_digitos length Z.of_nat].
    rewrite Z.pow_0_r, Z.mul_1_r, !Z.add_0_r. reflexivity.
  - cbn [texto_digitos valor_digitos length]. rewrite IH.
    cbn [PyFloat.digitos]. rewrite (digito_algarismo d Hd).
    rewrite Nat2Z.inj_succ, Z.pow_succ_r by lia.
    f_equal; [ring | lia].
Qed.

Lemma texto_digitos_inicio (ds : list Z) :
  Forall e_algarismo ds -> ds <> [] ->
  forall rest : string,
    exists (d : Z) (r : string),
      e_algarismo d /\ texto_digitos ds rest = String (algarismo d) r.
Proof.
  induction 1 as [ | d r Hd Hr IH]; intros Hne rest; [contradiction | ].
  cbn [texto_digitos]. destruct r as [ | d' r'].
  - exists d, rest. auto.
  - apply IH. discriminate.
Qed.

Lemma digitpart_texto (ds : list Z) (a : Z) (rest : string) :
  Forall e_algarismo ds -> ds <> [] ->
  PyFloat.digitpart a (texto_digitos ds rest) =
  Some (PyFloat.digitos (a * 10 ^ Z.of_nat (length ds) + valor_digitos ds)
                        (Z.of_nat (length ds)) rest).
Proof.
  intros Hf Hne. pose proof (digitos_texto ds Hf a 0 rest) as E.
  rewrite Z.add_0_l in E. rewrite <- E. clear E.
  destruct (texto_digitos_inicio ds Hf Hne rest) as (d & r & Hd & ->).
  cbn [PyFloat.digitpart PyFloat.digitos]. rewrite (digito_algarismo d Hd). reflexivity.
Qed.

Lemma digitos_ponto (a c : Z) (r : string) :
  PyFloat.digitos a c (String "." r) = (a, c, String "." r).
Proof. reflexivity. Qed.

(** A number with two decimals is read as its hundredths. *)
Lemma number_decimal (ds : list Z) (f1 f2 : Z) :
  Forall e_algarismo ds -> ds <> [] -> e_algarismo f1 -> e_algarismo f2 ->
  PyFloat.number
    (texto_digitos ds (String "." (String (algarismo f1) (String (algarismo f2) "")))) =
  Some (valor_digitos ds * 100 + 10 * f1 + f2, 2, "").
Proof.
  intros Hf Hne H1 H2. unfold PyFloat.number.
  rewrite (digitpart_texto ds 0 _ Hf Hne), digitos_ponto.
  change (String (algarismo f1) (String (algarismo f2) ""))
    with (texto_digitos [f2; f1] "").
  cbv beta iota.
  rewrite (digitpart_texto [f2; f1] _ "");
    [ | apply Forall_cons; split; [exact H2 | apply Forall_singleton; exact H1]
      | discriminate].
  cbn [PyFloat.digitos length valor_digitos].
  change (Z.of_nat 2) with 2. change (10 ^ 2) with 100.
  do 3 f_equal. ring.
Qed.

(** *** Stripping *)

Lemma inverte_em_inverte_em (s a b : string) :
  PyFloat.inverte_em (PyFloat.inverte_em s a) b = PyFloat.inverte_em a (s ++ b).
Proof.
  revert a b. induction s as [ | c r IH]; intros a b; [reflexivity | ].
  cbn [PyFloat.inverte_em]. rewrite IH. reflexivity.
Qed.

Lemma append_vazio (s : string) : s ++ "" = s.
Proof.
  induction s as [ | c r IH]; [reflexivity | ].
  change (String c r ++ "") with (String c (r ++ "")). rewrite IH. reflexivity.
Qed.

Lemma inverte_inverte (s : string) : PyFloat.inverte (PyFloat.inverte s) = s.
Proof.
  unfold PyFloat.inverte. rewrite inverte_em_inverte_em.
  cbn [PyFloat.inverte_em]. apply append_vazio.
Qed.

Lemma inverte_em_caracteres (s a : string) :
  caracteres (PyFloat.inverte_em s a) = (rev (caracteres s) ++ caracteres a)%list.
Proof.
  revert a. induction s as [ | c r IH]; intros a; [reflexivity | ].
  cbn [PyFloat.inverte_em caracteres rev]. rewrite IH. cbn [caracteres].
  rewrite <- app_assoc. reflexivity.
Qed.

Lemma tira_esquerda_sem_espaco (s : string) :
  Forall (fun c => PyFloat.espaco c = false) (caracteres s) -> PyFloat.tira_esquerda s = s.
Proof.
  destruct s as [ | c r]; [reflexivity | ].
  cbn [caracteres PyFloat.tira_esquerda]. intros H. apply Forall_cons in H as [-> _].
  reflexivity.
Qed.

(** [strip] leaves a text without white space as it is. *)
Lemma strip_sem_espaco (s : string) :
  Forall (fun c => PyFloat.espaco c = false) (caracteres s) -> PyFloat.strip s = s.
Proof.
  intros H. unfold PyFloat.strip. rewrite (tira_esquerda_sem_espaco s H).
  rewrite tira_esquerda_sem_espaco; [apply inverte_inverte | ].
  unfold PyFloat.inverte. rewrite inverte_em_caracteres. cbn [caracteres].
  rewrite app_nil_r. apply Forall_rev, H.
Qed.

Lemma texto_digitos_sem_espaco (ds : list Z) :
  Forall e_algarismo ds ->
  forall acc : string,
    Forall (fun c => PyFloat.espaco c = false) (caracteres acc) ->
    Forall (fun c => PyFloat.espaco c = false) (caracteres (texto_digitos ds acc)).
Proof.
  induction 1 as [ | d r Hd Hr IH]; intros acc Ha; [exact Ha | ].
  cbn [texto_digitos]. apply IH. cbn [caracteres].
  apply Forall_cons. split; [apply espaco_algarismo, Hd | exact Ha].
Qed.

(** *** Reading a number with two decimals *)

Lemma sinal_algarismo (d : Z) (r : string) :
  e_algarismo d ->
  PyFloat.sinal (String (algarismo d) r) = (false, String (algarismo d) r).
Proof. intros H. por_algarismo d H; reflexivity. Qed.

Lemma nao_e_palavra (d : Z) (r : string) :
  e_algarismo d ->
  (String.eqb (PyFloat.minusculas (String (algarismo d) r)) "inf"
   || String.eqb (PyFloat.minusculas (String (algarismo d) r)) "infinity")%bool = false /\
  String.eqb (PyFloat.minusculas (String (algarismo d) r)) "nan" = false.
Proof. intros H. por_algarismo d H; split; reflexivity. Qed.

Lemma of_str_decimal (neg : bool) (ds : list Z) (f1 f2 : Z) :
  Forall e_algarismo ds -> ds <> [] -> e_algarismo f1 -> e_algarismo f2 ->
  PyFloat.of_str
    ((if neg then "-" else "") ++
     texto_digitos ds (String "." (String (algarismo f1) (String (algarismo f2) "")))) =
  Retorna (PyFloat.com_sinal neg
             (Bin64.of_decimal (valor_digitos ds * 100 + 10 * f1 + f2) (-2))).
Proof.
  intros Hf Hne H1 H2.
  set (corpo := texto_digitos ds
                  (String "." (String (algarismo f1) (String (algarismo f2) "")))).
  assert (Hc : Forall (fun c => PyFloat.espaco c = false) (caracteres corpo)).
  { apply (texto_digitos_sem_espaco ds Hf). cbn [caracteres].
    repeat (apply Forall_cons; split);
      [reflexivity | apply espaco_algarismo, H1 | apply espaco_algarismo, H2 | constructor]. }
  assert (Hs : PyFloat.sinal (PyFloat.strip ((if neg then "-" else "") ++ corpo)) =
               (neg, corpo)).
  { rewrite strip_sem_espaco.
    - destruct neg; [reflexivity | ].
      change ("" ++ corpo) with corpo. unfold corpo.
      destruct (texto_digitos_inicio ds Hf Hne
                  (String "." (String (algarismo f1) (String (algarismo f2) ""))))
        as (d & r & Hd & ->).
      apply sinal_algarismo, Hd.
    - destruct neg; [ | exact Hc].
      change ("-" ++ corpo) with (String "-" corpo). cbn [caracteres].
      apply Forall_cons. split; [reflexivity | exact Hc]. }
  unfold PyFloat.of_str. rewrite Hs.
  assert (Hp : (String.eqb (PyFloat.minusculas corpo) "inf"
                || String.eqb (PyFloat.minusculas corpo) "infinity")%bool = false /\
               String.eqb (PyFloat.minusculas corpo) "nan" = false).
  { unfold corpo.
    destruct (texto_digitos_inicio ds Hf Hne
                (String "." (String (algarismo f1) (String (algarismo f2) ""))))
      as (d & r & Hd & ->).
    apply nao_e_palavra, Hd. }
  destruct Hp as [-> ->]. unfold corpo.
  rewrite (number_decimal ds f1 f2 Hf Hne H1 H2).
  reflexivity.
Qed.

Lemma centavos_nao_negativo (m : positive) (e : Z) : 0 <= centavos m e.
Proof.
  unfold centavos. destruct (0 <=? e) eqn:He.
  - apply Z.leb_le in He. pose proof (Z.pow_nonneg 2 e). nia.
  - apply Z.leb_gt in He.
    assert (0 < 2 ^ (- e)) by (apply Z.pow_pos_nonneg; lia).
    assert (0 <= Z.pos m * 100 / 2 ^ (- e)) by (apply Z.div_pos; lia).
    cbv zeta.
    repeat match goal with |- context [if ?b then _ else _] => destruct b end; lia.
Qed.

(** Every special value is printed by name and read back by name. *)
Lemma especial_relido (x : float) :
  match Prim2SF x with S754_finite _ _ _ => False | _ => True end ->
  converter_para_float (PStr (receita_formatada x)) = Retorna x.
Proof.
  intros H. pose proof (SF2Prim_Prim2SF x) as Hx.
  unfold receita_formatada, format_2f.
  destruct (Prim2SF x) as [s | s | | s m e]; [ | | | contradiction];
    rewrite <- Hx; try destruct s; vm_compute; reflexivity.
Qed.

(** X10.  What the dashboard reads from a revenue that the exporter has
    written.  The exporter prints a float with two decimals, a point
    between the thousands and a decimal comma, after ["R$ "]; on that text
    [converter_para_float] never raises, and returns the float nearest to
    the printed value: the revenue rounded to hundredths, ties to even.
    NaN and the infinities come back as they were.  So 1234567.891 is
    written ["R$ 1.234.567,89"] and read 1234567.89, and 0.125 is read
    0.12. *)
Theorem X10_receita_exportada_relida (x : float) :
  converter_para_float (PStr (receita_formatada x)) = Retorna (em_centavos x) /\
  receita_formatada 1234567.891 = "R$ 1.234.567,89" /\
  em_centavos 1234567.891 = 1234567.89%float /\
  em_centavos 0.125 = 0.12%float /\
  em_centavos 1234.56 = 1234.56%float.
Proof.
  split; [ | repeat split; vm_compute; reflexivity].
  unfold em_centavos. destruct (Prim2SF x) as [s | s | | s m e] eqn:Hx;
    try (apply especial_relido; rewrite Hx; exact I).
  cbn [converter_para_float]. unfold receita_formatada, format_2f. rewrite Hx.
  cbv zeta. fold (limpo_exportado
    ("R$ " ++ (if s then "-" else "") ++
       agrupa 0 (algarismos (Z.to_nat (Z.log2 (centavos m e / 100))) (centavos m e / 100))
         (String "." (String (algarismo (centavos m e mod 100 / 10))
                        (String (algarismo (centavos m e mod 10)) ""))))).
  pose proof (centavos_nao_negativo m e) as Hn.
  set (n := centavos m e) in *.
  assert (H1 : e_algarismo (n mod 100 / 10)).
  { unfold e_algarismo. Z.div_mod_to_equations. lia. }
  assert (H2 : e_algarismo (n mod 10)).
  { unfold e_algarismo. Z.div_mod_to_equations. lia. }
  assert (H0 : 0 <= n / 100) by (apply Z.div_pos; lia).
  destruct (algarismos_valor (Z.to_nat (Z.log2 (n / 100))) (n / 100) H0)
    as (Hf & Hv & Hne).
  { rewrite Z2Nat.id by apply Z.log2_nonneg. lia. }
  rewrite limpo_exportado_prefixo, limpo_exportado_sinal,
    (limpo_exportado_agrupa _ Hf), limpo_exportado_ponto,
    (limpo_exportado_algarismo _ _ H1), (limpo_exportado_algarismo _ _ H2).
  change (limpo_exportado "") with "".
  rewrite (of_str_decimal s _ _ _ Hf Hne H1 H2), Hv.
  do 3 f_equal. Z.div_mod_to_equations. lia.
Qed.

(** ** Text in the revenue column *)

Lemma percorre_retorna {A B : Type} (f : A -> resultado B) (xs : list A) (ys : list B) :
  percorre f xs = Retorna ys -> Forall (fun x => exists y, f x = Retorna y) xs.
Proof.
  revert ys. induction xs as [ | x xs IH]; intros ys; [constructor | ].
  cbn [percorre]. destruct (f x) as [y | e] eqn:Ex; cbn [liga]; [ | discriminate].
  destruct (percorre f xs) as [zs | e]; cbn [liga]; [ | discriminate].
  intros _. apply Forall_cons. split; [exists y; exact Ex | ]. apply (IH zs). reflexivity.
Qed.

(** [pd.cut] on a column of objects returns on numbers only: a string or
    [None] among the cells makes the comparison with the first edge raise
    [TypeError]. *)
Lemma cut_objeto_retorna (o : pyobj) (c : option string) :
  cut_objeto o = Retorna c -> numerico o = true.
Proof.
  unfold cut_objeto, bins. cbn [percorre]. unfold float_lt at 1.
  destruct o as [z | f | b | s | | ns | | r]; cbn [como_numero liga numerico];
    auto; discriminate.
Qed.

Lemma cut_objetos_retorna (amb : ambiente) (cells : list pyobj) (c : series) :
  forallb basico cells = true ->
  cut amb (SObject cells) = Retorna c ->
  Forall (fun o => numerico o = true) cells.
Proof.
  intros Hb. unfold cut. cbn [numerica objetos]. rewrite Hb.
  destruct (percorre cut_objeto cells) as [cs | e] eqn:Hp; cbn [liga]; [ | discriminate].
  intros _. apply percorre_retorna in Hp. eapply Forall_impl; [exact Hp | ].
  intros o [y Hy]. eapply cut_objeto_retorna, Hy.
Qed.

Lemma conversao_de_numeros (cells : list pyobj) (e : excecao) :
  Forall (fun o => numerico o = true) cells ->
  percorre converter_para_float cells = Levanta e -> e = OverflowError.
Proof.
  induction 1 as [ | o r Ho Hr IH]; [discriminate | ].
  cbn [percorre]. destruct (converter_para_float o) as [y | e'] eqn:Ey; cbn [liga].
  - destruct (percorre converter_para_float r) as [zs | e'']; cbn [liga]; [discriminate | ].
    intros [= <-]. apply IH. reflexivity.
  - intros [= <-]. destruct o; try discriminate Ho; try discriminate Ey.
    cbn [converter_para_float] in Ey. eapply of_int_levanta, Ey.
Qed.

(** X14.  Text never reaches the conversion made for it.  Whenever
    [normalizar_colunas] returns a table whose revenue is a column of
    Python objects (ints, floats, bools, strings, [None]), no cell of that
    column is a string: on a string the tiering with [pd.cut] has raised
    [TypeError] inside [normalizar_colunas].  So the conversion that
    follows finds no text to clean, and the only exception it can raise
    there is the [OverflowError] of a huge int. *)
Theorem X14_texto_nao_chega_a_conversao
    (amb : ambiente) (m m' : memoria) (df r : nat) (t t' : dataframe)
    (cells : list pyobj) :
  m !! df = Some t ->
  normalizar_colunas amb df m = (Retorna r, m') ->
  m' !! r = Some t' ->
  getitem "receita_anual" t' = Retorna (SObject cells) ->
  forallb basico cells = true ->
  Forall (fun o => forall s : string, o <> PStr s) cells /\
  (forall e : excecao,
     apply_float converter_para_float (SObject cells) = Levanta e -> e = OverflowError).
Proof.
  intros Hm Hn Ht' Hg Hb. destruct (renomear_canonica m df t Hm) as (df' & m1 & E & H1).
  unfold normalizar_colunas, mbind at 1, M_bind at 1 in Hn. rewrite E in Hn.
  apply bind_inv in Hn as ([] & m2 & E2 & Hn).
  apply bind_inv in Hn as ([] & m3 & E3 & Hn).
  apply bind_inv in Hn as ([] & m4 & E4 & Hn).
  apply bind_inv in Hn as ([] & m5 & E5 & Hn).
  injection Hn as <- <-.
  destruct (escreve_em_extrair_ano amb df' m1 _ H1) as (t2 & H2 & _).
  rewrite E2 in H2. cbn [snd] in H2.
  destruct (escreve_em_receita_por_funcionario amb df' m2 _ H2) as (t3 & H3 & _).
  rewrite E3 in H3. cbn [snd] in H3.
  rewrite (porte_efeito amb df' m3 t3 H3) in E4.
  assert (Hr : getitem "receita_anual" t3 = Retorna (SObject cells) /\
               exists c, cut amb (SObject cells) = Retorna c).
  { destruct (tem_coluna "receita_anual" t3) eqn:Hrec.
    - destruct (getitem "receita_anual" t3) as [s | e] eqn:Hs; cbn [liga] in E4;
        [ | discriminate].
      destruct (cut amb s) as [c | e] eqn:Hc; [ | discriminate].
      injection E4 as <-.
      rewrite (idade_empresa_efeito amb df' _ _ (lookup_escrita m3 df' t3 _ H3)) in E5.
      assert (Hs' : getitem "receita_anual" t' = Retorna s).
      { destruct (tem_coluna "ano_fundacao" (setitem "porte" c t3)).
        - destruct (liga (getitem "ano_fundacao" (setitem "porte" c t3))
                      (rsub amb (ano_atual amb))) as [i | e]; [ | discriminate].
          injection E5 as <-.
          rewrite (lookup_escrita _ df' _ _ (lookup_escrita m3 df' t3 _ H3)) in Ht'.
          injection Ht' as <-.
          rewrite !getitem_setitem_outro by discriminate. exact Hs.
        - injection E5 as <-.
          rewrite (lookup_escrita m3 df' t3 _ H3) in Ht'. injection Ht' as <-.
          rewrite getitem_setitem_outro by discriminate. exact Hs. }
      rewrite Hg in Hs'. injection Hs' as <-. split; [reflexivity | eauto].
    - exfalso. injection E4 as <-.
      rewrite (idade_empresa_efeito amb df' m3 t3 H3) in E5.
      assert (Hs' : tem_coluna "receita_anual" t' = false).
      { destruct (tem_coluna "ano_fundacao" t3).
        - destruct (liga (getitem "ano_fundacao" t3) (rsub amb (ano_atual amb)))
            as [i | e]; [ | discriminate].
          injection E5 as <-.
          rewrite (lookup_escrita m3 df' t3 _ H3) in Ht'. injection Ht' as <-.
          rewrite tem_coluna_setitem, Hrec. reflexivity.
        - injection E5 as <-. rewrite H3 in Ht'. injection Ht' as <-. exact Hrec. }
      rewrite (getitem_tem_coluna _ _ _ Hg) in Hs'. discriminate. }
  destruct Hr as [_ [c Hc]].
  pose proof (cut_objetos_retorna amb cells c Hb Hc) as Hnum.
  split.
  { eapply Forall_impl; [exact Hnum | ]. intros o Ho s ->. discriminate Ho. }
  intros e. unfold apply_float. destruct (vazia (SObject cells)); [discriminate | ].
  cbn [valores].
  destruct (percorre converter_para_float cells) as [ys | e'] eqn:Hp; cbn [liga];
    [discriminate | ].
  intros [= <-]. exact (conversao_de_numeros cells e' Hnum Hp).
Qed.

(** The theorem on a table whose revenue is a column of Python ints. *)
Lemma X14_texto_nao_chega_witness :
  Forall (fun o => forall s : string, o <> PStr s) [PInt 5; PFloat 2.5%float].
Proof.
  apply (X14_texto_nao_chega_a_conversao ambiente_exemplo
           [[("receita_anual", SObject [PInt 5; PFloat 2.5%float])]]
           (normalizar_colunas ambiente_exemplo 0
              [[("receita_anual", SObject [PInt 5; PFloat 2.5%float])]]).2
           0 0 [("receita_anual", SObject [PInt 5; PFloat 2.5%float])]
           [("receita_anual", SObject [PInt 5; PFloat 2.5%float]);
            ("porte", SCategory [Some "Micro"; Some "Micro"])]);
    vm_compute; reflexivity.
Defined.

(** ** The labels of the exported table *)

Lemma colunas_ordenadas_casos (t : dataframe) (c : string) :
  c ∈ colunas_ordenadas t ->
  c ∈ ["_id"; "nome_empresa"; "setor"; "receita_anual_formatada"; "numero_funcionarios";
       "pais"; "data_fundacao"; "ano_fundacao"].
Proof.
  unfold colunas_ordenadas. destruct (tem_coluna "_id" t); [auto | ].
  intros H. apply list_elem_of_further, H.
Qed.

(** Every exported label is a label that the dashboard recognises, and the
    dashboard renames it to the canonical label the column came from. *)
Lemma rotulo_exportado_reconhecido (t : dataframe) (c : string) :
  c ∈ colunas_ordenadas t ->
  is_Some (mapeamento !! rotulo_exportado c) /\
  canonico (rotulo_exportado c) = rotulo_relido c /\
  rotulo_relido c ∈ canonicos /\
  (rotulo_exportado c = "Receita Anual" -> c = "receita_anual_formatada").
Proof.
  intros H. apply colunas_ordenadas_casos in H.
  rewrite !elem_of_cons, elem_of_nil in H.
  repeat destruct H as [-> | H]; try contradiction;
    (split; [eexists; vm_compute; reflexivity | ]);
    (split; [vm_compute; reflexivity | ]);
    (split; [vm_compute; repeat first [apply list_elem_of_here | apply list_elem_of_further]
            | ]);
    vm_compute; congruence.
Qed.

(** The removal of ['receita_anual'] never happens: the label is not among
    the ordered ones. *)
Lemma colunas_para_exportar_filtro (t : dataframe) :
  colunas_para_exportar t =
  List.filter (fun col => tem_coluna col t) (colunas_ordenadas t).
Proof.
  unfold colunas_para_exportar. cbv zeta.
  rewrite (bool_decide_eq_false_2
             ("receita_anual" ∈ List.filter (fun col => tem_coluna col t) (colunas_ordenadas t)));
    [reflexivity | ].
  intros H. apply list_elem_of_In, filter_In in H as [H _]. apply list_elem_of_In in H.
  apply colunas_ordenadas_casos in H. rewrite !elem_of_cons, elem_of_nil in H.
  repeat destruct H as [H | H]; try discriminate H. exact H.
Qed.

Lemma colunas_para_exportar_elem (t : dataframe) (c : string) :
  c ∈ colunas_para_exportar t <-> c ∈ colunas_ordenadas t /\ tem_coluna c t = true.
Proof.
  rewrite colunas_para_exportar_filtro, !list_elem_of_In, filter_In. reflexivity.
Qed.

Lemma elem_of_concat {A : Type} (x : A) (ls : list (list A)) :
  x ∈ concat ls <-> exists l : list A, x ∈ l /\ l ∈ ls.
Proof.
  rewrite list_elem_of_In, in_concat. split; intros (l & H1 & H2); exists l;
    rewrite ?list_elem_of_In in *; auto.
Qed.

Lemma selecionar_presentes (ls : list string) (t : dataframe) :
  Forall (fun l => tem_coluna l t = true) ls ->
  selecionar ls t = Retorna (concat ((fun l => sob_rotulo l t) <$> ls)).
Proof.
  intros H. unfold selecionar.
  assert (E : percorre
                (fun l => if tem_coluna l t
                          then Retorna (List.filter (fun c => String.eqb c.1 l) t)
                          else Levanta KeyError) ls =
              Retorna ((fun l => sob_rotulo l t) <$> ls)).
  { induction H as [ | l r Hl Hr IH]; [reflexivity | ].
    cbn [percorre]. rewrite Hl. cbn [liga]. rewrite IH. reflexivity. }
  rewrite E. reflexivity.
Qed.

Lemma columns_sob_rotulo (l : string) (t : dataframe) :
  Forall (fun l' => l' = l) (columns (sob_rotulo l t)).
Proof.
  unfold sob_rotulo, columns. induction t as [ | [l' s] r IH]; [constructor | ].
  cbn [List.filter fst]. destruct (String.eqb l' l) eqn:E; [ | exact IH].
  apply String.eqb_eq in E. rewrite fmap_cons. apply Forall_cons. auto.
Qed.

(** The first column under a label is the one that [df[label]] reads. *)
Lemma sob_rotulo_getitem (l : string) (t : dataframe) :
  tem_coluna l t = true ->
  exists (s : series) (r : dataframe),
    sob_rotulo l t = (l, s) :: r /\ getitem l t = Retorna s.
Proof.
  unfold sob_rotulo. induction t as [ | [l' s] r IH]; [discriminate | ].
  rewrite tem_coluna_cons. cbn [List.filter getitem fst].
  destruct (String.eqb l' l) eqn:E.
  - intros _. apply String.eqb_eq in E. subst l'. eauto.
  - cbn [orb]. exact IH.
Qed.

Lemma columns_rename (d : gmap string string) (t : dataframe) :
  columns (rename d t) = (fun l => default l (d !! l)) <$> columns t.
Proof. unfold columns, rename. rewrite <- !list_fmap_compose. reflexivity. Qed.

Lemma rename_app (d : gmap string string) (t u : dataframe) :
  rename d (t ++ u)%list = (rename d t ++ rename d u)%list.
Proof. apply fmap_app. Qed.

Lemma tem_coluna_rename_sob_rotulo (l c : string) (t : dataframe) :
  rotulo_exportado c <> l -> tem_coluna l (rename rename_dict (sob_rotulo c t)) = false.
Proof.
  intros Hne. apply bool_decide_eq_false_2. rewrite columns_rename.
  intros (l' & -> & Hl')%list_elem_of_fmap.
  pose proof (columns_sob_rotulo c t) as H. rewrite Forall_forall in H.
  rewrite (H l' Hl') in Hne. apply Hne. reflexivity.
Qed.

(** Reading an exported label gives the column that was under the label
    exported as it. *)
Lemma getitem_exportado (cs : list string) (c0 : string) (t : dataframe) :
  c0 ∈ cs -> tem_coluna c0 t = true ->
  (forall c, c ∈ cs -> rotulo_exportado c = rotulo_exportado c0 -> c = c0) ->
  getitem (rotulo_exportado c0)
    (rename rename_dict (concat ((fun l => sob_rotulo l t) <$> cs))) =
  getitem c0 t.
Proof.
  intros Hin Ht Hinj. induction cs as [ | c r IH]; [apply elem_of_nil in Hin; contradiction | ].
  rewrite fmap_cons. cbn [concat]. rewrite rename_app.
  destruct (decide (c = c0)) as [-> | Hne].
  - destruct (sob_rotulo_getitem c0 t Ht) as (s & rest & -> & ->).
    unfold rename at 1. rewrite fmap_cons. cbn [fst snd app getitem].
    fold (rotulo_exportado c0). rewrite String.eqb_refl. reflexivity.
  - rewrite getitem_app_ausente.
    + apply IH.
      * apply elem_of_cons in Hin as [Hin | Hin]; [congruence | exact Hin].
      * intros c' Hc'. apply Hinj, list_elem_of_further, Hc'.
    + apply tem_coluna_rename_sob_rotulo. intros H. apply Hne, Hinj; [ | exact H].
      apply list_elem_of_here.
Qed.

Lemma percorre_formatar_floats (ext : pyobj -> resultado string) (xs : list float) :
  percorre (fun o => liga (formatar ext o) (fun x => Retorna (Some x))) (PFloat <$> xs) =
  Retorna ((fun x => Some (receita_formatada x)) <$> xs).
Proof.
  induction xs as [ | x xs IH]; [reflexivity | ].
  rewrite !fmap_cons. cbn [percorre formatar liga]. rewrite IH. reflexivity.
Qed.

(** X13.  The table that [exportar_dados_csv] writes, seen from the
    dashboard.  Every exported column comes from one of the ordered labels
    that the table has; its exported label is a key of the dashboard's
    [mapeamento], which renames it back to the canonical label it came
    from ([receita_anual] for the formatted revenue, [id] for [_id]).  The
    removal of ['receita_anual'] from the list never happens.  The file
    always has a column ['Receita Anual'], and for a [float64] revenue that
    column is text: the formatted revenue of each row. *)
Theorem X13_rotulos_exportados
    (ext : pyobj -> resultado string) (t t1 df_export : dataframe) :
  exportar_dados_csv ext t = Retorna (t1, df_export) ->
  (forall l : string,
     l ∈ columns df_export ->
     exists c : string,
       c ∈ colunas_ordenadas t1 /\ tem_coluna c t1 = true /\
       l = rotulo_exportado c /\
       is_Some (mapeamento !! l) /\
       canonico l = rotulo_relido c /\
       canonico l ∈ canonicos) /\
  colunas_para_exportar t1 =
    List.filter (fun col => tem_coluna col t1) (colunas_ordenadas t1) /\
  "Receita Anual" ∈ columns df_export /\
  (forall xs : list float,
     getitem "receita_anual" t = Retorna (SFloat64 xs) -> xs <> [] ->
     getitem "Receita Anual" df_export =
       Retorna (SObject ((fun x => PStr (receita_formatada x)) <$> xs))).
Proof.
  unfold exportar_dados_csv.
  destruct (getitem "receita_anual" t) as [s | e] eqn:Hs; cbn [liga]; [ | discriminate].
  destruct (apply_str _ s) as [f | e] eqn:Hf; cbn [liga]; [ | discriminate].
  cbv zeta. set (u := setitem "receita_anual_formatada" f t).
  assert (Hp : Forall (fun l => tem_coluna l u = true) (colunas_para_exportar u)).
  { apply Forall_forall. intros l Hl. apply colunas_para_exportar_elem in Hl. tauto. }
  rewrite (selecionar_presentes _ u Hp). cbn [liga]. intros [= <- <-].
  assert (Hraf : "receita_anual_formatada" ∈ colunas_para_exportar u).
  { apply colunas_para_exportar_elem. split.
    - unfold colunas_ordenadas. destruct (tem_coluna "_id" u);
        repeat first [apply list_elem_of_here | apply list_elem_of_further].
    - unfold u. rewrite tem_coluna_setitem, String.eqb_refl. apply orb_true_r. }
  assert (Hcols : forall l,
            l ∈ columns (rename rename_dict
                           (concat ((fun l => sob_rotulo l u) <$> colunas_para_exportar u)))
            <-> exists c, c ∈ colunas_para_exportar u /\ l = rotulo_exportado c).
  { intros l. rewrite columns_rename, list_elem_of_fmap. unfold columns.
    split.
    - intros (l' & -> & Hl'). apply list_elem_of_fmap in Hl' as ([l'' s'] & -> & Hc).
      apply elem_of_concat in Hc as (grupo & Hc & Hg).
      apply list_elem_of_fmap in Hg as (c & -> & Hc').
      exists c. split; [exact Hc' | ].
      pose proof (columns_sob_rotulo c u) as H. rewrite Forall_forall in H.
      cbn [fst]. unfold rotulo_exportado. f_equal; [ | f_equal]; apply H;
        apply list_elem_of_fmap; exists (l'', s'); auto.
    - intros (c & Hc & ->).
      assert (Ht : tem_coluna c u = true) by (apply colunas_para_exportar_elem in Hc; tauto).
      destruct (sob_rotulo_getitem c u Ht) as (s' & rest & E & _).
      exists c. split; [reflexivity | ].
      apply list_elem_of_fmap. exists (c, s'). split; [reflexivity | ].
      apply elem_of_concat. exists (sob_rotulo c u). split.
      + rewrite E. apply list_elem_of_here.
      + apply list_elem_of_fmap. exists c. auto. }
  split; [ | split; [apply colunas_para_exportar_filtro | split]].
  - intros l Hl. apply Hcols in Hl as (c & Hc & ->).
    apply colunas_para_exportar_elem in Hc as [Hc Ht].
    destruct (rotulo_exportado_reconhecido u c Hc) as (H1 & H2 & H3 & _).
    exists c. rewrite H2. auto 10.
  - apply Hcols. exists "receita_anual_formatada". split; [exact Hraf | reflexivity].
  - intros xs [= ->] Hne.
    change "Receita Anual" with (rotulo_exportado "receita_anual_formatada").
    rewrite getitem_exportado.
    + unfold u. rewrite getitem_setitem. f_equal.
      unfold apply_str in Hf. destruct xs as [ | x xs]; [contradiction | ].
      change (vazia (SFloat64 (x :: xs))) with false in Hf. cbn [valores] in Hf.
      rewrite percorre_formatar_floats in Hf. cbn [liga] in Hf. injection Hf as <-.
      rewrite <- list_fmap_compose. reflexivity.
    + exact Hraf.
    + apply colunas_para_exportar_elem in Hraf. tauto.
    + intros c Hc H. apply colunas_para_exportar_elem in Hc as [Hc _].
      apply (rotulo_exportado_reconhecido u c Hc). exact H.
Qed.

(** The theorem on a table of one company. *)
Lemma X13_rotulos_exportados_witness :
  exists t1 df_export : dataframe,
    exportar_dados_csv (fun _ => Levanta TypeError)
      [("nome_empresa", SObject [PStr "Acme"]);
       ("receita_anual", SFloat64 [1234.56%float]);
       ("numero_funcionarios", SInt64 [10])] = Retorna (t1, df_export) /\
    columns df_export = ["Nome da Empresa"; "Receita Anual"; "Nº de Funcionários"] /\
    getitem "Receita Anual" df_export = Retorna (SObject [PStr "R$ 1.234,56"]).
Proof.
  eexists _, _. split; [vm_compute; reflexivity | ].
  split; [vm_compute; reflexivity | ].
  refine (proj2 (proj2 (proj2 (X13_rotulos_exportados (fun _ => Levanta TypeError)
           [("nome_empresa", SObject [PStr "Acme"]);
            ("receita_anual", SFloat64 [1234.56%float]);
            ("numero_funcionarios", SInt64 [10])] _ _ _))) [1234.56%float] _ _);
    [vm_compute; reflexivity | reflexivity | discriminate].
Defined.

(** ** The filters of [update_graficos] *)

Lemma liga_retorna {A B : Type} (r : resultado A) (k : A -> resultado B) (y : B) :
  liga r k = Retorna y -> exists x, r = Retorna x /\ k x = Retorna y.
Proof. destruct r as [x | e]; cbn [liga]; [eauto | discriminate]. Qed.

Lemma mascara_nil {A : Type} (m : list bool) : mascara m ([] : list A) = [].
Proof. destruct m; reflexivity. Qed.

Lemma mascara_compoe {A : Type} (m1 : list bool) :
  forall (m2 : list bool) (xs : list A),
    mascara m2 (mascara m1 xs) = mascara (compoe m1 m2) xs.
Proof.
  induction m1 as [ | b r1 IH]; intros m2 xs.
  - cbn [mascara compoe]. apply mascara_nil.
  - destruct xs as [ | x xs].
    + cbn [mascara]. rewrite !mascara_nil. reflexivity.
    + destruct b; cbn [mascara compoe].
      * destruct m2 as [ | b2 r2]; [reflexivity | ].
        cbn [mascara]. rewrite IH. reflexivity.
      * apply IH.
Qed.

Lemma mascara_todos {A : Type} (xs : list A) (n : nat) :
  (length xs <= n)%nat -> mascara (replicate n true) xs = xs.
Proof.
  revert n. induction xs as [ | x xs IH]; intros n Hn; [apply mascara_nil | ].
  destruct n as [ | n]; [cbn in Hn; lia | ].
  cbn [replicate mascara]. rewrite IH; [reflexivity | cbn in Hn; lia].
Qed.

Lemma mascara_fmap {A B : Type} (f : A -> B) (m : list bool) :
  forall xs : list A, mascara m (f <$> xs) = f <$> mascara m xs.
Proof.
  induction m as [ | b m IH]; intros xs; [reflexivity | ].
  destruct xs as [ | x xs]; [reflexivity | ].
  rewrite fmap_cons. cbn [mascara]. destruct b; rewrite IH; reflexivity.
Qed.

Lemma mascara_Forall {A : Type} (P : A -> Prop) (m : list bool) :
  forall xs : list A, Forall P xs -> Forall P (mascara m xs).
Proof.
  induction m as [ | b m IH]; intros xs H; [constructor | ].
  destruct H as [ | x xs Hx Hxs]; [constructor | ].
  cbn [mascara]. destruct b; [apply Forall_cons; split; [exact Hx | ] | ]; apply IH, Hxs.
Qed.

Lemma mascara_sublist {A : Type} (m : list bool) :
  forall xs : list A, mascara m xs `sublist_of` xs.
Proof.
  induction m as [ | b m IH]; intros xs; [apply sublist_nil_l | ].
  destruct xs as [ | x xs]; [constructor | ].
  cbn [mascara]. destruct b; [apply sublist_skip | apply sublist_cons]; apply IH.
Qed.

(** The rows that a conjunction of two tests keeps pass both tests. *)
Lemma mascara_dos_testes {A : Type} (f g : A -> bool) (xs : list A) :
  Forall (fun x => f x = true /\ g x = true)
    (mascara (zip_with andb (f <$> xs) (g <$> xs)) xs).
Proof.
  induction xs as [ | x xs IH]; [constructor | ].
  rewrite !fmap_cons. cbn [zip_with mascara].
  destruct (f x) eqn:Hf; destruct (g x) eqn:Hg; cbn [andb]; try exact IH.
  apply Forall_cons. auto.
Qed.


Lemma valores_filtra_series (m : list bool) (s : series) :
  valores (filtra_series m s) = mascara m (valores s).
Proof. destruct s; cbn [filtra_series valores]; rewrite ?mascara_fmap; reflexivity. Qed.

Lemma filtra_series_compoe (m1 m2 : list bool) (s : series) :
  filtra_series m2 (filtra_series m1 s) = filtra_series (compoe m1 m2) s.
Proof. destruct s; cbn [filtra_series]; rewrite mascara_compoe; reflexivity. Qed.

Lemma filtra_compoe (m1 m2 : list bool) (t : dataframe) :
  filtra m2 (filtra m1 t) = filtra (compoe m1 m2) t.
Proof.
  unfold filtra. rewrite <- list_fmap_compose. apply list_fmap_ext.
  intros i [l s] _. cbn. rewrite filtra_series_compoe. reflexivity.
Qed.

Lemma filtra_series_todos (s : series) (n : nat) :
  (length (valores s) <= n)%nat -> filtra_series (replicate n true) s = s.
Proof.
  destruct s; cbn [valores filtra_series]; rewrite ?length_fmap; intros H;
    rewrite mascara_todos by exact H; reflexivity.
Qed.

Lemma filtra_todos (t : dataframe) : filtra (replicate (altura t) true) t = t.
Proof.
  assert (H : forall n, (altura t <= n)%nat -> filtra (replicate n true) t = t).
  { induction t as [ | [l s] r IH]; intros n Hn; [reflexivity | ].
    cbn [altura foldr snd] in Hn. fold (altura r) in Hn.
    unfold filtra. rewrite fmap_cons. cbn [fst snd].
    rewrite filtra_series_todos by lia. f_equal. apply IH. lia. }
  apply H. lia.
Qed.

Lemma columns_filtra (m : list bool) (t : dataframe) : columns (filtra m t) = columns t.
Proof. unfold columns, filtra. rewrite <- list_fmap_compose. reflexivity. Qed.

Lemma getitem_filtra (l : string) (m : list bool) (t : dataframe) :
  getitem l (filtra m t) =
  match getitem l t with
  | Retorna s => Retorna (filtra_series m s)
  | Levanta e => Levanta e
  end.
Proof.
  induction t as [ | [l' s] r IH]; [reflexivity | ].
  unfold filtra. rewrite fmap_cons. cbn [getitem fst snd].
  destruct (String.eqb l' l); [reflexivity | exact IH].
Qed.

Lemma tem_coluna_filtra (l : string) (m : list bool) (t : dataframe) :
  tem_coluna l (filtra m t) = tem_coluna l t.
Proof. unfold tem_coluna. rewrite columns_filtra. reflexivity. Qed.

(** *** What one filter does *)

Lemma entre_efeito (ext : sentido -> series -> numero -> resultado (list bool))
    (limite : numero -> resultado numero) (label : string) (faixa : numero * numero)
    (dff dff' : dataframe) :
  entre ext limite label faixa dff = Retorna dff' ->
  exists (s : series) (lo hi : numero) (m1 m2 : list bool),
    getitem label dff = Retorna s /\
    limite faixa.1 = Retorna lo /\ limite faixa.2 = Retorna hi /\
    compara ext MaiorIgual s lo = Retorna m1 /\
    compara ext MenorIgual s hi = Retorna m2 /\
    dff' = filtra (zip_with andb m1 m2) dff.
Proof.
  unfold entre. intros H.
  apply liga_retorna in H as (s & Hs & H).
  apply liga_retorna in H as (lo & Hlo & H).
  apply liga_retorna in H as (m1 & H1 & H).
  rewrite Hs in H. cbn [liga] in H.
  apply liga_retorna in H as (hi & Hhi & H).
  apply liga_retorna in H as (m2 & H2 & H).
  injection H as <-. exists s, lo, hi, m1, m2. auto 10.
Qed.

Lemma entre_os_efeito (ext : series -> list string -> resultado (list bool))
    (label : string) (values : option (list string)) (dff dff' : dataframe) :
  entre_os ext label values dff = Retorna dff' ->
  (dff' = dff /\ (values = None \/ values = Some [])) \/
  (exists (v : string) (vs : list string) (s : series) (m : list bool),
     values = Some (v :: vs) /\ getitem label dff = Retorna s /\
     isin ext s (v :: vs) = Retorna m /\ dff' = filtra m dff).
Proof.
  unfold entre_os. destruct values as [[ | v vs] | ].
  - intros [= <-]. left. auto.
  - intros H. right.
    apply liga_retorna in H as (s & Hs & H).
    apply liga_retorna in H as (m & Hm & H).
    injection H as <-. exists v, vs, s, m. auto.
  - intros [= <-]. left. auto.
Qed.

Lemma entre_filtra (ext : sentido -> series -> numero -> resultado (list bool))
    (limite : numero -> resultado numero) (label : string) (faixa : numero * numero)
    (dff dff' : dataframe) :
  entre ext limite label faixa dff = Retorna dff' ->
  tem_coluna label dff = true /\ exists m, dff' = filtra m dff.
Proof.
  intros H. apply entre_efeito in H as (s & lo & hi & m1 & m2 & Hs & _ & _ & _ & _ & ->).
  split; [eapply getitem_tem_coluna, Hs | eauto].
Qed.

Lemma entre_os_filtra (ext : series -> list string -> resultado (list bool))
    (label : string) (values : option (list string)) (dff dff' : dataframe) :
  entre_os ext label values dff = Retorna dff' ->
  (forall v vs, values = Some (v :: vs) -> tem_coluna label dff = true) /\
  exists m, dff' = filtra m dff.
Proof.
  intros H. apply entre_os_efeito in H as [[-> H] | (v & vs & s & m & -> & Hs & _ & ->)].
  - split; [ | exists (replicate (altura dff) true); symmetry; apply filtra_todos].
    intros v vs ->. destruct H; discriminate.
  - split; [ | eauto]. intros _ _ _. eapply getitem_tem_coluna, Hs.
Qed.

(** X15.  The rows that [update_graficos] works on.  When its five
    filters return, the table [dff] is the table [df] of the module
    restricted to some of its rows: one selection of rows for all the
    columns, under the labels and in the order that [df] has.  They return
    only if [df] has the columns [receita_anual], [numero_funcionarios] and
    [ano_fundacao], whatever the controls hold, and the columns [setor] and
    [porte] when a sector or a tier is selected: on a table that lacks one
    of them the callback raises. *)
Theorem X15_linhas_filtradas
    (ext : sentido -> series -> numero -> resultado (list bool))
    (isin_ext : series -> list string -> resultado (list bool))
    (df dff : dataframe)
    (setores_selecionados porte_selecionado : option (list string))
    (faixa_receita faixa_funcionarios faixa_ano : numero * numero) :
  update_graficos_dff ext isin_ext df setores_selecionados
    faixa_receita faixa_funcionarios faixa_ano porte_selecionado = Retorna dff ->
  (exists m : list bool, dff = filtra m df) /\
  columns dff = columns df /\
  (forall (l : string) (s' : series),
     getitem l dff = Retorna s' ->
     exists s, getitem l df = Retorna s /\ valores s' `sublist_of` valores s) /\
  tem_coluna "receita_anual" df = true /\
  tem_coluna "numero_funcionarios" df = true /\
  tem_coluna "ano_fundacao" df = true /\
  (forall v vs, setores_selecionados = Some (v :: vs) -> tem_coluna "setor" df = true) /\
  (forall v vs, porte_selecionado = Some (v :: vs) -> tem_coluna "porte" df = true).
Proof.
  unfold update_graficos_dff. intros H.
  apply liga_retorna in H as (d1 & H1 & H).
  apply liga_retorna in H as (d2 & H2 & H).
  apply liga_retorna in H as (d3 & H3 & H).
  apply liga_retorna in H as (d4 & H4 & H).
  apply entre_os_filtra in H1 as (T1 & m1 & ->).
  apply entre_filtra in H2 as (T2 & m2 & ->).
  apply entre_filtra in H3 as (T3 & m3 & ->).
  apply entre_filtra in H4 as (T4 & m4 & ->).
  apply entre_os_filtra in H as (T5 & m5 & ->).
  rewrite !filtra_compoe in *. rewrite ?tem_coluna_filtra in *.
  split; [eexists; reflexivity | ]. split; [apply columns_filtra | ].
  split; [ | auto 10].
  intros l s'. rewrite getitem_filtra. destruct (getitem l df) as [s | e]; [ | discriminate].
  intros [= <-]. exists s. split; [reflexivity | ].
  rewrite valores_filtra_series. apply mascara_sublist.
Qed.

(** The theorem on the table of two companies, with the controls as the
    page opens them. *)
Lemma X15_linhas_filtradas_witness :
  exists m : list bool,
    [ ("setor", SObject [PStr "Energia"]);
      ("receita_anual", SFloat64 [2500000%float]);
      ("numero_funcionarios", SInt64 [10]);
      ("ano_fundacao", SInt64 [2000]);
      ("porte", SCategory [Some "Micro"]) ] = filtra m tabela_painel.
Proof.
  apply (X15_linhas_filtradas (fun _ _ _ => Levanta TypeError) (fun _ _ => Levanta TypeError)
           tabela_painel _ None None (NInt 0, NInt 3) (NInt 0, NInt 20) (NInt 2000, NInt 2010)).
  vm_compute. reflexivity.
Defined.

(** *** What the filters keep *)

Lemma SFleb_presente_r (a x : spec_float) : SFleb a x = true -> SFeqb x x = true.
Proof. ordem. Qed.

Lemma leb_presente_r (a x : float) : (a <=? x)%float = true -> is_nan x = false.
Proof.
  unfold is_nan. rewrite leb_spec, FloatAxioms.eqb_spec.
  intros H. rewrite (SFleb_presente_r _ _ H). reflexivity.
Qed.

Lemma hereditaria_floats (P : float -> Prop) : hereditaria (floats_em P).
Proof.
  intros m s (xs & -> & H). exists (mascara m xs). split; [reflexivity | ].
  apply mascara_Forall, H.
Qed.

Lemma hereditaria_ints (P : Z -> Prop) : hereditaria (ints_em P).
Proof.
  intros m s (xs & -> & H). exists (mascara m xs). split; [reflexivity | ].
  apply mascara_Forall, H.
Qed.



Lemma coluna_filtra (l : string) (Q : series -> Prop) (m : list bool) (t : dataframe) :
  hereditaria Q -> coluna l Q t -> coluna l Q (filtra m t).
Proof.
  intros HQ (s & Hs & H). exists (filtra_series m s).
  rewrite getitem_filtra, Hs. split; [reflexivity | apply HQ, H].
Qed.

Lemma entre_mantem (ext : sentido -> series -> numero -> resultado (list bool))
    (limite : numero -> resultado numero) (label : string) (faixa : numero * numero)
    (dff dff' : dataframe) (l : string) (Q : series -> Prop) :
  hereditaria Q ->
  entre ext limite label faixa dff = Retorna dff' -> coluna l Q dff -> coluna l Q dff'.
Proof.
  intros HQ H Hc. apply entre_filtra in H as (_ & m & ->). apply coluna_filtra; assumption.
Qed.

Lemma entre_os_mantem (ext : series -> list string -> resultado (list bool))
    (label : string) (values : option (list string))
    (dff dff' : dataframe) (l : string) (Q : series -> Prop) :
  hereditaria Q ->
  entre_os ext label values dff = Retorna dff' -> coluna l Q dff -> coluna l Q dff'.
Proof.
  intros HQ H Hc. apply entre_os_filtra in H as (_ & m & ->).
  apply coluna_filtra; assumption.
Qed.

Lemma compara_float64 (ext : sentido -> series -> numero -> resultado (list bool))
    (op : sentido) (xs : list float) (n : numero) (b : float) :
  limite_float n = Some b ->
  compara ext op (SFloat64 xs) n = Retorna ((fun x => compara_floats op x b) <$> xs).
Proof.
  destruct n as [z | f]; cbn [limite_float compara].
  - destruct (is_infinity (Bin64.of_Z z)); [discriminate | ]. intros [= <-]. reflexivity.
  - intros [= <-]. reflexivity.
Qed.

(** A range filter on a [float64] column keeps the cells between the
    bounds, none of which is NaN. *)
Lemma entre_floats (ext : sentido -> series -> numero -> resultado (list bool))
    (limite : numero -> resultado numero) (label : string) (faixa : numero * numero)
    (dff dff' : dataframe) (n1 n2 : numero) (lo hi : float) :
  entre ext limite label faixa dff = Retorna dff' ->
  coluna label (floats_em (fun _ => True)) dff ->
  limite faixa.1 = Retorna n1 -> limite faixa.2 = Retorna n2 ->
  limite_float n1 = Some lo -> limite_float n2 = Some hi ->
  coluna label (floats_em (fun x => dentro lo hi x /\ is_nan x = false)) dff'.
Proof.
  intros H (s0 & Hs0 & xs & -> & _) E1 E2 L1 L2.
  apply entre_efeito in H as (s & lo' & hi' & m1 & m2 & Hs & Hlo & Hhi & H1 & H2 & ->).
  rewrite Hs0 in Hs. injection Hs as <-.
  rewrite E1 in Hlo. injection Hlo as <-. rewrite E2 in Hhi. injection Hhi as <-.
  rewrite (compara_float64 _ _ _ _ _ L1) in H1. injection H1 as <-.
  rewrite (compara_float64 _ _ _ _ _ L2) in H2. injection H2 as <-.
  eexists. rewrite getitem_filtra, Hs0. split; [reflexivity | ].
  cbn [filtra_series]. eexists. split; [reflexivity | ].
  eapply Forall_impl; [apply mascara_dos_testes | ].
  cbn [compara_floats]. intros x [Ha Hb]. split; [split; assumption | ].
  eapply leb_presente_r, Ha.
Qed.

(** A range filter on an [int64] column, with ints as bounds. *)
Lemma entre_ints (ext : sentido -> series -> numero -> resultado (list bool))
    (label : string) (a b : Z) (dff dff' : dataframe) :
  entre ext (fun n => Retorna n) label (NInt a, NInt b) dff = Retorna dff' ->
  coluna label (ints_em (fun _ => True)) dff ->
  - 2 ^ 63 <= a < 2 ^ 63 -> - 2 ^ 63 <= b < 2 ^ 63 ->
  coluna label (ints_em (fun z => a <= z <= b)) dff'.
Proof.
  intros H (s0 & Hs0 & xs & -> & _) Ha Hb.
  apply entre_efeito in H as (s & lo' & hi' & m1 & m2 & Hs & Hlo & Hhi & H1 & H2 & ->).
  rewrite Hs0 in Hs. injection Hs as <-.
  cbn [fst snd] in Hlo, Hhi. injection Hlo as <-. injection Hhi as <-.
  cbn [compara] in H1, H2.
  assert (Ea : (- 2 ^ 63 <=? a) && (a <? 2 ^ 63) = true).
  { apply andb_true_intro. split; [apply Z.leb_le | apply Z.ltb_lt]; lia. }
  assert (Eb : (- 2 ^ 63 <=? b) && (b <? 2 ^ 63) = true).
  { apply andb_true_intro. split; [apply Z.leb_le | apply Z.ltb_lt]; lia. }
  rewrite Ea in H1. rewrite Eb in H2. injection H1 as <-. injection H2 as <-.
  eexists. rewrite getitem_filtra, Hs0. split; [reflexivity | ].
  cbn [filtra_series]. eexists. split; [reflexivity | ].
  eapply Forall_impl; [apply mascara_dos_testes | ].
  cbn [compara_ints]. intros z [H1 H2]. apply Z.leb_le in H1, H2. lia.
Qed.

Lemma coluna_floats (l : string) (xs : list float) (t : dataframe) :
  getitem l t = Retorna (SFloat64 xs) -> coluna l (floats_em (fun _ => True)) t.
Proof.
  intros H. exists (SFloat64 xs). split; [exact H | ]. exists xs. split; [reflexivity | ].
  apply Forall_forall. auto.
Qed.

Lemma coluna_ints (l : string) (xs : list Z) (t : dataframe) :
  getitem l t = Retorna (SInt64 xs) -> coluna l (ints_em (fun _ => True)) t.
Proof.
  intros H. exists (SInt64 xs). split; [exact H | ]. exists xs. split; [reflexivity | ].
  apply Forall_forall. auto.
Qed.

(** X16.  What the range filters of [update_graficos] let through.  When
    the filters return, every revenue left in [dff] lies between the two
    values of the revenue slider times [1e6]; every number of employees
    and every year left lies between the values of its slider.  On a
    [float64] column the comparisons are those of the floats, which NaN
    fails: a company with no revenue, no number of employees or no year on
    record is in no chart, whatever the sliders are set to. *)
Theorem X16_faixas_dos_filtros
    (ext : sentido -> series -> numero -> resultado (list bool))
    (isin_ext : series -> list string -> resultado (list bool))
    (df dff : dataframe)
    (setores_selecionados porte_selecionado : option (list string))
    (faixa_receita faixa_funcionarios faixa_ano : numero * numero) :
  update_graficos_dff ext isin_ext df setores_selecionados
    faixa_receita faixa_funcionarios faixa_ano porte_selecionado = Retorna dff ->
  (forall xs : list float,
     getitem "receita_anual" df = Retorna (SFloat64 xs) ->
     exists f1 f2 : float,
       como_float faixa_receita.1 = Retorna f1 /\
       como_float faixa_receita.2 = Retorna f2 /\
       coluna "receita_anual"
         (floats_em (fun x => dentro (f1 * 1e6) (f2 * 1e6) x /\ is_nan x = false)) dff) /\
  (forall (xs : list float) (lo hi : float),
     getitem "numero_funcionarios" df = Retorna (SFloat64 xs) ->
     limite_float faixa_funcionarios.1 = Some lo ->
     limite_float faixa_funcionarios.2 = Some hi ->
     coluna "numero_funcionarios"
       (floats_em (fun x => dentro lo hi x /\ is_nan x = false)) dff) /\
  (forall (zs : list Z) (a b : Z),
     getitem "numero_funcionarios" df = Retorna (SInt64 zs) ->
     faixa_funcionarios = (NInt a, NInt b) ->
     - 2 ^ 63 <= a < 2 ^ 63 -> - 2 ^ 63 <= b < 2 ^ 63 ->
     coluna "numero_funcionarios" (ints_em (fun z => a <= z <= b)) dff) /\
  (forall (xs : list float) (lo hi : float),
     getitem "ano_fundacao" df = Retorna (SFloat64 xs) ->
     limite_float faixa_ano.1 = Some lo ->
     limite_float faixa_ano.2 = Some hi ->
     coluna "ano_fundacao" (floats_em (fun x => dentro lo hi x /\ is_nan x = false)) dff) /\
  (forall (zs : list Z) (a b : Z),
     getitem "ano_fundacao" df = Retorna (SInt64 zs) ->
     faixa_ano = (NInt a, NInt b) ->
     - 2 ^ 63 <= a < 2 ^ 63 -> - 2 ^ 63 <= b < 2 ^ 63 ->
     coluna "ano_fundacao" (ints_em (fun z => a <= z <= b)) dff).
Proof.
  unfold update_graficos_dff. intros H.
  apply liga_retorna in H as (d1 & H1 & H).
  apply liga_retorna in H as (d2 & H2 & H).
  apply liga_retorna in H as (d3 & H3 & H).
  apply liga_retorna in H as (d4 & H4 & H5).
  split; [ | split; [ | split; [ | split]]].
  - intros xs Hx. apply coluna_floats in Hx.
    apply (entre_os_mantem _ _ _ _ _ _ _ (hereditaria_floats _) H1) in Hx.
    pose proof (entre_efeito _ _ _ _ _ _ H2)
      as (s & lo & hi & m1 & m2 & _ & Hlo & Hhi & _).
    unfold vezes_1e6 in Hlo, Hhi.
    apply liga_retorna in Hlo as (f1 & Hf1 & Hlo). injection Hlo as <-.
    apply liga_retorna in Hhi as (f2 & Hf2 & Hhi). injection Hhi as <-.
    exists f1, f2. split; [exact Hf1 | ]. split; [exact Hf2 | ].
    assert (E1 : vezes_1e6 faixa_receita.1 = Retorna (NFloat (f1 * 1e6)))
      by (unfold vezes_1e6; rewrite Hf1; reflexivity).
    assert (E2 : vezes_1e6 faixa_receita.2 = Retorna (NFloat (f2 * 1e6)))
      by (unfold vezes_1e6; rewrite Hf2; reflexivity).
    pose proof (entre_floats _ _ _ _ _ _ _ _ _ _ H2 Hx E1 E2 eq_refl eq_refl) as Hc.
    apply (entre_mantem _ _ _ _ _ _ _ _ (hereditaria_floats _) H3) in Hc.
    apply (entre_mantem _ _ _ _ _ _ _ _ (hereditaria_floats _) H4) in Hc.
    apply (entre_os_mantem _ _ _ _ _ _ _ (hereditaria_floats _) H5) in Hc.
    exact Hc.
  - intros xs lo hi Hx L1 L2. apply coluna_floats in Hx.
    apply (entre_os_mantem _ _ _ _ _ _ _ (hereditaria_floats _) H1) in Hx.
    apply (entre_mantem _ _ _ _ _ _ _ _ (hereditaria_floats _) H2) in Hx.
    pose proof (entre_floats _ _ _ _ _ _ _ _ _ _ H3 Hx eq_refl eq_refl L1 L2) as Hc.
    apply (entre_mantem _ _ _ _ _ _ _ _ (hereditaria_floats _) H4) in Hc.
    apply (entre_os_mantem _ _ _ _ _ _ _ (hereditaria_floats _) H5) in Hc.
    exact Hc.
  - intros zs a b Hx -> Ha Hb. apply coluna_ints in Hx.
    apply (entre_os_mantem _ _ _ _ _ _ _ (hereditaria_ints _) H1) in Hx.
    apply (entre_mantem _ _ _ _ _ _ _ _ (hereditaria_ints _) H2) in Hx.
    pose proof (entre_ints _ _ _ _ _ _ H3 Hx Ha Hb) as Hc.
    apply (entre_mantem _ _ _ _ _ _ _ _ (hereditaria_ints _) H4) in Hc.
    apply (entre_os_mantem _ _ _ _ _ _ _ (hereditaria_ints _) H5) in Hc.
    exact Hc.
  - intros xs lo hi Hx L1 L2. apply coluna_floats in Hx.
    apply (entre_os_mantem _ _ _ _ _ _ _ (hereditaria_floats _) H1) in Hx.
    apply (entre_mantem _ _ _ _ _ _ _ _ (hereditaria_floats _) H2) in Hx.
    apply (entre_mantem _ _ _ _ _ _ _ _ (hereditaria_floats _) H3) in Hx.
    pose proof (entre_floats _ _ _ _ _ _ _ _ _ _ H4 Hx eq_refl eq_refl L1 L2) as Hc.
    apply (entre_os_mantem _ _ _ _ _ _ _ (hereditaria_floats _) H5) in Hc.
    exact Hc.
  - intros zs a b Hx -> Ha Hb. apply coluna_ints in Hx.
    apply (entre_os_mantem _ _ _ _ _ _ _ (hereditaria_ints _) H1) in Hx.
    apply (entre_mantem _ _ _ _ _ _ _ _ (hereditaria_ints _) H2) in Hx.
    apply (entre_mantem _ _ _ _ _ _ _ _ (hereditaria_ints _) H3) in Hx.
    pose proof (entre_ints _ _ _ _ _ _ H4 Hx Ha Hb) as Hc.
    apply (entre_os_mantem _ _ _ _ _ _ _ (hereditaria_ints _) H5) in Hc.
    exact Hc.
Qed.

(** The theorem on the table of two companies: the company with no
    revenue on record is left out. *)
Lemma X16_faixas_dos_filtros_witness :
  exists f1 f2 : float,
    como_float (NInt 0) = Retorna f1 /\
    como_float (NInt 3) = Retorna f2 /\
    coluna "receita_anual"
      (floats_em (fun x => dentro (f1 * 1e6) (f2 * 1e6) x /\ is_nan x = false))
      [ ("setor", SObject [PStr "Energia"]);
        ("receita_anual", SFloat64 [2500000%float]);
        ("numero_funcionarios", SInt64 [10]);
        ("ano_fundacao", SInt64 [2000]);
        ("porte", SCategory [Some "Micro"]) ].
Proof.
  refine (proj1 (X16_faixas_dos_filtros
                   (fun _ _ _ => Levanta TypeError) (fun _ _ => Levanta TypeError)
                   tabela_painel _ None None (NInt 0, NInt 3) (NInt 0, NInt 20)
                   (NInt 2000, NInt 2010) _) [2500000%float; nan] _);
    vm_compute; reflexivity.
Defined.

(** *** The selections *)




